(** * MyPlan: task store, engagement tracker and notification scheduler

    A shallow embedding of [src/storage.js] (class TaskStorage) and of the
    last revision of [src/script.js] (classes NotificationManager and
    MyPlanApp, lines 2063-3814), followed by the properties of the
    specification that were checked against it.

    Conventions.
    - JavaScript numbers are modelled by exact rationals ([Q]); timestamps
      (the value of Date.now(), or of a Date object) are integers, in
      milliseconds.  Every clock reading and every Math.random() sample a
      method takes is an explicit argument of its model, in the order in
      which the method reads them.
    - The browser built-ins the code calls (JSON, localStorage quota, the
      local-time accessors of Date) are the fields of the class [Host].
    - Rendering (DOM updates, timers that only hide an element, console
      output) is not part of the state: a method returns the directive it
      hands to the rendering layer. *)

From Stdlib Require Import ZArith QArith Qminmax Qround Lqa Lia.
From stdpp Require Import base option list strings gmap sorting.

#[local] Set Warnings "-register-all".
Local Open Scope Z_scope.
Local Open Scope string_scope.

(** ** JavaScript values as they come out of JSON.parse *)

Inductive json : Type :=
  | JNull
  | JBool (b : bool)
  | JNumber (q : Q)
  | JString (s : string)
  | JArray (items : list json)
  | JObject (fields : list (string * json)).

(** Outcome of a property read [v.k]. *)
Inductive access : Type :=
  | Throws                (* TypeError: v is null *)
  | Undefined
  | Value (v : json).

Fixpoint assoc (k : string) (fields : list (string * json)) : option json :=
  match fields with
  | [] => None
  | (k', v) :: rest => if String.eqb k k' then Some v else assoc k rest
  end.

(** [v.k] for the keys the code reads (tasks, settings, length).  Of a
    length the code uses only that reading it does not throw. *)
Definition getMember (v : json) (k : string) : access :=
  match v with
  | JNull => Throws
  | JObject fields =>
      match assoc k fields with Some x => Value x | None => Undefined end
  | JArray items =>
      if String.eqb k "length" then Value (JNumber (inject_Z (Z.of_nat (length items))))
      else Undefined
  | JString s =>
      if String.eqb k "length" then Value (JNumber (inject_Z (Z.of_nat (String.length s))))
      else Undefined
  | JBool _ | JNumber _ => Undefined
  end.

(** ToBoolean. *)
Definition truthy (v : json) : bool :=
  match v with
  | JNull => false
  | JBool b => b
  | JNumber q => negb (Qeq_bool q 0)
  | JString s => negb (String.eqb s "")
  | JArray _ | JObject _ => true
  end.

Definition truthyAccess (a : access) : bool :=
  match a with
  | Value v => truthy v
  | _ => false
  end.

(** The value read; [undefined] has no JSON form and is only ever tested
    for truthiness before use. *)
Definition valueOf (a : access) : json :=
  match a with
  | Value v => v
  | _ => JNull
  end.

(** Array.isArray *)
Definition isArray (a : access) : bool :=
  match a with
  | Value (JArray _) => true
  | _ => false
  end.

(** ** The host environment *)

Class Host : Type := {
  (* JSON.parse; None when it throws a SyntaxError *)
  JSON_parse : string -> option json;
  JSON_stringify : json -> string;
  (* whether localStorage accepts this content (quota, availability) *)
  storageFits : gmap string string -> bool;
  (* Date.prototype.getHours / toDateString / toISOString of a timestamp *)
  getHours : Z -> Z;
  toDateString : Z -> string;
  toISOString : Z -> string
}.

(** Further built-ins, used by the methods beyond import and save. *)
Class HostExtra : Type := {
  (* JSON.stringify(value, null, 2) *)
  JSON_stringify_indented : json -> string;
  (* the object literal {...a, ...b} *)
  objectSpread : json -> json -> json;
  (* new Blob([text]).size *)
  blobSize : string -> Z
}.

(** ** storage.js : class TaskStorage *)

Module TaskStorage.
Section WithHost.
Context {host : Host}.

(** The effect of a method on localStorage; [None] is a thrown exception.
    A throw keeps what was written before it. *)
Definition Eff (A : Type) : Type :=
  gmap string string -> option A * gmap string string.

Definition ret {A} (a : A) : Eff A := fun ls => (Some a, ls).
Definition throw {A} : Eff A := fun ls => (None, ls).
Definition bind {A B} (m : Eff A) (f : A -> Eff B) : Eff B :=
  fun ls => match m ls with
            | (Some a, ls') => f a ls'
            | (None, ls') => (None, ls')
            end.
Definition try_catch {A} (body handler : Eff A) : Eff A :=
  fun ls => match body ls with
            | (Some a, ls') => (Some a, ls')
            | (None, ls') => handler ls'
            end.

Notation "'let!' x ':=' m 'in' k" := (bind m (fun x => k))
  (at level 10, x name, m at level 100, k at level 200).
Notation "'do!' m 'in' k" := (bind m (fun _ => k))
  (at level 10, m at level 100, k at level 200).

(** localStorage.setItem *)
Definition setItem (k v : string) : Eff unit :=
  fun ls => if storageFits (<[k:=v]> ls) then (Some tt, <[k:=v]> ls)
            else (None, ls).

(** Evaluation of an expression that throws exactly when the read does. *)
Definition eval (a : access) : Eff access :=
  match a with
  | Throws => throw
  | _ => ret a
  end.

Definition storageKey : string := "myplan_tasks".
Definition settingsKey : string := "myplan_settings".

Definition taskData (tasks : json) (now : Z) : json :=
  JObject [("tasks", tasks);
           ("lastModified", JString (toISOString now));
           ("version", JString "1.0")].

(** saveTasks(tasks), lines 62-77.  The console.log after the write reads
    tasks.length. *)
Definition saveTasks (tasks : json) (now : Z) : Eff bool :=
  try_catch
    (do! setItem storageKey (JSON_stringify (taskData tasks now)) in
     do! eval (getMember tasks "length") in
     ret true)
    (ret false).

(** saveSettings(settings), lines 197-205 *)
Definition saveSettings (settings : json) : Eff bool :=
  try_catch
    (do! setItem settingsKey (JSON_stringify settings) in ret true)
    (ret false).

(** importTasks(jsonData), lines 244-267.  The console.log before
    [return true] reads importData.tasks.length. *)
Definition importTasks (jsonData : string) (now : Z) : Eff bool :=
  try_catch
    (match JSON_parse jsonData with
     | None => throw
     | Some importData =>
         let! tasks := eval (getMember importData "tasks") in
         if negb (truthyAccess tasks) || negb (isArray tasks) then throw
         else
           let! success := saveTasks (valueOf tasks) now in
           let! settings := eval (getMember importData "settings") in
           do! (if truthyAccess settings && success
                then do! saveSettings (valueOf settings) in ret tt
                else ret tt) in
           do! eval (getMember (valueOf tasks) "length") in
           ret true
     end)
    (ret false).

End WithHost.

Section Collection.
Context {host : Host} {extra : HostExtra}.

Notation "'let!' x ':=' m 'in' k" := (bind m (fun x => k))
  (at level 10, x name, m at level 100, k at level 200).
Notation "'do!' m 'in' k" := (bind m (fun _ => k))
  (at level 10, m at level 100, k at level 200).

(** localStorage.getItem and removeItem *)
Definition getItem (k : string) : Eff (option string) :=
  fun ls => (Some (ls !! k), ls).

Definition removeItem (k : string) : Eff unit :=
  fun ls => (Some tt, delete k ls).

(** A computation without effect that may throw. *)
Definition lift {A} (o : option A) : Eff A :=
  match o with
  | Some a => ret a
  | None => throw
  end.

Definition arrayItems (v : json) : list json :=
  match v with
  | JArray items => items
  | _ => []
  end.

(** loadTasks(), lines 83-105 *)
Definition loadTasks : Eff (list json) :=
  try_catch
    (let! stored := getItem storageKey in
     match stored with
     | None => ret []
     | Some text =>
         if String.eqb text "" then ret []
         else
           match JSON_parse text with
           | None => throw
           | Some parsed =>
               let! tasks := eval (getMember parsed "tasks") in
               if negb (truthyAccess tasks) || negb (isArray tasks) then ret []
               else
                 do! eval (getMember (valueOf tasks) "length") in
                 ret (arrayItems (valueOf tasks))
           end
     end)
    (ret []).

(** The callbacks of findIndex and filter: [None] when reading the field
    of the element throws (the element is null). *)
Definition idIs (taskId : string) (task : json) : option bool :=
  match getMember task "id" with
  | Throws => None
  | Value (JString s) => Some (String.eqb s taskId)
  | _ => Some false
  end.

Definition priorityIs (p : string) (task : json) : option bool :=
  match getMember task "priority" with
  | Throws => None
  | Value (JString s) => Some (String.eqb s p)
  | _ => Some false
  end.

Definition isCompleted (task : json) : option bool :=
  match getMember task "completed" with
  | Throws => None
  | a => Some (truthyAccess a)
  end.

Definition negate {A} (pred : A -> option bool) (x : A) : option bool :=
  match pred x with
  | Some b => Some (negb b)
  | None => None
  end.

(** Array.prototype.filter and findIndex with a callback that may throw. *)
Fixpoint filterM {A} (pred : A -> option bool) (l : list A) : option (list A) :=
  match l with
  | [] => Some []
  | x :: rest =>
      match pred x with
      | None => None
      | Some b =>
          match filterM pred rest with
          | None => None
          | Some kept => Some (if b then x :: kept else kept)
          end
      end
  end.

Fixpoint findIndexM {A} (pred : A -> option bool) (l : list A)
    : option (option nat) :=
  match l with
  | [] => Some None
  | x :: rest =>
      match pred x with
      | None => None
      | Some true => Some (Some 0%nat)
      | Some false =>
          match findIndexM pred rest with
          | None => None
          | Some found => Some (S <$> found)
          end
      end
  end.

(** addTask(task), lines 111-115 *)
Definition addTask (task : json) (now : Z) : Eff bool :=
  let! tasks := loadTasks in
  saveTasks (JArray (tasks ++ [task])%list) now.

(** updateTask(taskId, updatedTask), lines 122-133 *)
Definition updateTask (taskId : string) (updatedTask : json) (now : Z)
    : Eff bool :=
  let! tasks := loadTasks in
  let! index := lift (findIndexM (idIs taskId) tasks) in
  match index with
  | Some i =>
      match tasks !! i with
      | Some old =>
          saveTasks (JArray (<[i := objectSpread old updatedTask]> tasks)) now
      | None => ret false
      end
  | None => ret false
  end.

(** deleteTask(taskId), lines 139-149 *)
Definition deleteTask (taskId : string) (now : Z) : Eff bool :=
  let! tasks := loadTasks in
  let! filteredTasks := lift (filterM (negate (idIs taskId)) tasks) in
  if (length filteredTasks <? length tasks)%nat
  then saveTasks (JArray filteredTasks) now
  else ret false.

(** getTasksByPriority(priority), getCompletedTasks(), getPendingTasks(),
    lines 156-177 *)
Definition getTasksByPriority (p : string) : Eff (list json) :=
  let! tasks := loadTasks in
  lift (filterM (priorityIs p) tasks).

Definition getCompletedTasks : Eff (list json) :=
  let! tasks := loadTasks in
  lift (filterM isCompleted tasks).

Definition getPendingTasks : Eff (list json) :=
  let! tasks := loadTasks in
  lift (filterM (negate isCompleted) tasks).


(** getSettings(), lines 211-219; null is [JNull]. *)
Definition getSettings : Eff json :=
  try_catch
    (let! stored := getItem settingsKey in
     match stored with
     | None => ret JNull
     | Some text =>
         if String.eqb text "" then ret JNull
         else lift (JSON_parse text)
     end)
    (ret JNull).

Definition defaultSettings : json :=
  JObject [("theme", JString "light");
           ("autoSave", JBool true);
           ("showCompleted", JBool true);
           ("defaultPriority", JString "daily");
           ("lastBackup", JNull)].

(** initDefaultSettings(), lines 44-56 *)
Definition initDefaultSettings : Eff unit :=
  let! settings := getSettings in
  if negb (truthy settings)
  then do! saveSettings defaultSettings in ret tt
  else ret tt.

(** isStorageAvailable(), lines 30-39 *)
Definition isStorageAvailable : Eff bool :=
  try_catch
    (do! setItem "__storage_test__" "__storage_test__" in
     do! removeItem "__storage_test__" in
     ret true)
    (ret false).

(** init(), lines 16-25, which is all the constructor runs. *)
Definition init : Eff unit :=
  let! available := isStorageAvailable in
  if negb available then ret tt else initDefaultSettings.

(** exportTasks(), lines 225-237 *)
Definition exportData (tasks : list json) (settings : json) (now : Z) : json :=
  JObject [("tasks", JArray tasks);
           ("settings", settings);
           ("exportDate", JString (toISOString now));
           ("version", JString "1.0")].

Definition exportTasks (now : Z) : Eff string :=
  let! tasks := loadTasks in
  let! settings := getSettings in
  ret (JSON_stringify_indented (exportData tasks settings now)).

(** getStorageSize(), lines 298-306 *)
Definition getStorageSize : Eff Z :=
  try_catch
    (let! tasks := getItem storageKey in
     let! settings := getItem settingsKey in
     ret (blobSize (default "" tasks ++ default "" settings)))
    (ret 0).

(** getLastModified(), lines 312-323 *)
Definition getLastModified : Eff json :=
  try_catch
    (let! stored := getItem storageKey in
     match stored with
     | None => ret JNull
     | Some text =>
         if String.eqb text "" then ret JNull
         else
           match JSON_parse text with
           | None => throw
           | Some parsed =>
               let! modified := eval (getMember parsed "lastModified") in
               ret (if truthyAccess modified then valueOf modified else JNull)
           end
     end)
    (ret JNull).

Record StorageStats : Type := {
  totalTasks : nat;
  completedTasks : nat;
  pendingTasks : nat;
  importantCount : nat;
  dailyCount : nat;
  secondaryCount : nat;
  generalCount : nat;
  storageSize : Z;
  lastModified : json
}.

(** getStorageStats(), lines 273-292 *)
Definition getStorageStats : Eff StorageStats :=
  let! tasks := loadTasks in
  let! settings := getSettings in
  let! done := lift (filterM isCompleted tasks) in
  let! pending := lift (filterM (negate isCompleted) tasks) in
  let! important := lift (filterM (priorityIs "important") tasks) in
  let! daily := lift (filterM (priorityIs "daily") tasks) in
  let! secondary := lift (filterM (priorityIs "secondary") tasks) in
  let! general := lift (filterM (priorityIs "general") tasks) in
  let! size := getStorageSize in
  let! modified := getLastModified in
  ret {| totalTasks := length tasks;
         completedTasks := length done;
         pendingTasks := length pending;
         importantCount := length important;
         dailyCount := length daily;
         secondaryCount := length secondary;
         generalCount := length general;
         storageSize := size;
         lastModified := modified |}.

(** [fields] with the key set: in place when present, else at the end. *)
Fixpoint setField (k : string) (v : json) (fields : list (string * json))
    : list (string * json) :=
  match fields with
  | [] => [(k, v)]
  | (k', v') :: rest =>
      if String.eqb k k' then (k, v) :: rest
      else (k', v') :: setField k v rest
  end.

(** The assignment target.lastBackup = v in strict code, as JSON.stringify
    sees the target afterwards: an object has the field; an array keeps its
    elements (a named property of an array is not serialized); on another
    truthy value the assignment throws. *)
Definition assignLastBackup (target v : json) : option json :=
  match target with
  | JObject fields => Some (JObject (setField "lastBackup" v fields))
  | JArray items => Some (JArray items)
  | _ => None
  end.

Definition backupData (tasks : list json) (settings : json) (now : Z) : json :=
  JObject [("tasks", JArray tasks);
           ("settings", settings);
           ("backupDate", JString (toISOString now));
           ("version", JString "1.0")].

(** createBackup(), lines 329-343 *)
Definition createBackup (now : Z) : Eff string :=
  let! tasks := loadTasks in
  let! settings := getSettings in
  let! stored := getSettings in
  let! updated :=
    lift (assignLastBackup (if truthy stored then stored else JObject [])
                           (JString (toISOString now))) in
  do! saveSettings updated in
  ret (JSON_stringify_indented (backupData tasks settings now)).

(** restoreFromBackup(backupData), lines 350-368 *)
Definition restoreFromBackup (text : string) (now : Z) : Eff bool :=
  try_catch
    (match JSON_parse text with
     | None => throw
     | Some data =>
         let! tasks := eval (getMember data "tasks") in
         do! (if truthyAccess tasks
              then do! saveTasks (valueOf tasks) now in ret tt
              else ret tt) in
         let! settings := eval (getMember data "settings") in
         do! (if truthyAccess settings
              then do! saveSettings (valueOf settings) in ret tt
              else ret tt) in
         ret true
     end)
    (ret false).

End Collection.
End TaskStorage.

(** ** script.js : the task record

    [task_id] is the field id.  Timestamps are kept as the instants their
    ISO strings denote; a completedAt that is null or absent is [None]. *)

Record Task : Type := {
  task_id : string;
  text : string;
  priority : string;
  completed : bool;
  createdAt : Z;
  updatedAt : Z;
  completedAt : option Z
}.

(** ** script.js : class NotificationManager (lines 2067-2886) *)

Module NotificationManager.

Inductive TimeOfDay : Type := morning | afternoon | evening | night.
Inductive Urgency : Type := normal | medium | high.
Inductive Kind : Type := top | motivation | popup.

(** The texts the manager produces.  A text is identified by the table it
    comes from and its position there, with the numbers it interpolates. *)
Inductive Message : Type :=
  (* status banners of showSmartNotification *)
  | NightPending (n : nat)
  | ImportantWaiting (n : nat)
  | GreetingPending (t : TimeOfDay) (n : nat)
  | NoMessage
  (* status banners of convertMotivationToTopNotification *)
  | AllTasksDone
  | ImportantPending (n : nat)
  (* getMotivationMessages *)
  | TimeMessage (t : TimeOfDay) (i : nat)
  | AllDoneMessage (i : nat)
  | FewLeftMessage (i : nat)
  | ProgressMessage (completedCount : nat) (i : nat)
  | GettingStartedMessage (i : nat)
  | HighRateMessage (i : nat)
  | HalfRateMessage (i : nat)
  | HourMessage (t : TimeOfDay)
  | Quote (i : nat)
  (* popups of the application: text required, task added, task marked *)
  | EnterTextPopup
  | AddedPopup
  | ToggledPopup (nowCompleted : bool)
  (* an index outside the pool *)
  | UndefinedMessage.

(** The argument of show(options). *)
Record Directive : Type := {
  message : Message;
  kind : Kind;
  urgency : Urgency;
  duration : Z;
  closable : bool
}.

(** What the element unified-notification displays. *)
Inductive Display : Type :=
  | Hidden
  | ShowingMotivation (m : Message)
  | ShowingBanner (m : Message) (u : Urgency).

Record UserBehaviorData : Type := {
  sessionStartTime : Z;
  tasksCompletedInSession : Z;
  motivationsShown : Z;
  lastTaskCompletionTime : Z;
  averageTaskCompletionTime : Q;
  userEngagementScore : Q
}.

Record State : Type := {
  lastMotivationTime : Z;
  motivationCooldown : Z;
  userActiveTime : Z;
  motivationInterval : Z;
  minActiveTime : Z;
  isPageVisible : bool;
  userBehaviorData : UserBehaviorData;
  display : Display
}.

(** The data argument of updateUserBehaviorData. *)
Record EventData : Type := {
  taskCreatedTime : option Z;
  inactiveTime : option Z
}.

Definition noData : EventData :=
  {| taskCreatedTime := None; inactiveTime := None |}.

(** constructor(), lines 2068-2089; Date.now() is read twice. *)
Definition constructor (t_active t_session : Z) : State :=
  {| lastMotivationTime := 0;
     motivationCooldown := 30 * 1000;
     userActiveTime := t_active;
     motivationInterval := 5 * 60 * 1000;
     minActiveTime := 2 * 60 * 1000;
     isPageVisible := true;
     userBehaviorData :=
       {| sessionStartTime := t_session;
          tasksCompletedInSession := 0;
          motivationsShown := 0;
          lastTaskCompletionTime := 0;
          averageTaskCompletionTime := 0;
          userEngagementScore := 0.5 |};
     display := Hidden |}.

Definition set_display (d : Display) (s : State) : State :=
  {| lastMotivationTime := lastMotivationTime s;
     motivationCooldown := motivationCooldown s;
     userActiveTime := userActiveTime s;
     motivationInterval := motivationInterval s;
     minActiveTime := minActiveTime s;
     isPageVisible := isPageVisible s;
     userBehaviorData := userBehaviorData s;
     display := d |}.

Definition set_lastMotivationTime (t : Z) (s : State) : State :=
  {| lastMotivationTime := t;
     motivationCooldown := motivationCooldown s;
     userActiveTime := userActiveTime s;
     motivationInterval := motivationInterval s;
     minActiveTime := minActiveTime s;
     isPageVisible := isPageVisible s;
     userBehaviorData := userBehaviorData s;
     display := display s |}.

Definition set_userBehaviorData (b : UserBehaviorData) (s : State) : State :=
  {| lastMotivationTime := lastMotivationTime s;
     motivationCooldown := motivationCooldown s;
     userActiveTime := userActiveTime s;
     motivationInterval := motivationInterval s;
     minActiveTime := minActiveTime s;
     isPageVisible := isPageVisible s;
     userBehaviorData := b;
     display := display s |}.

(** show(options), lines 2100-2121, with showTopNotification and
    showMotivationMessage: both write the one element; a popup is an
    element of its own. *)
Definition show (d : Directive) (s : State) : State :=
  match kind d with
  | top => set_display (ShowingBanner (message d) (urgency d)) s
  | motivation => set_display (ShowingMotivation (message d)) s
  | popup => s
  end.

(** updateUserBehaviorData(action, data), lines 2674-2713 *)
Definition updateUserBehaviorData
    (action : string) (data : EventData) (now : Z) (s : State) : State :=
  let b := userBehaviorData s in
  if String.eqb action "taskCompleted" then
    let avg :=
      match taskCreatedTime data with
      | Some created =>
          if (created =? 0)%Z then averageTaskCompletionTime b
          else
            let completionTime := inject_Z (now - created) in
            if Qeq_bool (averageTaskCompletionTime b) 0 then completionTime
            else ((averageTaskCompletionTime b + completionTime) / 2)%Q
      | None => averageTaskCompletionTime b
      end in
    set_userBehaviorData
      {| sessionStartTime := sessionStartTime b;
         tasksCompletedInSession := tasksCompletedInSession b + 1;
         motivationsShown := motivationsShown b;
         lastTaskCompletionTime := now;
         averageTaskCompletionTime := avg;
         userEngagementScore := Qmin (userEngagementScore b + 0.1) 1.0 |} s
  else if String.eqb action "taskCreated" then
    set_userBehaviorData
      {| sessionStartTime := sessionStartTime b;
         tasksCompletedInSession := tasksCompletedInSession b;
         motivationsShown := motivationsShown b;
         lastTaskCompletionTime := lastTaskCompletionTime b;
         averageTaskCompletionTime := averageTaskCompletionTime b;
         userEngagementScore := Qmin (userEngagementScore b + 0.05) 1.0 |} s
  else if String.eqb action "userInactive" then
    set_userBehaviorData
      {| sessionStartTime := sessionStartTime b;
         tasksCompletedInSession := tasksCompletedInSession b;
         motivationsShown := motivationsShown b;
         lastTaskCompletionTime := lastTaskCompletionTime b;
         averageTaskCompletionTime := averageTaskCompletionTime b;
         userEngagementScore := Qmax (userEngagementScore b - 0.02) 0.1 |} s
  else s.

(** The callback of the inactivity poller, lines 2545-2550. *)
Definition inactivityPoll (t_poll now : Z) (s : State) : State :=
  let inactive := t_poll - userActiveTime s in
  if (300000 <? inactive)%Z then
    updateUserBehaviorData "user_inactive"
      {| taskCreatedTime := None; inactiveTime := Some inactive |} now s
  else s.

Definition Qltb (x y : Q) : bool := negb (Qle_bool y x).

Definition isNight (t : TimeOfDay) : bool :=
  match t with night => true | _ => false end.
Definition isMorning (t : TimeOfDay) : bool :=
  match t with morning => true | _ => false end.

(** A template literal is non-empty unless it is the initial ''. *)
Definition hasText (m : Message) : bool :=
  match m with NoMessage => false | _ => true end.

(** messages[Math.floor(r * messages.length)] *)
Definition pick (messages : list Message) (r : Q) : Message :=
  let i := Qfloor (r * inject_Z (Z.of_nat (length messages))) in
  if (i <? 0)%Z then UndefinedMessage
  else default UndefinedMessage (messages !! Z.to_nat i).

(** A literal table of [size] texts, in order. *)
Definition table (entry : nat -> Message) (size : nat) : list Message :=
  map entry (seq 0 size).

(** The base probability of showSmartNotification, lines 2468-2484. *)
Definition smartNotificationProbability
    (uncompleted completedToday : nat) (timeOfDay : TimeOfDay) : Q :=
  if (uncompleted =? 0)%nat && (0 <? completedToday)%nat then 0.85
  else if (5 <=? completedToday)%nat then 0.75
  else if (10 <? uncompleted)%nat then 0.45
  else if isMorning timeOfDay then 0.7
  else 0.6.

Record SmartReadings : Type := {
  sr_tod : Z;      (* new Date() of getTimeOfDay *)
  sr_today : Z;    (* new Date() of the completedToday filter *)
  sr_now : Z;      (* Date.now() of the cooldown test *)
  sr_gate : Q;     (* Math.random() compared with the probability *)
  sr_hour : Z;     (* new Date() of getMotivationMessages *)
  sr_quote : Q;    (* Math.random() of the quotes *)
  sr_pick : Q      (* Math.random() of the selection *)
}.

Record PeriodicReadings : Type := {
  pr_active : Z;      (* Date.now() of the activity test *)
  pr_cool : Z;        (* Date.now() of the cooldown test *)
  pr_today : Z;
  pr_tod : Z;
  pr_session : Z;     (* Date.now() of the session duration *)
  pr_completion : Z;  (* Date.now() of the time since last completion *)
  pr_hour : Z;        (* new Date() of the probability *)
  pr_gate : Q;
  pr_msgHour : Z;     (* new Date() of getMotivationMessages *)
  pr_quote : Q;
  pr_pick : Q;
  pr_emit : Z         (* Date.now() stored in lastMotivationTime *)
}.

Section WithHost.
Context {host : Host}.

(** getTimeOfDay(), lines 2508-2514 *)
Definition getTimeOfDay (t : Z) : TimeOfDay :=
  let hour := getHours t in
  if (6 <=? hour)%Z && (hour <? 12)%Z then morning
  else if (12 <=? hour)%Z && (hour <? 18)%Z then afternoon
  else if (18 <=? hour)%Z && (hour <? 22)%Z then evening
  else night.

(** The predicate of the completedToday filters. *)
Definition completedOn (t_today : Z) (task : Task) : bool :=
  completed task &&
  match completedAt task with
  | Some at_ => String.eqb (toDateString at_) (toDateString t_today)
  | None => false
  end.

(** getMotivationMessages(timeOfDay, uncompletedCount, completedCount),
    lines 2718-2885.  [completedCount / (completedCount + uncompletedCount)
    || 0] is 0 when both counts are 0, as is the quotient in [Q]. *)
Definition getMotivationMessages
    (timeOfDay : TimeOfDay) (uncompletedCount completedCount : nat)
    (t_hour : Z) (r_quote : Q) : list Message :=
  let byTime := table (TimeMessage timeOfDay) 10 in
  let byState :=
    if (uncompletedCount =? 0)%nat then table AllDoneMessage 12
    else if (uncompletedCount <=? 3)%nat then table FewLeftMessage 10
    else if (0 <? completedCount)%nat then table (ProgressMessage completedCount) 12
    else table GettingStartedMessage 15 in
  let completionRate :=
    (inject_Z (Z.of_nat completedCount)
     / inject_Z (Z.of_nat (completedCount + uncompletedCount)))%Q in
  let byRate :=
    if Qltb 0.8 completionRate then table HighRateMessage 3
    else if Qltb 0.5 completionRate then table HalfRateMessage 3
    else [] in
  let hour := getHours t_hour in
  let byHour :=
    if (9 <=? hour)%Z && (hour <=? 11)%Z then [HourMessage morning]
    else if (14 <=? hour)%Z && (hour <=? 16)%Z then [HourMessage afternoon]
    else if (20 <=? hour)%Z && (hour <=? 22)%Z then [HourMessage evening]
    else [] in
  let quotes := if Qltb r_quote 0.1 then table Quote 10 else [] in
  (byTime ++ byState ++ byRate ++ byHour ++ quotes)%list.

(** showSmartNotification(tasks), lines 2421-2503.  Returns the new state
    and the directives handed to show, in order. *)
Definition showSmartNotification
    (tasks : list Task) (r : SmartReadings) (s : State)
    : State * list Directive :=
  let timeOfDay := getTimeOfDay (sr_tod r) in
  let uncompletedTasks := List.filter (fun task => negb (completed task)) tasks in
  let importantTasks :=
    List.filter (fun task => String.eqb (priority task) "important")
                uncompletedTasks in
  let completedToday := List.filter (completedOn (sr_today r)) tasks in
  let '(msg, urg) :=
    if isNight timeOfDay && (0 <? length uncompletedTasks)%nat
    then (NightPending (length uncompletedTasks), high)
    else if (0 <? length importantTasks)%nat
    then (ImportantWaiting (length importantTasks), medium)
    else if (0 <? length uncompletedTasks)%nat
    then (GreetingPending timeOfDay (length uncompletedTasks), normal)
    else (NoMessage, normal) in
  let banner :=
    {| message := msg; kind := top; urgency := urg;
       duration := 0; closable := true |} in
  let '(s1, shown) :=
    if hasText msg then (show banner s, [banner]) else (s, []) in
  let motivationProbability :=
    smartNotificationProbability
      (length uncompletedTasks) (length completedToday) timeOfDay in
  let now := sr_now r in
  let timeSinceLastMotivation := (now - lastMotivationTime s1)%Z in
  if Qle_bool (sr_gate r) motivationProbability
     && (motivationCooldown s1 <=? timeSinceLastMotivation)%Z
  then
    let motivationMessages :=
      getMotivationMessages timeOfDay (length uncompletedTasks)
        (length completedToday) (sr_hour r) (sr_quote r) in
    if (0 <? length motivationMessages)%nat then
      let d :=
        {| message := pick motivationMessages (sr_pick r);
           kind := motivation; urgency := normal;
           duration := 5000; closable := true |} in
      (set_lastMotivationTime now (show d s1), (shown ++ [d])%list)
    else (s1, shown)
  else (s1, shown).

(** calculateSmartMotivationProbability(uncompletedTasks, completedToday,
    timeOfDay), lines 2623-2669 *)
Definition calculateSmartMotivationProbability
    (uncompletedTasks completedToday : list Task) (timeOfDay : TimeOfDay)
    (t_session t_completion t_hour : Z) (s : State) : Q :=
  let b := userBehaviorData s in
  let p0 : Q :=
    if (length uncompletedTasks =? 0)%nat && (0 <? length completedToday)%nat
    then 0.8%Q
    else if (3 <=? length completedToday)%nat then 0.6%Q
    else if (8 <? length uncompletedTasks)%nat then 0.3%Q
    else 0.4%Q in
  let engagementMultiplier := (0.5 + userEngagementScore b * 0.5)%Q in
  let p1 := (p0 * engagementMultiplier)%Q in
  let sessionDuration := (t_session - sessionStartTime b)%Z in
  let sessionHours := (inject_Z sessionDuration / inject_Z (1000 * 60 * 60))%Q in
  let p2 :=
    if Qltb 2 sessionHours then (p1 * 1.2)%Q
    else if Qltb sessionHours 0.5 then (p1 * 0.8)%Q
    else p1 in
  let timeSinceLastCompletion := (t_completion - lastTaskCompletionTime b)%Z in
  let p3 :=
    if (30 * 60 * 1000 <? timeSinceLastCompletion)%Z then (p2 * 1.3)%Q else p2 in
  let motivationRate :=
    (inject_Z (motivationsShown b) / Qmax sessionHours 0.1)%Q in
  let p4 := if Qltb 3 motivationRate then (p3 * 0.7)%Q else p3 in
  let hour := getHours t_hour in
  let p5 :=
    if ((9 <=? hour)%Z && (hour <=? 11)%Z) || ((14 <=? hour)%Z && (hour <=? 16)%Z)
    then (p4 * 1.1)%Q
    else if (22 <=? hour)%Z || (hour <=? 6)%Z then (p4 * 0.8)%Q
    else p4 in
  Qmin (Qmax p5 0.1) 0.9.

(** checkAndShowPeriodicMotivation(), lines 2579-2618; [tasks] is
    app.tasks. *)
Definition checkAndShowPeriodicMotivation
    (tasks : list Task) (r : PeriodicReadings) (s : State)
    : State * list Directive :=
  if negb (isPageVisible s) then (s, [])
  else if (minActiveTime s <? pr_active r - userActiveTime s)%Z then (s, [])
  else if (pr_cool r - lastMotivationTime s <? motivationCooldown s)%Z then (s, [])
  else
    let uncompletedTasks := List.filter (fun task => negb (completed task)) tasks in
    let completedToday := List.filter (completedOn (pr_today r)) tasks in
    let timeOfDay := getTimeOfDay (pr_tod r) in
    let probability :=
      calculateSmartMotivationProbability uncompletedTasks completedToday
        timeOfDay (pr_session r) (pr_completion r) (pr_hour r) s in
    if Qle_bool (pr_gate r) probability then
      let motivationMessages :=
        getMotivationMessages timeOfDay (length uncompletedTasks)
          (length completedToday) (pr_msgHour r) (pr_quote r) in
      if (0 <? length motivationMessages)%nat then
        let d :=
          {| message := pick motivationMessages (pr_pick r);
             kind := motivation; urgency := normal;
             duration := 5000; closable := true |} in
        let s1 := set_lastMotivationTime (pr_emit r) (show d s) in
        let b := userBehaviorData s1 in
        (set_userBehaviorData
           {| sessionStartTime := sessionStartTime b;
              tasksCompletedInSession := tasksCompletedInSession b;
              motivationsShown := motivationsShown b + 1;
              lastTaskCompletionTime := lastTaskCompletionTime b;
              averageTaskCompletionTime := averageTaskCompletionTime b;
              userEngagementScore := userEngagementScore b |} s1,
         [d])
      else (s, [])
    else (s, []).

(** convertMotivationToTopNotification(), lines 2270-2337, run by the timer
    that showMotivationMessage arms; [tasks] is app.tasks. *)
Definition convertMotivationToTopNotification
    (tasks : list Task) (t_tod : Z) (s : State) : State :=
  match display s with
  | ShowingMotivation _ =>
      let uncompletedTasks := List.filter (fun task => negb (completed task)) tasks in
      let importantTasks :=
        List.filter (fun task => String.eqb (priority task) "important")
                    uncompletedTasks in
      let timeOfDay := getTimeOfDay t_tod in
      let '(topMessage, urg) :=
        if (length uncompletedTasks =? 0)%nat then (AllTasksDone, normal)
        else if (0 <? length importantTasks)%nat
        then (ImportantPending (length importantTasks), medium)
        else (GreetingPending timeOfDay (length uncompletedTasks), normal) in
      set_display (ShowingBanner topMessage urg) s
  | _ => s
  end.

End WithHost.
End NotificationManager.

(** ** script.js : class MyPlanApp (lines 2893-3814) *)

Module MyPlanApp.

(** this.tasks and this.notificationManager.  Writing the collection to
    storage (saveTasks, whose result the application drops) and redrawing
    (updateUI) change neither. *)
Record App : Type := {
  tasks : list Task;
  notificationManager : NotificationManager.State
}.

Definition popupDirective (m : NotificationManager.Message)
    (u : NotificationManager.Urgency) : NotificationManager.Directive :=
  {| NotificationManager.message := m;
     NotificationManager.kind := NotificationManager.popup;
     NotificationManager.urgency := u;
     NotificationManager.duration := 3000;
     NotificationManager.closable := true |}.

(** addTask(), lines 3095-3141.  [input] is the trimmed content of the
    text field, [prio] the selected priority, [newId] the result of
    generateId(); then the two new Date() of the task and the Date.now()
    of updateUserBehaviorData. *)
Definition addTask (input prio newId : string)
    (t_created t_updated t_behavior : Z) (app : App) : App :=
  if String.eqb input "" then
    {| tasks := tasks app;
       notificationManager :=
         NotificationManager.show
           (popupDirective NotificationManager.EnterTextPopup
                           NotificationManager.medium)
           (notificationManager app) |}
  else
    let task :=
      {| task_id := newId; text := input; priority := prio;
         completed := false; createdAt := t_created;
         updatedAt := t_updated; completedAt := None |} in
    let nm :=
      NotificationManager.updateUserBehaviorData "task_created"
        NotificationManager.noData t_behavior (notificationManager app) in
    {| tasks := (tasks app ++ [task])%list;
       notificationManager :=
         NotificationManager.show
           (popupDirective NotificationManager.AddedPopup
                           NotificationManager.normal) nm |}.

(** this.tasks.find(t => t.id === taskId): position and value of the first
    match. *)
Fixpoint find (taskId : string) (l : list Task) : option (nat * Task) :=
  match l with
  | [] => None
  | t :: rest =>
      if String.eqb (task_id t) taskId then Some (0%nat, t)
      else match find taskId rest with
           | Some (i, t') => Some (S i, t')
           | None => None
           end
  end.

(** toggleTask(taskId), lines 3146-3170.  The found task is updated in
    place.  When the task becomes completed the method reads the clock for
    completedAt, then inside updateUserBehaviorData, then for updatedAt;
    otherwise only for updatedAt. *)
Definition toggleTask (taskId : string)
    (t_completed t_behavior t_updated : Z) (app : App) : App :=
  match find taskId (tasks app) with
  | None => app
  | Some (i, task) =>
      let nowCompleted := negb (completed task) in
      let nm :=
        if nowCompleted then
          NotificationManager.updateUserBehaviorData "task_completed"
            NotificationManager.noData t_behavior (notificationManager app)
        else notificationManager app in
      let task' :=
        {| task_id := task_id task; text := text task;
           priority := priority task;
           completed := nowCompleted;
           createdAt := createdAt task;
           updatedAt := t_updated;
           completedAt := if nowCompleted then Some t_completed else None |} in
      {| tasks := <[i := task']> (tasks app);
         notificationManager :=
           NotificationManager.show
             (popupDirective (NotificationManager.ToggledPopup nowCompleted)
                             NotificationManager.normal) nm |}
  end.

(** The comparison function of getTasksByPriority, lines 3313-3320. *)
Definition compareTasks (a b : Task) : Z :=
  if negb (Bool.eqb (completed a) (completed b)) then
    if completed a then 1 else -1
  else createdAt b - createdAt a.

(** Array.prototype.sort(compareFn): a sort by comparison in which [a]
    may stay before [b] when compareFn(a, b) <= 0.  The order the built-in
    gives to elements that compare equal is not part of the model. *)
Definition inOrder (compareFn : Task -> Task -> Z) : relation Task :=
  fun a b => compareFn a b <= 0.

#[global] Instance inOrder_dec compareFn a b : Decision (inOrder compareFn a b).
Proof. unfold inOrder. apply _. Defined.

Definition sort (compareFn : Task -> Task -> Z) (l : list Task) : list Task :=
  merge_sort (inOrder compareFn) l.

Definition priorities : list string :=
  ["important"; "daily"; "secondary"; "general"].

(** getTasksByPriority(), lines 3305-3324 *)
Definition getTasksByPriority (app : App) : gmap string (list Task) :=
  foldl
    (fun grouped p =>
       <[p := sort compareTasks
                (List.filter (fun task => String.eqb (priority task) p)
                             (tasks app))]> grouped)
    ∅ priorities.

(** deleteTask(taskId), lines 3175-3193.  [confirmed] is the answer to the
    confirm dialog, which is asked only when the task is found.  The popup
    that follows is an element of its own and leaves the manager as it is. *)
Definition deleteTask (taskId : string) (confirmed : bool) (app : App) : App :=
  match find taskId (tasks app) with
  | None => app
  | Some (i, _) =>
      if confirmed
      then {| tasks := delete i (tasks app);
              notificationManager := notificationManager app |}
      else app
  end.

(** The application with the fields the edit dialog and the filter tabs
    use; editingTaskId null is [None]. *)
Record Ui : Type := {
  ui_app : App;
  currentFilter : string;
  editingTaskId : option string
}.

(** editTask(taskId), lines 3198-3212 *)
Definition editTask (taskId : string) (ui : Ui) : Ui :=
  match find taskId (tasks (ui_app ui)) with
  | Some _ =>
      {| ui_app := ui_app ui; currentFilter := currentFilter ui;
         editingTaskId := Some taskId |}
  | None => ui
  end.

(** closeEditModal(), lines 3267-3272 *)
Definition closeEditModal (ui : Ui) : Ui :=
  {| ui_app := ui_app ui; currentFilter := currentFilter ui;
     editingTaskId := None |}.

(** saveTaskEdit(), lines 3217-3253.  [newText] is the trimmed content of
    the edit field, [newPriority] the selected priority. *)
Definition saveTaskEdit (newText newPriority : string) (t_updated : Z)
    (ui : Ui) : Ui :=
  match editingTaskId ui with
  | None => ui
  | Some editing =>
      if String.eqb editing "" then ui
      else if String.eqb newText "" then ui
      else
        match find editing (tasks (ui_app ui)) with
        | None => ui
        | Some (i, task) =>
            let task' :=
              {| task_id := task_id task; text := newText;
                 priority := newPriority; completed := completed task;
                 createdAt := createdAt task; updatedAt := t_updated;
                 completedAt := completedAt task |} in
            closeEditModal
              {| ui_app :=
                   {| tasks := <[i := task']> (tasks (ui_app ui));
                      notificationManager := notificationManager (ui_app ui) |};
                 currentFilter := currentFilter ui;
                 editingTaskId := editingTaskId ui |}
        end
  end.

(** setFilter(priority) and getFilteredTasks(), lines 3277-3300 *)
Definition setFilter (p : string) (ui : Ui) : Ui :=
  {| ui_app := ui_app ui; currentFilter := p;
     editingTaskId := editingTaskId ui |}.

Definition getFilteredTasks (ui : Ui) : list Task :=
  if String.eqb (currentFilter ui) "all" then tasks (ui_app ui)
  else List.filter (fun task => String.eqb (priority task) (currentFilter ui))
                   (tasks (ui_app ui)).

(** The order of the completed section, lines 3506-3508: by completedAt,
    or createdAt when there is none, latest first. *)
Definition compareCompleted (a b : Task) : Z :=
  default (createdAt b) (completedAt b) - default (createdAt a) (completedAt a).

(** The lists updateTaskDisplay renders when the page has its containers,
    lines 3381-3462 and 3467-3516: for a priority card the pending tasks of
    the filter with that priority, latest created first ([None] when the
    card is hidden); for the completed section the completed tasks of the
    filter. *)
Definition compareCreated (a b : Task) : Z := createdAt b - createdAt a.

Definition cardTasks (p : string) (ui : Ui) : option (list Task) :=
  let uncompletedTasks :=
    List.filter (fun task => negb (completed task)) (getFilteredTasks ui) in
  let tasksToShow :=
    List.filter (fun task => String.eqb (priority task) p) uncompletedTasks in
  let shouldShow :=
    if negb (String.eqb (currentFilter ui) "all")
    then String.eqb (currentFilter ui) p && (0 <? length tasksToShow)%nat
    else (0 <? length tasksToShow)%nat in
  if shouldShow then Some (sort compareCreated tasksToShow) else None.

Definition completedSection (ui : Ui) : list Task :=
  sort compareCompleted
    (List.filter (fun task => completed task) (getFilteredTasks ui)).

(** The application together with localStorage, for the methods that use
    both. *)
Record Session : Type := {
  session_app : App;
  localStorage : gmap string string
}.

(** Whether a method returned or threw. *)
Inductive Outcome : Type := Returned | Threw.

(** The JSON form of a task object of this.tasks. *)
Class TaskCodec : Type := { taskJson : Task -> json }.

(** The reset checkDailyTasks applies to each task, lines 3568-3573. *)
Definition resetDaily (task : Task) : Task :=
  if String.eqb (priority task) "daily" && completed task then
    {| task_id := task_id task; text := text task; priority := priority task;
       completed := false; createdAt := createdAt task;
       updatedAt := updatedAt task; completedAt := None |}
  else task.

Definition dailyCheckKey : string := "myplan_last_daily_check".

Section WithHost.
Context {host : Host} {codec : TaskCodec}.

(** saveTasks(), lines 3081-3083: the result of the storage is dropped. *)
Definition saveTasks (now : Z) (st : Session) : Session :=
  {| session_app := session_app st;
     localStorage :=
       snd (TaskStorage.saveTasks
              (JArray (map taskJson (tasks (session_app st)))) now
              (localStorage st)) |}.

(** checkDailyTasks(), lines 3562-3587.  The class of this revision has no
    method showNotification, so the call that announces the daily tasks
    throws a TypeError; the write of the date throws when the storage
    refuses it. *)
Definition checkDailyTasks (t_today t_save : Z) (st : Session)
    : Session * Outcome :=
  let today := toDateString t_today in
  let checkedToday :=
    match localStorage st !! dailyCheckKey with
    | Some lastCheck => String.eqb lastCheck today
    | None => false
    end in
  if checkedToday then (st, Returned)
  else
    let app' :=
      {| tasks := map resetDaily (tasks (session_app st));
         notificationManager := notificationManager (session_app st) |} in
    match TaskStorage.setItem dailyCheckKey today (localStorage st) with
    | (None, ls) => ({| session_app := app'; localStorage := ls |}, Threw)
    | (Some _, ls) =>
        let st' := saveTasks t_save {| session_app := app'; localStorage := ls |} in
        let dailyTasks :=
          List.filter (fun task => String.eqb (priority task) "daily")
                      (tasks app') in
        if (0 <? length dailyTasks)%nat then (st', Threw) else (st', Returned)
    end.

End WithHost.

End MyPlanApp.

(** * Vocabulary of the properties *)

Module NM := NotificationManager.

(** One call of updateUserBehaviorData: the action, the data and the value
    Date.now() has during the call. *)
Record Event : Type := {
  ev_action : string;
  ev_data : NM.EventData;
  ev_now : Z
}.

Definition record (s : NM.State) (e : Event) : NM.State :=
  NM.updateUserBehaviorData (ev_action e) (ev_data e) (ev_now e) s.

Definition score (s : NM.State) : Q :=
  NM.userEngagementScore (NM.userBehaviorData s).

(** The actions the switch of updateUserBehaviorData has a case for. *)
Definition handled (action : string) : bool :=
  String.eqb action "taskCompleted" || String.eqb action "taskCreated"
  || String.eqb action "userInactive".

(** A host for the concrete runs: UTC time, ISO and date strings left
    empty, a JSON reader that knows three payloads, and a localStorage that
    holds at most one key. *)
Definition demoParse (text : string) : option json :=
  if String.eqb text "{}" then Some (JObject [])
  else if String.eqb text "{tasks:1}" then
    Some (JObject [("tasks", JNumber 1)])
  else if String.eqb text "{tasks:[],settings:{}}" then
    Some (JObject [("tasks", JArray []); ("settings", JObject [])])
  else None.

Definition demoHost : Host :=
  {| JSON_parse := demoParse;
     JSON_stringify := fun _ => "";
     storageFits := fun ls => bool_decide (size ls ≤ 1)%nat;
     getHours := fun t => (t / 3600000) mod 24;
     toDateString := fun _ => "";
     toISOString := fun _ => "" |}.

(** A localStorage that refuses every write. *)
Definition fullHost : Host :=
  {| JSON_parse := demoParse;
     JSON_stringify := fun _ => "";
     storageFits := fun _ => false;
     getHours := fun t => (t / 3600000) mod 24;
     toDateString := fun _ => "";
     toISOString := fun _ => "" |}.

Definition demoTask (prio : string) (done : bool) (stamp : Z) : Task :=
  {| task_id := "a"; text := "write report"; priority := prio;
     completed := done; createdAt := stamp; updatedAt := stamp;
     completedAt := if done then Some stamp else None |}.

(** One encouragement evaluation: a call of showSmartNotification or of
    checkAndShowPeriodicMotivation, with the task snapshot it sees and the
    readings it takes. *)
Inductive Evaluation : Type :=
  | Smart (tasks : list Task) (r : NM.SmartReadings)
  | Periodic (tasks : list Task) (r : NM.PeriodicReadings).

Definition evaluate `{host : Host} (e : Evaluation) (s : NM.State)
    : NM.State * list NM.Directive :=
  match e with
  | Smart tasks r => NM.showSmartNotification tasks r s
  | Periodic tasks r => NM.checkAndShowPeriodicMotivation tasks r s
  end.

(** The clock value an evaluation compares with lastMotivationTime, and the
    one it stores there when it emits.  showSmartNotification uses one
    reading for both. *)
Definition checkTime (e : Evaluation) : Z :=
  match e with
  | Smart _ r => NM.sr_now r
  | Periodic _ r => NM.pr_cool r
  end.

Definition stampTime (e : Evaluation) : Z :=
  match e with
  | Smart _ r => NM.sr_now r
  | Periodic _ r => NM.pr_emit r
  end.

Definition isMotivation (d : NM.Directive) : bool :=
  match NM.kind d with NM.motivation => true | _ => false end.

(** The evaluation handed a motivation message to show. *)
Definition emitsMotivation (shown : list NM.Directive) : bool :=
  existsb isMotivation shown.

Definition pendingTasks (tasks : list Task) : list Task :=
  List.filter (fun task => negb (completed task)) tasks.

Definition importantPending (tasks : list Task) : list Task :=
  List.filter (fun task => String.eqb (priority task) "important")
              (pendingTasks tasks).

(** The predicate of the filter in getTasksByPriority. *)
Definition hasPriority (p : string) (task : Task) : bool :=
  String.eqb (priority task) p.

(** grouped[p], read as the empty list when the object has no such key. *)
Definition bucket (grouped : gmap string (list Task)) (p : string) : list Task :=
  default [] (grouped !! p).

(** The updatedAt of the task that toggleTask(taskId) would act on. *)
Definition updatedAtOf (taskId : string) (app : MyPlanApp.App) : option Z :=
  (fun found => updatedAt (snd found))
    <$> MyPlanApp.find taskId (MyPlanApp.tasks app).

(** The list loadTasks reads out of a localStorage: that of a non-empty
    entry that parses to a value with a list under tasks, else empty. *)
Definition storedTasks `{host : Host} (ls : gmap string string) : list json :=
  match ls !! TaskStorage.storageKey with
  | Some text =>
      if String.eqb text "" then []
      else
        match JSON_parse text with
        | Some parsed =>
            match getMember parsed "tasks" with
            | Value (JArray items) => items
            | _ => []
            end
        | None => []
        end
  | None => []
  end.

(** The settings getSettings reads out of a localStorage. *)
Definition storedSettings `{host : Host} (ls : gmap string string) : json :=
  match ls !! TaskStorage.settingsKey with
  | Some text =>
      if String.eqb text "" then JNull else default JNull (JSON_parse text)
  | None => JNull
  end.

(** What the code relies on from JSON: the text of a value is not empty and
    parses back to the value. *)
Definition jsonRoundTrips `{host : Host} : Prop :=
  forall v, JSON_stringify v <> "" /\ JSON_parse (JSON_stringify v) = Some v.

Definition indentedRoundTrips `{host : Host} `{extra : HostExtra} : Prop :=
  forall v, JSON_stringify_indented v <> ""
            /\ JSON_parse (JSON_stringify_indented v) = Some v.

(** A reader and writer with that property, for the concrete runs: a value
    is written as a tag character followed by the binary digits of its code
    number. *)
Definition leaf : Type := (bool + (Z * positive) + string)%type.

Fixpoint toTree (v : json) : gen_tree leaf :=
  match v with
  | JNull => GenNode 0 []
  | JBool b => GenLeaf (inl (inl b))
  | JNumber q => GenLeaf (inl (inr (Qnum q, Qden q)))
  | JString s => GenLeaf (inr s)
  | JArray items => GenNode 1 (map toTree items)
  | JObject fields =>
      GenNode 2
        ((fix go (fs : list (string * json)) : list (gen_tree leaf) :=
            match fs with
            | [] => []
            | (k, x) :: rest => GenLeaf (inr k) :: toTree x :: go rest
            end) fields)
  end.

Fixpoint fromTree (t : gen_tree leaf) : json :=
  match t with
  | GenLeaf (inl (inl b)) => JBool b
  | GenLeaf (inl (inr (n, d))) => JNumber (n # d)
  | GenLeaf (inr s) => JString s
  | GenNode 0 _ => JNull
  | GenNode 1 ts => JArray (map fromTree ts)
  | GenNode _ ts =>
      JObject
        ((fix go (ts : list (gen_tree leaf)) : list (string * json) :=
            match ts with
            | GenLeaf (inr k) :: x :: rest => (k, fromTree x) :: go rest
            | _ => []
            end) ts)
  end.

Definition digit0 : Ascii.ascii := Ascii.ascii_of_nat 48.
Definition digit1 : Ascii.ascii := Ascii.ascii_of_nat 49.
Definition tagCompact : Ascii.ascii := Ascii.ascii_of_nat 106.
Definition tagIndented : Ascii.ascii := Ascii.ascii_of_nat 74.

Fixpoint bits (p : positive) : string :=
  match p with
  | xH => ""
  | xO p => String digit0 (bits p)
  | xI p => String digit1 (bits p)
  end.

Fixpoint unbits (s : string) : option positive :=
  match s with
  | "" => Some xH
  | String c rest =>
      if Ascii.eqb c digit0 then xO <$> unbits rest
      else if Ascii.eqb c digit1 then xI <$> unbits rest
      else None
  end.

Definition writeJson (tag : Ascii.ascii) (v : json) : string :=
  String tag (bits (encode (toTree v))).

Definition readJson (s : string) : option json :=
  match s with
  | String c rest =>
      if Ascii.eqb c tagCompact || Ascii.eqb c tagIndented
      then p ← unbits rest; fromTree <$> decode p
      else None
  | "" => None
  end.

(** {...a, ...b} of two objects; other values contribute no field. *)
Definition spreadObjects (a b : json) : json :=
  match a, b with
  | JObject fa, JObject fb =>
      JObject (foldl (fun acc kv => TaskStorage.setField (fst kv) (snd kv) acc) fa fb)
  | JObject fa, _ => JObject fa
  | _, JObject fb => JObject fb
  | _, _ => JObject []
  end.

(** A host with that reader and writer, UTC time and a localStorage of
    [capacity] keys. *)
Definition codecHost (capacity : nat) : Host :=
  {| JSON_parse := readJson;
     JSON_stringify := writeJson tagCompact;
     storageFits := fun ls => bool_decide (size ls ≤ capacity)%nat;
     getHours := fun t => (t / 3600000) mod 24;
     toDateString := fun t => writeJson tagCompact (JNumber (inject_Z (t / 86400000)));
     toISOString := fun t => writeJson tagCompact (JNumber (inject_Z t)) |}.

Definition codecExtra : HostExtra :=
  {| JSON_stringify_indented := writeJson tagIndented;
     objectSpread := spreadObjects;
     blobSize := fun text => Z.of_nat (String.length text) |}.

Definition demoCodec : MyPlanApp.TaskCodec :=
  {| MyPlanApp.taskJson := fun task => JString (task_id task) |}.

(** A stored task object with an id. *)
Definition taskObject (taskId : string) (done : bool) : json :=
  JObject [("id", JString taskId); ("completed", JBool done)].

(** A localStorage holding two task objects, written by saveTasks. *)
Definition demoStore : gmap string string :=
  snd (TaskStorage.saveTasks (host := codecHost 2)
         (JArray [taskObject "a" false; taskObject "b" true]) 0 ∅).

(** The collection checkDailyTasks leaves in memory when the date is new. *)
Definition sweep (app : MyPlanApp.App) : MyPlanApp.App :=
  {| MyPlanApp.tasks := map MyPlanApp.resetDaily (MyPlanApp.tasks app);
     MyPlanApp.notificationManager := MyPlanApp.notificationManager app |}.

Definition hasDaily (tasks : list Task) : bool :=
  existsb (fun task => String.eqb (priority task) "daily") tasks.

(** The tasks of the four priority cards, a hidden card showing none. *)
Definition renderedCards (ui : MyPlanApp.Ui) : list Task :=
  concat ((fun p => default [] (MyPlanApp.cardTasks p ui))
            <$> MyPlanApp.priorities).

(** The directives of an evaluation that are status banners. *)
Definition isBanner (d : NM.Directive) : bool :=
  match NM.kind d with NM.top => true | _ => false end.

Definition bannersOf (shown : list NM.Directive) : list NM.Directive :=
  List.filter isBanner shown.

(** The state with another engagement score. *)
Definition withScore (q : Q) (s : NM.State) : NM.State :=
  let b := NM.userBehaviorData s in
  NM.set_userBehaviorData
    {| NM.sessionStartTime := NM.sessionStartTime b;
       NM.tasksCompletedInSession := NM.tasksCompletedInSession b;
       NM.motivationsShown := NM.motivationsShown b;
       NM.lastTaskCompletionTime := NM.lastTaskCompletionTime b;
       NM.averageTaskCompletionTime := NM.averageTaskCompletionTime b;
       NM.userEngagementScore := q |} s.

(** * Properties *)

(** ** Engagement tracker *)

Lemma unhandled_ignored action data now s :
  handled action = false -> NM.updateUserBehaviorData action data now s = s.
Proof.
  unfold handled, NM.updateUserBehaviorData. intros H.
  apply orb_false_elim in H as [H H3]. apply orb_false_elim in H as [H1 H2].
  now rewrite H1, H2, H3.
Qed.

(** What the three cases of the switch do to the score. *)
Lemma score_step action data now s :
  score (NM.updateUserBehaviorData action data now s) =
    if String.eqb action "taskCompleted" then Qmin (score s + 0.1) 1.0
    else if String.eqb action "taskCreated" then Qmin (score s + 0.05) 1.0
    else if String.eqb action "userInactive" then Qmax (score s - 0.02) 0.1
    else score s.
Proof.
  unfold NM.updateUserBehaviorData.
  destruct (String.eqb action "taskCompleted"); [reflexivity|].
  destruct (String.eqb action "taskCreated"); [reflexivity|].
  destruct (String.eqb action "userInactive"); reflexivity.
Qed.

(** The case taskCompleted, which no call site of the application reaches:
    count, time of last completion, running average and score. *)
Lemma taskCompleted_case data now s :
  let b := NM.userBehaviorData s in
  let b' := NM.userBehaviorData
              (NM.updateUserBehaviorData "taskCompleted" data now s) in
  NM.tasksCompletedInSession b' = NM.tasksCompletedInSession b + 1 /\
  NM.lastTaskCompletionTime b' = now /\
  NM.userEngagementScore b' = Qmin (NM.userEngagementScore b + 0.1) 1.0 /\
  NM.averageTaskCompletionTime b' =
    match NM.taskCreatedTime data with
    | Some created =>
        if (created =? 0)%Z then NM.averageTaskCompletionTime b
        else if Qeq_bool (NM.averageTaskCompletionTime b) 0
        then inject_Z (now - created)
        else ((NM.averageTaskCompletionTime b + inject_Z (now - created)) / 2)%Q
    | None => NM.averageTaskCompletionTime b
    end.
Proof. repeat split. Qed.

Lemma score_step_in_range action data now s :
  (0.1 <= score s <= 1.0)%Q ->
  (0.1 <= score (NM.updateUserBehaviorData action data now s) <= 1.0)%Q.
Proof.
  intros [Hlo Hhi]. rewrite score_step.
  destruct (String.eqb action "taskCompleted").
  { split; [apply Q.min_glb; lra | apply Q.le_min_r]. }
  destruct (String.eqb action "taskCreated").
  { split; [apply Q.min_glb; lra | apply Q.le_min_r]. }
  destruct (String.eqb action "userInactive").
  { split; [apply Q.le_max_r | apply Q.max_lub; lra]. }
  split; assumption.
Qed.

Lemma score_run_in_range (events : list Event) : forall s,
  (0.1 <= score s <= 1.0)%Q ->
  (0.1 <= score (foldl record s events) <= 1.0)%Q.
Proof.
  induction events as [|e events IH]; intros s Hs; [exact Hs|].
  simpl. apply IH. unfold record. now apply score_step_in_range.
Qed.

(** C10.  The engagement score starts at 0.5 and stays within [0.1, 1.0]
    along every finite sequence of updateUserBehaviorData calls, whatever
    the actions and the data: a step that raises it takes the minimum with
    1.0, a step that lowers it takes the maximum with 0.1, and an action
    without a case leaves it as it is. *)
Theorem engagement_score_invariant
    (t_active t_session : Z) (events : list Event) :
  score (NM.constructor t_active t_session) = 0.5%Q /\
  (0.1 <= score (foldl record (NM.constructor t_active t_session) events)
       <= 1.0)%Q /\
  (forall s e,
     score (record s e) =
       if String.eqb (ev_action e) "taskCompleted"
       then Qmin (score s + 0.1) 1.0
       else if String.eqb (ev_action e) "taskCreated"
       then Qmin (score s + 0.05) 1.0
       else if String.eqb (ev_action e) "userInactive"
       then Qmax (score s - 0.02) 0.1
       else score s).
Proof.
  split; [reflexivity|]. split.
  - apply score_run_in_range. unfold score. simpl. lra.
  - intros s e. apply score_step.
Qed.

(** The names the application sends are not names the switch knows. *)
Lemma dispatched_names_unhandled :
  handled "task_completed" = false /\ handled "task_created" = false
  /\ handled "user_inactive" = false.
Proof. repeat split. Qed.

Lemma toggleTask_keeps_behavior taskId t_completed t_behavior t_updated app :
  NM.userBehaviorData
    (MyPlanApp.notificationManager
       (MyPlanApp.toggleTask taskId t_completed t_behavior t_updated app))
  = NM.userBehaviorData (MyPlanApp.notificationManager app).
Proof.
  unfold MyPlanApp.toggleTask.
  destruct (MyPlanApp.find taskId (MyPlanApp.tasks app)) as [[i task]|];
    [|reflexivity].
  destruct (completed task); reflexivity.
Qed.

Lemma addTask_keeps_behavior input prio newId t1 t2 t3 app :
  NM.userBehaviorData
    (MyPlanApp.notificationManager (MyPlanApp.addTask input prio newId t1 t2 t3 app))
  = NM.userBehaviorData (MyPlanApp.notificationManager app).
Proof.
  unfold MyPlanApp.addTask. destruct (String.eqb input ""); reflexivity.
Qed.

Lemma inactivityPoll_keeps_state t_poll now s :
  NM.inactivityPoll t_poll now s = s.
Proof.
  unfold NM.inactivityPoll.
  destruct (300000 <? t_poll - NM.userActiveTime s)%Z; reflexivity.
Qed.

(** C1.  Completing a task through toggleTask in a fresh session: the task
    becomes completed, but the call updateUserBehaviorData('task_completed')
    matches no case, so the score is still 0.5, the session count still 0
    and the last completion time still 0; the case taskCompleted, fed the
    same state, gives 0.6, a count of 1 and the time of the call.  Adding a
    task and five minutes of inactivity leave the score at 0.5 as well. *)
Theorem toggle_completion_not_recorded :
  let app0 :=
    {| MyPlanApp.tasks := [demoTask "daily" false 1000];
       MyPlanApp.notificationManager := NM.constructor 0 0 |} in
  let app1 := MyPlanApp.toggleTask "a" 5000 5000 5000 app0 in
  let b1 := NM.userBehaviorData (MyPlanApp.notificationManager app1) in
  let b' :=
    NM.userBehaviorData
      (NM.updateUserBehaviorData "taskCompleted" NM.noData 5000
         (MyPlanApp.notificationManager app0)) in
  (completed <$> MyPlanApp.tasks app1) = [true] /\
  NM.userEngagementScore b1 = 0.5%Q /\
  NM.tasksCompletedInSession b1 = 0 /\
  NM.lastTaskCompletionTime b1 = 0 /\
  (NM.userEngagementScore b' == 0.6)%Q /\
  NM.tasksCompletedInSession b' = 1 /\
  NM.lastTaskCompletionTime b' = 5000 /\
  score (MyPlanApp.notificationManager
           (MyPlanApp.addTask "read" "daily" "b" 6000 6000 6000 app1)) = 0.5%Q /\
  score (NM.inactivityPoll 400000 400000 (NM.constructor 0 0)) = 0.5%Q.
Proof. vm_compute. repeat split; reflexivity. Qed.

(** ** Notification scheduler *)

Lemma clamp_in_range (p : Q) : (0.1 <= Qmin (Qmax p 0.1) 0.9 <= 0.9)%Q.
Proof.
  split.
  - apply Q.min_glb; [apply Q.le_max_r | lra].
  - apply Q.le_min_r.
Qed.

Lemma smartNotificationProbability_values uncompleted completedToday timeOfDay :
  let p := NM.smartNotificationProbability uncompleted completedToday timeOfDay in
  p = 0.85%Q \/ p = 0.75%Q \/ p = 0.45%Q \/ p = 0.7%Q \/ p = 0.6%Q.
Proof.
  unfold NM.smartNotificationProbability.
  destruct ((uncompleted =? 0)%nat && (0 <? completedToday)%nat); [tauto|].
  destruct (5 <=? completedToday)%nat; [tauto|].
  destruct (10 <? uncompleted)%nat; [tauto|].
  destruct (NM.isMorning timeOfDay); tauto.
Qed.

Example probability_fresh_session :
  (NM.calculateSmartMotivationProbability (host := demoHost) [] [] NM.afternoon
     0 0 (12 * 3600000) (NM.constructor 0 0) == 0.24)%Q.
Proof. vm_compute. reflexivity. Qed.

(** Nine pending tasks at 23 h for a disengaged user who saw a motivation
    already: the product is below 0.1 and the result is 0.1. *)
Example probability_clamped_below :
  let s := NM.set_userBehaviorData
             {| NM.sessionStartTime := 0; NM.tasksCompletedInSession := 0;
                NM.motivationsShown := 1; NM.lastTaskCompletionTime := 0;
                NM.averageTaskCompletionTime := 0;
                NM.userEngagementScore := 0.1 |} (NM.constructor 0 0) in
  (NM.calculateSmartMotivationProbability (host := demoHost)
     (replicate 9 (demoTask "daily" false 0)) [] NM.night
     60000 60000 (23 * 3600000) s == 0.1)%Q.
Proof. vm_compute. reflexivity. Qed.

(** C4.  Whatever the task lists, the engagement state, the clock readings
    and the hour, the probability calculateSmartMotivationProbability
    returns lies in [0.1, 0.9]; so does the probability showSmartNotification
    compares its sample with, for all counts and times of day. *)
Theorem motivation_probability_in_range `{host : Host}
    (uncompletedTasks completedToday : list Task) (timeOfDay : NM.TimeOfDay)
    (t_session t_completion t_hour : Z) (s : NM.State)
    (uncompleted completed : nat) :
  (0.1 <= NM.calculateSmartMotivationProbability uncompletedTasks
            completedToday timeOfDay t_session t_completion t_hour s
       <= 0.9)%Q /\
  (0.1 <= NM.smartNotificationProbability uncompleted completed timeOfDay
       <= 0.9)%Q.
Proof.
  split.
  - unfold NM.calculateSmartMotivationProbability. apply clamp_in_range.
  - destruct (smartNotificationProbability_values uncompleted completed timeOfDay)
      as [H|[H|[H|[H|H]]]]; rewrite H; lra.
Qed.

Lemma getTimeOfDay_night `{host : Host} (t : Z) :
  NM.getTimeOfDay t = NM.night <-> (getHours t < 6 \/ 22 <= getHours t)%Z.
Proof.
  unfold NM.getTimeOfDay.
  destruct (6 <=? getHours t)%Z eqn:H6; destruct (getHours t <? 12)%Z eqn:H12;
  destruct (12 <=? getHours t)%Z eqn:H12'; destruct (getHours t <? 18)%Z eqn:H18;
  destruct (18 <=? getHours t)%Z eqn:H18'; destruct (getHours t <? 22)%Z eqn:H22;
  simpl; split; intros H; try discriminate; try reflexivity; lia.
Qed.

Lemma filter_nonempty {A} (f : A -> bool) (l : list A) (x : A) :
  In x l -> f x = true -> (0 < length (List.filter f l))%nat.
Proof.
  intros Hin Hf.
  assert (Hx : In x (List.filter f l)) by (apply filter_In; auto).
  destruct (List.filter f l); [destruct Hx | simpl; lia].
Qed.

(** C3.  At an hour classified as night, a snapshot with a pending important
    task makes showSmartNotification show, first, the banner of rule 1: the
    night text with the number of pending tasks, at high urgency; rule 2
    (important tasks, medium urgency) is not reached. *)
Theorem night_rule_before_important_rule `{host : Host}
    (tasks : list Task) (r : NM.SmartReadings) (s : NM.State) (task : Task) :
  NM.getTimeOfDay (NM.sr_tod r) = NM.night ->
  In task tasks -> completed task = false -> priority task = "important" ->
  head (snd (NM.showSmartNotification tasks r s)) =
    Some {| NM.message :=
              NM.NightPending
                (length (List.filter (fun t => negb (completed t)) tasks));
            NM.kind := NM.top; NM.urgency := NM.high;
            NM.duration := 0; NM.closable := true |}.
Proof.
  intros Hnight Hin Hc Hp.
  assert (Hpending :
    (0 <? length (List.filter (fun t => negb (completed t)) tasks))%nat = true).
  { apply Nat.ltb_lt. apply (filter_nonempty _ _ task Hin). now rewrite Hc. }
  unfold NM.showSmartNotification. rewrite Hnight, Hpending. simpl.
  repeat match goal with
         | |- context [if ?b then _ else _] => destruct b
         end; reflexivity.
Qed.

Lemma night_rule_before_important_rule_witness :
  NM.getTimeOfDay (host := demoHost) (23 * 3600000) = NM.night /\
  head (snd (NM.showSmartNotification (host := demoHost)
               [demoTask "important" false 1000]
               {| NM.sr_tod := 23 * 3600000; NM.sr_today := 23 * 3600000;
                  NM.sr_now := 23 * 3600000; NM.sr_gate := 0.99;
                  NM.sr_hour := 23 * 3600000; NM.sr_quote := 0.5;
                  NM.sr_pick := 0.5 |}
               (NM.constructor 0 0))) =
    Some {| NM.message := NM.NightPending 1;
            NM.kind := NM.top; NM.urgency := NM.high;
            NM.duration := 0; NM.closable := true |}.
Proof.
  split; [reflexivity|].
  apply (night_rule_before_important_rule (host := demoHost)
           [demoTask "important" false 1000] _ _ (demoTask "important" false 1000));
    [reflexivity | left; reflexivity | reflexivity | reflexivity].
Defined.

(** C2, as stated, fails: at 23 h with one pending task of priority general,
    the motivation on display converts into the normal-urgency greeting, not
    into the high-urgency night banner. *)
Lemma conversion_at_night_counterexample :
  let tasks := [demoTask "general" false 1000] in
  let s := NM.show {| NM.message := NM.TimeMessage NM.night 0;
                      NM.kind := NM.motivation; NM.urgency := NM.normal;
                      NM.duration := 5000; NM.closable := true |}
                   (NM.constructor 0 0) in
  let s' := NM.convertMotivationToTopNotification (host := demoHost)
              tasks (23 * 3600000) s in
  NM.getTimeOfDay (host := demoHost) (23 * 3600000) = NM.night /\
  pendingTasks tasks <> [] /\
  NM.display s' = NM.ShowingBanner (NM.GreetingPending NM.night 1) NM.normal /\
  NM.display s' <> NM.ShowingBanner (NM.NightPending 1) NM.high.
Proof. vm_compute. repeat split; discriminate. Qed.

(** C2, amended.  A motivation on display converts into the banner that
    convertMotivationToTopNotification picks by its own three rules on the
    current snapshot: nothing pending, the all-done text at normal urgency;
    an important task pending, the count of those at medium urgency;
    otherwise the greeting of the time of day with the count of pending
    tasks at normal urgency.  So at night the banner is never of high
    urgency. *)
Theorem conversion_banner_rules `{host : Host}
    (tasks : list Task) (t_tod : Z) (s : NM.State) (m : NM.Message) :
  NM.display s = NM.ShowingMotivation m ->
  let s' := NM.convertMotivationToTopNotification tasks t_tod s in
  NM.display s' =
    (if (length (pendingTasks tasks) =? 0)%nat
     then NM.ShowingBanner NM.AllTasksDone NM.normal
     else if (0 <? length (importantPending tasks))%nat
     then NM.ShowingBanner
            (NM.ImportantPending (length (importantPending tasks))) NM.medium
     else NM.ShowingBanner
            (NM.GreetingPending (NM.getTimeOfDay t_tod)
               (length (pendingTasks tasks))) NM.normal) /\
  (forall text, NM.display s' <> NM.ShowingBanner text NM.high).
Proof.
  intros Hd s'. subst s'. unfold NM.convertMotivationToTopNotification.
  rewrite Hd. fold (pendingTasks tasks). fold (importantPending tasks).
  destruct (length (pendingTasks tasks) =? 0)%nat.
  { split; [reflexivity | intros text; discriminate]. }
  destruct (0 <? length (importantPending tasks))%nat;
    (split; [reflexivity | intros text; discriminate]).
Qed.

Lemma conversion_banner_rules_witness :
  let s := NM.set_display (NM.ShowingMotivation (NM.TimeMessage NM.night 0))
             (NM.constructor 0 0) in
  NM.display
    (NM.convertMotivationToTopNotification (host := demoHost)
       [demoTask "important" false 1000] (23 * 3600000) s)
  = NM.ShowingBanner (NM.ImportantPending 1) NM.medium.
Proof.
  exact (proj1 (conversion_banner_rules (host := demoHost)
                  [demoTask "important" false 1000] (23 * 3600000)
                  (NM.set_display
                     (NM.ShowingMotivation (NM.TimeMessage NM.night 0))
                     (NM.constructor 0 0))
                  (NM.TimeMessage NM.night 0) eq_refl)).
Defined.

(** An evaluation that emits found the cooldown elapsed, and leaves its
    stamp in lastMotivationTime; the cooldown itself never changes. *)
Lemma smart_emission `{host : Host} tasks r s :
  emitsMotivation (snd (NM.showSmartNotification tasks r s)) = true ->
  (NM.motivationCooldown s <= NM.sr_now r - NM.lastMotivationTime s)%Z /\
  NM.lastMotivationTime (fst (NM.showSmartNotification tasks r s)) = NM.sr_now r.
Proof.
  unfold NM.showSmartNotification.
  repeat match goal with
         | |- context [if ?b then _ else _] => destruct b eqn:?
         end; simpl; intros He; try discriminate;
  match goal with
  | H : (_ && (_ <=? _)%Z) = true |- _ =>
      apply andb_prop in H as [_ H]; apply Z.leb_le in H; simpl in H
  end; split; auto.
Qed.

Lemma periodic_emission `{host : Host} tasks r s :
  emitsMotivation (snd (NM.checkAndShowPeriodicMotivation tasks r s)) = true ->
  (NM.motivationCooldown s <= NM.pr_cool r - NM.lastMotivationTime s)%Z /\
  NM.lastMotivationTime (fst (NM.checkAndShowPeriodicMotivation tasks r s))
    = NM.pr_emit r.
Proof.
  unfold NM.checkAndShowPeriodicMotivation.
  destruct (negb (NM.isPageVisible s)); [discriminate|].
  destruct (NM.minActiveTime s <? NM.pr_active r - NM.userActiveTime s)%Z;
    [discriminate|].
  destruct (NM.pr_cool r - NM.lastMotivationTime s <? NM.motivationCooldown s)%Z
    eqn:Hcool; [discriminate|].
  apply Z.ltb_ge in Hcool.
  repeat match goal with
         | |- context [if ?b then _ else _] => destruct b eqn:?
         end; simpl; intros He; try discriminate; split; auto.
Qed.

Lemma smart_cooldown `{host : Host} tasks r s :
  NM.motivationCooldown (fst (NM.showSmartNotification tasks r s))
  = NM.motivationCooldown s.
Proof.
  unfold NM.showSmartNotification.
  repeat match goal with
         | |- context [if ?b then _ else _] => destruct b eqn:?
         end; reflexivity.
Qed.

Lemma periodic_cooldown `{host : Host} tasks r s :
  NM.motivationCooldown (fst (NM.checkAndShowPeriodicMotivation tasks r s))
  = NM.motivationCooldown s.
Proof.
  unfold NM.checkAndShowPeriodicMotivation.
  repeat match goal with
         | |- context [if ?b then _ else _] => destruct b eqn:?
         end; reflexivity.
Qed.

Lemma evaluation_emission `{host : Host} e s :
  emitsMotivation (snd (evaluate e s)) = true ->
  (NM.motivationCooldown s <= checkTime e - NM.lastMotivationTime s)%Z /\
  NM.lastMotivationTime (fst (evaluate e s)) = stampTime e.
Proof.
  destruct e; simpl; [apply smart_emission | apply periodic_emission].
Qed.

Lemma evaluation_cooldown `{host : Host} e s :
  NM.motivationCooldown (fst (evaluate e s)) = NM.motivationCooldown s.
Proof.
  destruct e; simpl; [apply smart_cooldown | apply periodic_cooldown].
Qed.

(** C5.  Two consecutive encouragement evaluations, of either kind, the
    second of which tests the cooldown less than 30 seconds after the time
    the first one stamps: they do not both emit a motivation message,
    whatever the random samples. *)
Theorem cooldown_between_evaluations `{host : Host}
    (e1 e2 : Evaluation) (s : NM.State) :
  NM.motivationCooldown s = 30 * 1000 ->
  (checkTime e2 - stampTime e1 < 30 * 1000)%Z ->
  let (s1, shown1) := evaluate e1 s in
  let (s2, shown2) := evaluate e2 s1 in
  emitsMotivation shown1 && emitsMotivation shown2 = false.
Proof.
  intros Hcd Hclose.
  destruct (evaluate e1 s) as [s1 shown1] eqn:E1.
  destruct (evaluate e2 s1) as [s2 shown2] eqn:E2.
  destruct (emitsMotivation shown1) eqn:H1; [|reflexivity].
  destruct (emitsMotivation shown2) eqn:H2; [|reflexivity].
  exfalso.
  pose proof (evaluation_emission e1 s) as F1.
  pose proof (evaluation_cooldown e1 s) as C1.
  pose proof (evaluation_emission e2 s1) as F2.
  rewrite E1 in F1, C1. rewrite E2 in F2. simpl in *.
  destruct (F1 H1) as [_ Hstamp]. destruct (F2 H2) as [Hwait _].
  rewrite C1, Hcd, Hstamp in Hwait. lia.
Qed.

Lemma cooldown_between_evaluations_witness :
  let s0 := NM.constructor 0 0 in
  let e1 :=
    Smart [demoTask "daily" false 1000]
      {| NM.sr_tod := 100000; NM.sr_today := 100000; NM.sr_now := 100000;
         NM.sr_gate := 0; NM.sr_hour := 100000; NM.sr_quote := 0.5;
         NM.sr_pick := 0.5 |} in
  let e2 :=
    Periodic [demoTask "daily" false 1000]
      {| NM.pr_active := 110000; NM.pr_cool := 110000; NM.pr_today := 110000;
         NM.pr_tod := 110000; NM.pr_session := 110000;
         NM.pr_completion := 110000; NM.pr_hour := 110000; NM.pr_gate := 0;
         NM.pr_msgHour := 110000; NM.pr_quote := 0.5; NM.pr_pick := 0.5;
         NM.pr_emit := 110000 |} in
  emitsMotivation (snd (evaluate (host := demoHost) e1 s0)) = true /\
  emitsMotivation (snd (evaluate (host := demoHost) e1 s0))
  && emitsMotivation
       (snd (evaluate (host := demoHost) e2
               (fst (evaluate (host := demoHost) e1 s0)))) = false.
Proof.
  intros s0 e1 e2. split; [vm_compute; reflexivity|].
  exact (cooldown_between_evaluations (host := demoHost) e1 e2 s0
           eq_refl eq_refl).
Defined.

(** ** Task store *)

(** With room for one key only, the tasks of a valid payload are written,
    its settings are not, and the call reports success. *)
Example import_writes_tasks_only :
  TaskStorage.importTasks (host := demoHost) "{tasks:[],settings:{}}" 0 ∅
  = (Some true, {[ "myplan_tasks" := "" ]}).
Proof. vm_compute. reflexivity. Qed.

(** C6.  A payload that parses but whose tasks field is missing or is not a
    list: importTasks returns false and localStorage, tasks and settings
    alike, is what it was. *)
Theorem import_rejects_without_writing `{host : Host}
    (jsonData : string) (importData : json) (now : Z)
    (ls : gmap string string) :
  JSON_parse jsonData = Some importData ->
  isArray (getMember importData "tasks") = false ->
  TaskStorage.importTasks jsonData now ls = (Some false, ls).
Proof.
  intros Hparse Hbad.
  unfold TaskStorage.importTasks, TaskStorage.try_catch, TaskStorage.bind.
  rewrite Hparse.
  destruct (getMember importData "tasks") as [| |v]; simpl; try reflexivity.
  simpl in Hbad. rewrite Hbad, orb_true_r. reflexivity.
Qed.

Lemma import_rejects_without_writing_witness :
  TaskStorage.importTasks (host := demoHost) "{tasks:1}" 0
    {[ "myplan_tasks" := "kept" ]}
  = (Some false, {[ "myplan_tasks" := "kept" ]}).
Proof.
  exact (import_rejects_without_writing (host := demoHost) "{tasks:1}"
           (JObject [("tasks", JNumber 1)]) 0 {[ "myplan_tasks" := "kept" ]}
           eq_refl eq_refl).
Defined.

(** Text that JSON.parse refuses is rejected in the same way. *)
Lemma import_rejects_unparsable `{host : Host} jsonData now ls :
  JSON_parse jsonData = None ->
  TaskStorage.importTasks jsonData now ls = (Some false, ls).
Proof.
  intros Hparse.
  unfold TaskStorage.importTasks, TaskStorage.try_catch. now rewrite Hparse.
Qed.

Lemma saveTasks_array `{host : Host} items now ls :
  TaskStorage.saveTasks (JArray items) now ls =
    let ls' := <[TaskStorage.storageKey :=
                   JSON_stringify (TaskStorage.taskData (JArray items) now)]> ls in
    if storageFits ls' then (Some true, ls') else (Some false, ls).
Proof.
  unfold TaskStorage.saveTasks, TaskStorage.try_catch, TaskStorage.bind,
    TaskStorage.setItem. simpl.
  destruct (storageFits _); reflexivity.
Qed.

Lemma saveSettings_returns `{host : Host} settings ls :
  exists b ls', TaskStorage.saveSettings settings ls = (Some b, ls').
Proof.
  unfold TaskStorage.saveSettings, TaskStorage.try_catch, TaskStorage.bind,
    TaskStorage.setItem.
  destruct (storageFits _); simpl; eauto.
Qed.

Lemma member_of_object k fields :
  getMember (JObject fields) k <> Throws.
Proof. simpl. destruct (assoc k fields); discriminate. Qed.

Lemma import_list_outcome `{host : Host} jsonData importData items now ls :
  JSON_parse jsonData = Some importData ->
  getMember importData "tasks" = Value (JArray items) ->
  exists ls',
    TaskStorage.importTasks jsonData now ls = (Some true, ls') /\
    (fst (TaskStorage.saveTasks (JArray items) now ls) = Some false -> ls' = ls).
Proof.
  intros Hparse Htasks.
  assert (Hobj : exists fields, importData = JObject fields).
  { destruct importData; simpl in Htasks; try discriminate; eauto. }
  destruct Hobj as [fields ->].
  pose proof (member_of_object "settings" fields) as Hset.
  unfold TaskStorage.importTasks, TaskStorage.try_catch.
  rewrite Hparse. unfold TaskStorage.bind at 1. rewrite Htasks.
  destruct (getMember (JObject fields) "settings") as [| |v];
    [contradiction | |]; simpl;
    unfold TaskStorage.bind at 1; rewrite saveTasks_array; cbv zeta;
    destruct (storageFits _) eqn:Hfit; simpl.
  - eexists; split; [reflexivity | discriminate].
  - eexists; split; reflexivity.
  - unfold TaskStorage.bind, TaskStorage.ret. simpl.
    destruct (truthy v); simpl; [|eexists; split; [reflexivity | discriminate]].
    destruct (saveSettings_returns v
                (<[TaskStorage.storageKey :=
                     JSON_stringify (TaskStorage.taskData (JArray items) now)]> ls))
      as (b & ls' & ->).
    eexists; split; [reflexivity | discriminate].
  - unfold TaskStorage.bind, TaskStorage.ret.
    rewrite andb_false_r. eexists; split; reflexivity.
Qed.

(** C9.  A payload that parses and whose tasks field is a list: importTasks
    returns true.  When saveTasks could not write and returned false, the
    call still returns true and has written nothing, the settings of the
    payload included. *)
Theorem import_reports_success_regardless `{host : Host}
    (jsonData : string) (importData : json) (items : list json) (now : Z)
    (ls : gmap string string) :
  JSON_parse jsonData = Some importData ->
  getMember importData "tasks" = Value (JArray items) ->
  fst (TaskStorage.importTasks jsonData now ls) = Some true /\
  (fst (TaskStorage.saveTasks (JArray items) now ls) = Some false ->
   TaskStorage.importTasks jsonData now ls = (Some true, ls)).
Proof.
  intros Hparse Htasks.
  destruct (import_list_outcome jsonData importData items now ls Hparse Htasks)
    as (ls' & Hrun & Hkeep).
  rewrite Hrun. split; [reflexivity|].
  intros Hfail. now rewrite (Hkeep Hfail).
Qed.

Lemma import_reports_success_regardless_witness :
  fst (TaskStorage.saveTasks (host := fullHost) (JArray []) 0 ∅) = Some false /\
  TaskStorage.importTasks (host := fullHost) "{tasks:[],settings:{}}" 0 ∅
  = (Some true, ∅).
Proof.
  split; [reflexivity|].
  exact (proj2 (import_reports_success_regardless (host := fullHost)
                  "{tasks:[],settings:{}}"
                  (JObject [("tasks", JArray []); ("settings", JObject [])])
                  [] 0 ∅ eq_refl eq_refl) eq_refl).
Defined.

(** ** Grouped view *)

Lemma getTasksByPriority_lookup app p bucket :
  MyPlanApp.getTasksByPriority app !! p = Some bucket <->
  p ∈ MyPlanApp.priorities /\
  bucket = MyPlanApp.sort MyPlanApp.compareTasks
             (List.filter (hasPriority p) (MyPlanApp.tasks app)).
Proof.
  unfold MyPlanApp.getTasksByPriority, MyPlanApp.priorities. simpl.
  rewrite !lookup_insert, lookup_empty.
  repeat case_decide; subst; split.
  all: try (intros [= <-]; split; [|reflexivity]).
  all: try (intros [_ ->]; reflexivity).
  all: try discriminate.
  all: try (intros [Hin _]).
  all: repeat (apply elem_of_cons in Hin as [Hin|Hin]; [congruence|]).
  all: try (now apply elem_of_nil in Hin).
  all: repeat first [apply list_elem_of_here | apply list_elem_of_further].
Qed.

#[local] Instance compareTasks_total : Total (MyPlanApp.inOrder MyPlanApp.compareTasks).
Proof.
  intros a b. unfold MyPlanApp.inOrder, MyPlanApp.compareTasks.
  destruct (completed a), (completed b); simpl; lia.
Qed.

#[local] Instance compareTasks_transitive :
  Transitive (MyPlanApp.inOrder MyPlanApp.compareTasks).
Proof.
  intros a b c. unfold MyPlanApp.inOrder, MyPlanApp.compareTasks.
  destruct (completed a), (completed b), (completed c); simpl; lia.
Qed.

Lemma inOrder_compareTasks a b :
  MyPlanApp.inOrder MyPlanApp.compareTasks a b ->
  (completed a = true -> completed b = true) /\
  (completed a = completed b -> createdAt b <= createdAt a).
Proof.
  unfold MyPlanApp.inOrder, MyPlanApp.compareTasks.
  destruct (completed a), (completed b); simpl; intros H; split; intros;
    try congruence; lia.
Qed.

Lemma StronglySorted_lookup_lt {A} (R : relation A) (l : list A) :
  StronglySorted R l ->
  forall i j a b, (i < j)%nat -> l !! i = Some a -> l !! j = Some b -> R a b.
Proof.
  induction 1 as [|x l Hs IH Hall]; intros [|i] [|j] a b Hij Hi Hj;
    simpl in *; try discriminate; try lia.
  - injection Hi as ->. rewrite Forall_forall in Hall. apply Hall.
    eapply list_elem_of_lookup_2; eauto.
  - apply (IH i j); auto; lia.
Qed.

Lemma sort_Permutation compareFn (l : list Task) :
  MyPlanApp.sort compareFn l ≡ₚ l.
Proof. unfold MyPlanApp.sort. apply merge_sort_Permutation. Qed.

Lemma filter_hasPriority_cons p task (l : list Task) :
  List.filter (hasPriority p) (task :: l) =
    if String.eqb (priority task) p
    then task :: List.filter (hasPriority p) l
    else List.filter (hasPriority p) l.
Proof. reflexivity. Qed.

Lemma filter_priorities_partition (l : list Task) :
  Forall (fun task => priority task ∈ MyPlanApp.priorities) l ->
  (List.filter (hasPriority "important") l
   ++ List.filter (hasPriority "daily") l
   ++ List.filter (hasPriority "secondary") l
   ++ List.filter (hasPriority "general") l)%list ≡ₚ l.
Proof.
  induction 1 as [|task l Hp Hall IH]; [reflexivity|].
  unfold MyPlanApp.priorities in Hp. rewrite !filter_hasPriority_cons.
  repeat (apply elem_of_cons in Hp as [E|Hp]); [| | | |inversion Hp];
    rewrite E; simpl.
  - now apply Permutation_skip.
  - rewrite <- Permutation_middle. now apply Permutation_skip.
  - rewrite (app_assoc (List.filter _ l)), <- Permutation_middle,
      <- app_assoc.
    now apply Permutation_skip.
  - rewrite (app_assoc (List.filter (hasPriority "daily") l)),
      (app_assoc (List.filter (hasPriority "important") l)),
      <- Permutation_middle, <- !app_assoc.
    now apply Permutation_skip.
Qed.

Lemma bucket_of_priority app p :
  p ∈ MyPlanApp.priorities ->
  bucket (MyPlanApp.getTasksByPriority app) p =
    MyPlanApp.sort MyPlanApp.compareTasks
      (List.filter (hasPriority p) (MyPlanApp.tasks app)).
Proof.
  intros Hp. unfold bucket.
  assert (H : MyPlanApp.getTasksByPriority app !! p =
              Some (MyPlanApp.sort MyPlanApp.compareTasks
                      (List.filter (hasPriority p) (MyPlanApp.tasks app))))
    by (apply getTasksByPriority_lookup; auto).
  now rewrite H.
Qed.

Lemma bucket_elements app p task :
  task ∈ bucket (MyPlanApp.getTasksByPriority app) p ->
  task ∈ MyPlanApp.tasks app /\ priority task = p.
Proof.
  unfold bucket.
  destruct (MyPlanApp.getTasksByPriority app !! p) as [l|] eqn:E; simpl.
  - apply getTasksByPriority_lookup in E as [_ ->].
    rewrite sort_Permutation, list_elem_of_In, filter_In, <- list_elem_of_In.
    unfold hasPriority. intros [Hin Hp]. now apply String.eqb_eq in Hp.
  - intros H. now apply elem_of_nil in H.
Qed.

(** C7.  When every task has one of the four priorities, the grouped view
    places every task exactly once: the four buckets together are a
    rearrangement of the collection, a task lies in the bucket of its
    priority and in no other.  Within a bucket no completed task precedes an
    incomplete one, and of two tasks with the same completed flag the
    earlier one in the bucket was not created before the later one. *)
Theorem grouped_view_partitions_and_orders (app : MyPlanApp.App) :
  Forall (fun task => priority task ∈ MyPlanApp.priorities)
         (MyPlanApp.tasks app) ->
  let grouped := MyPlanApp.getTasksByPriority app in
  concat (bucket grouped <$> MyPlanApp.priorities) ≡ₚ MyPlanApp.tasks app /\
  (forall task, task ∈ MyPlanApp.tasks app ->
     task ∈ bucket grouped (priority task)) /\
  (forall p task, task ∈ bucket grouped p -> priority task = p) /\
  (forall p (i j : nat) a b,
     (i < j)%nat -> bucket grouped p !! i = Some a ->
     bucket grouped p !! j = Some b ->
     (completed a = true -> completed b = true) /\
     (completed a = completed b -> createdAt b <= createdAt a)).
Proof.
  intros Hvalid grouped. subst grouped. split; [|split; [|split]].
  - unfold MyPlanApp.priorities at 1. simpl.
    rewrite !bucket_of_priority, !sort_Permutation, app_nil_r
      by (unfold MyPlanApp.priorities;
          repeat first [apply list_elem_of_here | apply list_elem_of_further]).
    now apply filter_priorities_partition.
  - intros task Hin. rewrite Forall_forall in Hvalid.
    rewrite bucket_of_priority by auto.
    rewrite sort_Permutation, list_elem_of_In, filter_In, <- list_elem_of_In.
    split; [assumption | apply String.eqb_refl].
  - intros p task Hin. now apply bucket_elements in Hin.
  - intros p i j a b. unfold bucket.
    destruct (MyPlanApp.getTasksByPriority app !! p) as [l|] eqn:E; simpl;
      [|discriminate].
    apply getTasksByPriority_lookup in E as [_ ->].
    intros Hij Hi Hj.
    apply inOrder_compareTasks.
    apply (StronglySorted_lookup_lt _ _
             (StronglySorted_merge_sort _ _) i j a b Hij Hi Hj).
Qed.

Lemma grouped_view_partitions_and_orders_witness :
  let app :=
    {| MyPlanApp.tasks :=
         [demoTask "daily" false 1; demoTask "daily" true 5;
          demoTask "important" false 2; demoTask "daily" false 3];
       MyPlanApp.notificationManager := NM.constructor 0 0 |} in
  bucket (MyPlanApp.getTasksByPriority app) "daily" =
    [demoTask "daily" false 3; demoTask "daily" false 1; demoTask "daily" true 5]
  /\
  concat (bucket (MyPlanApp.getTasksByPriority app) <$> MyPlanApp.priorities)
    ≡ₚ MyPlanApp.tasks app.
Proof.
  intros app. split; [vm_compute; reflexivity|].
  assert (Hvalid : Forall (fun task => priority task ∈ MyPlanApp.priorities)
                          (MyPlanApp.tasks app)).
  { apply (bool_decide_unpack _). vm_compute. exact I. }
  exact (proj1 (grouped_view_partitions_and_orders app Hvalid)).
Defined.

(** ** Toggling *)

Lemma find_Some taskId (l : list Task) i task :
  MyPlanApp.find taskId l = Some (i, task) ->
  l !! i = Some task /\ task_id task = taskId.
Proof.
  revert i. induction l as [|t l IH]; intros i; simpl; [discriminate|].
  destruct (String.eqb (task_id t) taskId) eqn:E.
  - intros [= <- <-]. apply String.eqb_eq in E. auto.
  - destruct (MyPlanApp.find taskId l) as [[k t']|]; [|discriminate].
    intros [= <- <-]. simpl. now apply IH.
Qed.

Lemma find_insert taskId (l : list Task) i task task' :
  MyPlanApp.find taskId l = Some (i, task) ->
  task_id task' = taskId ->
  MyPlanApp.find taskId (<[i := task']> l) = Some (i, task').
Proof.
  intros Hfind Hid. revert i Hfind.
  induction l as [|t l IH]; intros i; simpl; [discriminate|].
  destruct (String.eqb (task_id t) taskId) eqn:E.
  - intros [= <- <-]. simpl. rewrite Hid, String.eqb_refl. reflexivity.
  - destruct (MyPlanApp.find taskId l) as [[k t']|] eqn:F; [|discriminate].
    intros [= <- <-]. simpl. rewrite E. now rewrite (IH k eq_refl).
Qed.

(** C8, as stated, fails: two toggles that read the same clock value (here
    2000) give the same updatedAt. *)
Lemma toggle_same_instant_counterexample :
  let app0 :=
    {| MyPlanApp.tasks := [demoTask "daily" false 1000];
       MyPlanApp.notificationManager := NM.constructor 0 0 |} in
  let app1 := MyPlanApp.toggleTask "a" 2000 2000 2000 app0 in
  let app2 := MyPlanApp.toggleTask "a" 2000 2000 2000 app1 in
  updatedAtOf "a" app1 = Some 2000 /\
  updatedAtOf "a" app2 = Some 2000 /\
  ~ (2000 < 2000).
Proof. vm_compute. repeat split. discriminate. Qed.

(** C8, amended.  Toggling an incomplete task of the collection twice: after
    the first toggle it is completed, with completedAt the clock value read
    for it; after the second it has completed false and completedAt null
    again, and the fields toggleTask does not write are as they were.  Each
    toggle sets updatedAt to the clock value it reads, so updatedAt
    increases strictly with each toggle when each is read later than the
    updatedAt then stored. *)
Theorem toggle_twice_restores (app : MyPlanApp.App) (taskId : string)
    (i : nat) (task : Task) (c1 b1 u1 c2 b2 u2 : Z) :
  MyPlanApp.find taskId (MyPlanApp.tasks app) = Some (i, task) ->
  completed task = false ->
  let app1 := MyPlanApp.toggleTask taskId c1 b1 u1 app in
  let app2 := MyPlanApp.toggleTask taskId c2 b2 u2 app1 in
  MyPlanApp.find taskId (MyPlanApp.tasks app1) =
    Some (i, {| task_id := task_id task; text := text task;
                priority := priority task; completed := true;
                createdAt := createdAt task; updatedAt := u1;
                completedAt := Some c1 |}) /\
  MyPlanApp.find taskId (MyPlanApp.tasks app2) =
    Some (i, {| task_id := task_id task; text := text task;
                priority := priority task; completed := false;
                createdAt := createdAt task; updatedAt := u2;
                completedAt := None |}) /\
  (updatedAt task < u1 -> u1 < u2 ->
   exists first second,
     updatedAtOf taskId app1 = Some first /\
     updatedAtOf taskId app2 = Some second /\
     updatedAt task < first < second).
Proof.
  intros Hfind Hpending app1 app2.
  destruct (find_Some _ _ _ _ Hfind) as [_ Hid].
  assert (H1 : MyPlanApp.find taskId (MyPlanApp.tasks app1) =
    Some (i, {| task_id := task_id task; text := text task;
                priority := priority task; completed := true;
                createdAt := createdAt task; updatedAt := u1;
                completedAt := Some c1 |})).
  { subst app1. unfold MyPlanApp.toggleTask. rewrite Hfind, Hpending. simpl.
    now apply (find_insert _ _ _ task). }
  assert (H2 : MyPlanApp.find taskId (MyPlanApp.tasks app2) =
    Some (i, {| task_id := task_id task; text := text task;
                priority := priority task; completed := false;
                createdAt := createdAt task; updatedAt := u2;
                completedAt := None |})).
  { subst app2. unfold MyPlanApp.toggleTask at 1. rewrite H1. simpl.
    eapply find_insert; [exact H1 | exact Hid]. }
  split; [exact H1|]. split; [exact H2|].
  intros Hlt1 Hlt2. exists u1, u2. unfold updatedAtOf.
  rewrite H1, H2. simpl. repeat split; assumption.
Qed.

Lemma toggle_twice_restores_witness :
  let app0 :=
    {| MyPlanApp.tasks := [demoTask "daily" false 1000];
       MyPlanApp.notificationManager := NM.constructor 0 0 |} in
  MyPlanApp.tasks
    (MyPlanApp.toggleTask "a" 3000 3000 3000
       (MyPlanApp.toggleTask "a" 2000 2000 2000 app0))
  = [ {| task_id := "a"; text := "write report"; priority := "daily";
         completed := false; createdAt := 1000; updatedAt := 3000;
         completedAt := None |} ] /\
  exists first second,
    updatedAtOf "a" (MyPlanApp.toggleTask "a" 2000 2000 2000 app0) = Some first /\
    updatedAtOf "a"
      (MyPlanApp.toggleTask "a" 3000 3000 3000
         (MyPlanApp.toggleTask "a" 2000 2000 2000 app0)) = Some second /\
    1000 < first < second.
Proof.
  intros app0. split; [reflexivity|].
  exact (proj2 (proj2 (toggle_twice_restores app0 "a" 0 (demoTask "daily" false 1000)
                  2000 2000 2000 3000 3000 3000 eq_refl eq_refl))
           eq_refl eq_refl).
Defined.

(** * Further properties of the code *)

(** ** The reader and writer of the concrete runs *)

Lemma fromTree_toTree : forall v, fromTree (toTree v) = v.
Proof.
  fix IH 1. intros [ | b | [n d] | s | items | fields]; simpl; try reflexivity.
  - f_equal. induction items as [|x items IHl]; simpl; [reflexivity|].
    now rewrite IH, IHl.
  - f_equal. induction fields as [|[k x] fields IHl]; simpl; [reflexivity|].
    now rewrite IH, IHl.
Qed.

Lemma unbits_bits p : unbits (bits p) = Some p.
Proof. induction p; simpl; try rewrite IHp; reflexivity. Qed.

Lemma readJson_writeJson tag v :
  tag = tagCompact \/ tag = tagIndented ->
  writeJson tag v <> "" /\ readJson (writeJson tag v) = Some v.
Proof.
  intros [-> | ->]; (split; [discriminate|]);
    unfold readJson, writeJson; simpl; rewrite unbits_bits; simpl;
    rewrite decode_encode; simpl; now rewrite fromTree_toTree.
Qed.

Lemma codecHost_roundTrips capacity : jsonRoundTrips (host := codecHost capacity).
Proof. intros v. apply readJson_writeJson. now left. Qed.

Lemma codecExtra_roundTrips capacity :
  indentedRoundTrips (host := codecHost capacity) (extra := codecExtra).
Proof. intros v. apply readJson_writeJson. now right. Qed.

(** ** The stored collection *)

Lemma saveTasks_value `{host : Host} v now ls :
  v <> JNull ->
  TaskStorage.saveTasks v now ls =
    let ls' := <[TaskStorage.storageKey :=
                   JSON_stringify (TaskStorage.taskData v now)]> ls in
    if storageFits ls' then (Some true, ls') else (Some false, ls).
Proof.
  intros Hv.
  unfold TaskStorage.saveTasks, TaskStorage.try_catch, TaskStorage.bind,
    TaskStorage.setItem. cbv zeta.
  destruct (storageFits _); [|reflexivity].
  destruct v; try contradiction; simpl; try reflexivity.
  destruct (assoc "length" fields); reflexivity.
Qed.

Lemma saveTasks_returns `{host : Host} v now ls :
  exists b ls', TaskStorage.saveTasks v now ls = (Some b, ls').
Proof.
  unfold TaskStorage.saveTasks, TaskStorage.try_catch.
  destruct (TaskStorage.bind _ _ ls) as [[b|] ls']; simpl; eauto.
Qed.

Lemma loadTasks_unfolded `{host : Host}
    (ls : gmap string string) :
  TaskStorage.loadTasks ls = (Some (storedTasks ls), ls).
Proof.
  unfold TaskStorage.loadTasks, storedTasks, TaskStorage.try_catch,
    TaskStorage.bind, TaskStorage.getItem.
  destruct (ls !! TaskStorage.storageKey) as [text|]; [|reflexivity].
  destruct (String.eqb text ""); [reflexivity|].
  destruct (JSON_parse text) as [parsed|]; [|reflexivity].
  destruct (getMember parsed "tasks") as [| |v]; try reflexivity.
  destruct v; simpl; rewrite ?orb_true_r; reflexivity.
Qed.

(** X1.  loadTasks never throws and never writes.  It returns the list
    under tasks of the stored entry, and the empty list when the entry is
    absent or empty, is not JSON, or holds no list under tasks. *)
Theorem loadTasks_never_fails `{host : Host} (ls : gmap string string) :
  exists items,
    TaskStorage.loadTasks ls = (Some items, ls) /\
    (ls !! TaskStorage.storageKey = None
     \/ ls !! TaskStorage.storageKey = Some "" -> items = []) /\
    (forall text, ls !! TaskStorage.storageKey = Some text ->
       JSON_parse text = None -> items = []) /\
    (forall text parsed, ls !! TaskStorage.storageKey = Some text ->
       JSON_parse text = Some parsed ->
       isArray (getMember parsed "tasks") = false -> items = []) /\
    (forall text parsed stored, ls !! TaskStorage.storageKey = Some text ->
       text <> "" -> JSON_parse text = Some parsed ->
       getMember parsed "tasks" = Value (JArray stored) -> items = stored).
Proof.
  exists (storedTasks ls). split; [apply loadTasks_unfolded|].
  unfold storedTasks. repeat split.
  - intros [-> | ->]; reflexivity.
  - intros text -> ->. now destruct (String.eqb text "").
  - intros text parsed -> -> Hbad. destruct (String.eqb text ""); [reflexivity|].
    destruct (getMember parsed "tasks") as [| |[]]; try reflexivity.
    discriminate.
  - intros text parsed stored -> Hne -> ->.
    apply String.eqb_neq in Hne. now rewrite Hne.
Qed.

Lemma loadTasks_never_fails_witness :
  TaskStorage.loadTasks (host := demoHost) {[ "myplan_tasks" := "{tasks:1}" ]}
  = (Some [], {[ "myplan_tasks" := "{tasks:1}" ]}).
Proof.
  destruct (loadTasks_never_fails (host := demoHost)
              {[ "myplan_tasks" := "{tasks:1}" ]})
    as (items & Hrun & _ & _ & Hbad & _).
  rewrite Hrun.
  now rewrite (Hbad "{tasks:1}" (JObject [("tasks", JNumber 1)])
                 eq_refl eq_refl eq_refl).
Defined.

Lemma getSettings_reads `{host : Host}
    (ls : gmap string string) :
  TaskStorage.getSettings ls = (Some (storedSettings ls), ls).
Proof.
  unfold TaskStorage.getSettings, storedSettings, TaskStorage.try_catch,
    TaskStorage.bind, TaskStorage.getItem.
  destruct (ls !! TaskStorage.settingsKey) as [text|]; [|reflexivity].
  destruct (String.eqb text ""); [reflexivity|].
  destruct (JSON_parse text); reflexivity.
Qed.

Lemma storedTasks_insert `{host : Host} items now ls :
  jsonRoundTrips ->
  storedTasks (<[TaskStorage.storageKey :=
                   JSON_stringify (TaskStorage.taskData (JArray items) now)]> ls)
  = items.
Proof.
  intros Hrt. unfold storedTasks. rewrite lookup_insert_eq.
  destruct (Hrt (TaskStorage.taskData (JArray items) now)) as [Hne ->].
  apply String.eqb_neq in Hne. rewrite Hne. reflexivity.
Qed.

Lemma storedTasks_other_key `{host : Host} k v ls :
  k <> TaskStorage.storageKey ->
  storedTasks (<[k := v]> ls) = storedTasks ls.
Proof. intros Hk. unfold storedTasks. now rewrite lookup_insert_ne. Qed.

(** X2.  When JSON round-trips, a list that saveTasks reports saved is the
    list loadTasks returns next; when saveTasks reports failure the storage
    is as before. *)
Theorem save_then_load `{host : Host}
    (items : list json) (now : Z) (ls : gmap string string) :
  jsonRoundTrips ->
  let result := TaskStorage.saveTasks (JArray items) now ls in
  (fst result = Some true ->
   fst (TaskStorage.loadTasks (snd result)) = Some items) /\
  (fst result = Some false -> snd result = ls).
Proof.
  intros Hrt result. subst result. rewrite saveTasks_array. cbv zeta.
  destruct (storageFits _); simpl; split; try discriminate; intros _.
  - rewrite loadTasks_unfolded. simpl. now rewrite storedTasks_insert.
  - reflexivity.
Qed.

Lemma save_then_load_witness :
  fst (TaskStorage.loadTasks (host := codecHost 1)
         (snd (TaskStorage.saveTasks (host := codecHost 1)
                 (JArray [taskObject "a" false]) 0 ∅)))
  = Some [taskObject "a" false].
Proof.
  apply (save_then_load (host := codecHost 1)
           [taskObject "a" false] 0 ∅ (codecHost_roundTrips 1)).
  rewrite saveTasks_array. reflexivity.
Defined.

Lemma filterM_length {A} (pred : A -> option bool) (l kept : list A) :
  TaskStorage.filterM pred l = Some kept -> (length kept <= length l)%nat.
Proof.
  revert kept. induction l as [|x l IH]; intros kept; simpl.
  - intros [= <-]. reflexivity.
  - destruct (pred x) as [b|]; [|discriminate].
    destruct (TaskStorage.filterM pred l) as [k|]; [|discriminate].
    intros [= <-]. specialize (IH k eq_refl). destruct b; simpl; lia.
Qed.

Lemma filterM_all_kept {A} (pred : A -> option bool) (l : list A) :
  Forall (fun x => pred x = Some true) l -> TaskStorage.filterM pred l = Some l.
Proof.
  induction 1 as [|x l Hx _ IH]; simpl; [reflexivity|]. now rewrite Hx, IH.
Qed.

Lemma filterM_kept {A} (pred : A -> option bool) (l kept : list A) :
  TaskStorage.filterM pred l = Some kept ->
  Forall (fun x => pred x = Some true) kept.
Proof.
  revert kept. induction l as [|x l IH]; intros kept; simpl.
  - intros [= <-]. constructor.
  - destruct (pred x) as [b|] eqn:Hx; [|discriminate].
    destruct (TaskStorage.filterM pred l) as [k|]; [|discriminate].
    intros [= <-]. specialize (IH k eq_refl).
    destruct b; [constructor|]; assumption.
Qed.

Lemma filterM_complement {A} (pred : A -> option bool) (l yes no : list A) :
  TaskStorage.filterM pred l = Some yes ->
  TaskStorage.filterM (TaskStorage.negate pred) l = Some no ->
  (length yes + length no = length l)%nat.
Proof.
  revert yes no. induction l as [|x l IH]; intros yes no; simpl.
  - intros [= <-] [= <-]. reflexivity.
  - unfold TaskStorage.negate at 1. destruct (pred x) as [b|]; [|discriminate].
    destruct (TaskStorage.filterM pred l) as [y|]; [|discriminate].
    destruct (TaskStorage.filterM (TaskStorage.negate pred) l) as [n|];
      [|discriminate].
    intros [= <-] [= <-]. specialize (IH y n eq_refl eq_refl).
    destruct b; simpl; lia.
Qed.

Lemma negate_false {A} (pred : A -> option bool) x :
  TaskStorage.negate pred x = Some true <-> pred x = Some false.
Proof.
  unfold TaskStorage.negate. destruct (pred x) as [[|]|]; simpl;
    split; intros H; try discriminate; reflexivity.
Qed.

Lemma findIndexM_none {A} (pred : A -> option bool) (l : list A) :
  Forall (fun x => pred x = Some false) l ->
  TaskStorage.findIndexM pred l = Some None.
Proof.
  induction 1 as [|x l Hx _ IH]; simpl; [reflexivity|]. now rewrite Hx, IH.
Qed.

Lemma findIndexM_some {A} (pred : A -> option bool) (l : list A) i :
  TaskStorage.findIndexM pred l = Some (Some i) ->
  exists x, l !! i = Some x /\ pred x = Some true /\
            forall j y, (j < i)%nat -> l !! j = Some y -> pred y = Some false.
Proof.
  revert i. induction l as [|x l IH]; intros i; simpl; [discriminate|].
  destruct (pred x) as [[|]|] eqn:Hx; try discriminate.
  - intros [= <-]. exists x. repeat split; auto. intros j y Hj. lia.
  - destruct (TaskStorage.findIndexM pred l) as [[k|]|]; try discriminate.
    intros [= <-]. destruct (IH k eq_refl) as (z & Hz & Hp & Hbefore).
    exists z. repeat split; auto.
    intros [|j] y Hj Hy; simpl in Hy; [congruence|].
    apply (Hbefore j y); [lia | assumption].
Qed.

Lemma addTask_unfolded `{host : Host} task now ls :
  TaskStorage.addTask task now ls =
    TaskStorage.saveTasks (JArray (storedTasks ls ++ [task])%list) now ls.
Proof.
  unfold TaskStorage.addTask, TaskStorage.bind. now rewrite loadTasks_unfolded.
Qed.

(** X3.  addTask never throws; when JSON round-trips and it reports success,
    the stored list is the former one with the task added at the end, and
    when it reports failure the storage is as before. *)
Theorem addTask_appends `{host : Host}
    (task : json) (now : Z) (ls : gmap string string) :
  jsonRoundTrips ->
  let result := TaskStorage.addTask task now ls in
  (fst result = Some true \/ fst result = Some false) /\
  (fst result = Some true ->
   storedTasks (snd result) = (storedTasks ls ++ [task])%list) /\
  (fst result = Some false -> snd result = ls).
Proof.
  intros Hrt result. subst result. rewrite addTask_unfolded.
  rewrite saveTasks_array. cbv zeta.
  destruct (storageFits _); simpl.
  - split; [now left|]. split; [|discriminate].
    intros _. now apply storedTasks_insert.
  - split; [now right|]. split; [discriminate | reflexivity].
Qed.

Lemma addTask_appends_witness :
  storedTasks (host := codecHost 1)
    (snd (TaskStorage.addTask (host := codecHost 1) (taskObject "b" false) 0 ∅))
  = [taskObject "b" false].
Proof.
  destruct (addTask_appends (host := codecHost 1) (taskObject "b" false) 0 ∅
              (codecHost_roundTrips 1)) as (_ & Hsaved & _).
  apply Hsaved.
  rewrite addTask_unfolded, saveTasks_array. reflexivity.
Defined.

Lemma deleteTask_unfolded `{host : Host} taskId now ls :
  TaskStorage.deleteTask taskId now ls =
    match TaskStorage.filterM (TaskStorage.negate (TaskStorage.idIs taskId))
            (storedTasks ls) with
    | Some kept =>
        if (length kept <? length (storedTasks ls))%nat
        then TaskStorage.saveTasks (JArray kept) now ls
        else (Some false, ls)
    | None => (None, ls)
    end.
Proof.
  unfold TaskStorage.deleteTask.
  unfold TaskStorage.bind at 1. rewrite loadTasks_unfolded.
  unfold TaskStorage.bind, TaskStorage.lift.
  destruct (TaskStorage.filterM _ _) as [kept|]; simpl; [|reflexivity].
  destruct (length kept <? length (storedTasks ls))%nat; reflexivity.
Qed.

(** X4.  deleteTask on the stored list: when no entry has the id it returns
    false and writes nothing; when it returns true (JSON round-tripping) the
    stored list is the former one without any of the entries that have the
    id, and is shorter; in every other outcome, a throw included, the
    storage is as before. *)
Theorem deleteTask_outcomes `{host : Host}
    (taskId : string) (now : Z) (ls : gmap string string) :
  jsonRoundTrips ->
  let result := TaskStorage.deleteTask taskId now ls in
  (Forall (fun task => TaskStorage.idIs taskId task = Some false)
          (storedTasks ls) ->
   result = (Some false, ls)) /\
  (fst result = Some true ->
   TaskStorage.filterM (TaskStorage.negate (TaskStorage.idIs taskId))
     (storedTasks ls) = Some (storedTasks (snd result)) /\
   Forall (fun task => TaskStorage.idIs taskId task = Some false)
          (storedTasks (snd result)) /\
   (length (storedTasks (snd result)) < length (storedTasks ls))%nat) /\
  (fst result <> Some true -> snd result = ls).
Proof.
  intros Hrt result. subst result. rewrite deleteTask_unfolded.
  split.
  { intros Hnone.
    rewrite (filterM_all_kept _ (storedTasks ls)).
    - now rewrite Nat.ltb_irrefl.
    - eapply Forall_impl; [exact Hnone|]. intros t Ht. now apply negate_false. }
  destruct (TaskStorage.filterM _ (storedTasks ls)) as [kept|] eqn:Hf.
  - destruct (length kept <? length (storedTasks ls))%nat eqn:Hlen.
    + rewrite saveTasks_array. cbv zeta.
      destruct (storageFits _); simpl.
      * split; [|congruence]. intros _.
        rewrite storedTasks_insert by assumption.
        split; [reflexivity|]. split.
        -- apply filterM_kept in Hf. eapply Forall_impl; [exact Hf|].
           intros t Ht. now apply negate_false.
        -- now apply Nat.ltb_lt.
      * split; [discriminate | reflexivity].
    + simpl. split; [discriminate | reflexivity].
  - split; [discriminate | reflexivity].
Qed.

Lemma deleteTask_outcomes_witness :
  let ls : gmap string string :=
    <[TaskStorage.storageKey :=
        JSON_stringify (Host := codecHost 1)
          (TaskStorage.taskData (host := codecHost 1)
             (JArray [taskObject "a" false]) 0)]> ∅ in
  TaskStorage.deleteTask (host := codecHost 1) "zz" 0 ls = (Some false, ls).
Proof.
  intros ls.
  destruct (deleteTask_outcomes (host := codecHost 1) "zz" 0 ls
              (codecHost_roundTrips 1)) as (Hunknown & _).
  apply Hunknown. subst ls.
  rewrite storedTasks_insert by apply codecHost_roundTrips.
  repeat constructor.
Defined.

Lemma updateTask_unfolded `{host : Host} `{extra : HostExtra}
    taskId updatedTask now ls :
  TaskStorage.updateTask taskId updatedTask now ls =
    match TaskStorage.findIndexM (TaskStorage.idIs taskId) (storedTasks ls) with
    | Some (Some i) =>
        match storedTasks ls !! i with
        | Some old =>
            TaskStorage.saveTasks
              (JArray (<[i := objectSpread old updatedTask]> (storedTasks ls)))
              now ls
        | None => (Some false, ls)
        end
    | Some None => (Some false, ls)
    | None => (None, ls)
    end.
Proof.
  unfold TaskStorage.updateTask.
  unfold TaskStorage.bind at 1. rewrite loadTasks_unfolded.
  unfold TaskStorage.bind, TaskStorage.lift.
  destruct (TaskStorage.findIndexM _ _) as [[i|]|]; simpl; try reflexivity.
  destruct (storedTasks ls !! i); reflexivity.
Qed.

(** X5.  updateTask on the stored list: when no entry has the id it returns
    false and writes nothing; when it returns true (JSON round-tripping) the
    stored list differs from the former one only at the first entry with the
    id, which is now the spread of that entry and the update; in every other
    outcome the storage is as before. *)
Theorem updateTask_outcomes `{host : Host} `{extra : HostExtra}
    (taskId : string) (updatedTask : json) (now : Z)
    (ls : gmap string string) :
  jsonRoundTrips ->
  let result := TaskStorage.updateTask taskId updatedTask now ls in
  (Forall (fun task => TaskStorage.idIs taskId task = Some false)
          (storedTasks ls) ->
   result = (Some false, ls)) /\
  (fst result = Some true ->
   exists i old,
     storedTasks ls !! i = Some old /\
     TaskStorage.idIs taskId old = Some true /\
     (forall j other, (j < i)%nat -> storedTasks ls !! j = Some other ->
        TaskStorage.idIs taskId other = Some false) /\
     storedTasks (snd result) =
       <[i := objectSpread old updatedTask]> (storedTasks ls)) /\
  (fst result <> Some true -> snd result = ls).
Proof.
  intros Hrt result. subst result. rewrite updateTask_unfolded.
  split.
  { intros Hnone. now rewrite findIndexM_none. }
  destruct (TaskStorage.findIndexM _ _) as [[i|]|] eqn:Hfind;
    try (split; [discriminate | reflexivity]).
  destruct (findIndexM_some _ _ _ Hfind) as (old & Hold & Hid & Hbefore).
  rewrite Hold, saveTasks_array. cbv zeta.
  destruct (storageFits _); simpl.
  - split; [|congruence]. intros _. exists i, old.
    repeat split; auto. now apply storedTasks_insert.
  - split; [discriminate | reflexivity].
Qed.

Lemma updateTask_outcomes_witness :
  let ls : gmap string string :=
    <[TaskStorage.storageKey :=
        JSON_stringify (Host := codecHost 1)
          (TaskStorage.taskData (host := codecHost 1)
             (JArray [taskObject "a" false]) 0)]> ∅ in
  TaskStorage.updateTask (host := codecHost 1) (extra := codecExtra)
    "zz" (JObject [("completed", JBool true)]) 0 ls = (Some false, ls).
Proof.
  intros ls.
  destruct (updateTask_outcomes (host := codecHost 1) (extra := codecExtra)
              "zz" (JObject [("completed", JBool true)]) 0 ls
              (codecHost_roundTrips 1)) as (Hunknown & _).
  apply Hunknown. subst ls.
  rewrite storedTasks_insert by apply codecHost_roundTrips.
  repeat constructor.
Defined.



Lemma getStorageSize_reads `{host : Host} `{extra : HostExtra} ls :
  exists size, TaskStorage.getStorageSize ls = (Some size, ls).
Proof. eexists. reflexivity. Qed.

Lemma getLastModified_reads `{host : Host} ls :
  exists modified, TaskStorage.getLastModified ls = (Some modified, ls).
Proof.
  unfold TaskStorage.getLastModified, TaskStorage.try_catch, TaskStorage.bind,
    TaskStorage.getItem.
  destruct (ls !! TaskStorage.storageKey) as [text|]; [|eexists; reflexivity].
  destruct (String.eqb text ""); [eexists; reflexivity|].
  destruct (JSON_parse text) as [parsed|]; [|eexists; reflexivity].
  destruct (getMember parsed "lastModified"); eexists; reflexivity.
Qed.

Lemma priority_counts (l a b c d : list json) :
  TaskStorage.filterM (TaskStorage.priorityIs "important") l = Some a ->
  TaskStorage.filterM (TaskStorage.priorityIs "daily") l = Some b ->
  TaskStorage.filterM (TaskStorage.priorityIs "secondary") l = Some c ->
  TaskStorage.filterM (TaskStorage.priorityIs "general") l = Some d ->
  (length a + length b + length c + length d <= length l)%nat.
Proof.
  revert a b c d. induction l as [|x l IH]; intros a b c d; simpl.
  - intros [= <-] [= <-] [= <-] [= <-]. reflexivity.
  - unfold TaskStorage.priorityIs at 1 3 5 7.
    destruct (TaskStorage.filterM (TaskStorage.priorityIs "important") l)
      as [a'|]; [|destruct (getMember x "priority") as [| |[]]; discriminate].
    destruct (TaskStorage.filterM (TaskStorage.priorityIs "daily") l)
      as [b'|]; [|destruct (getMember x "priority") as [| |[]]; discriminate].
    destruct (TaskStorage.filterM (TaskStorage.priorityIs "secondary") l)
      as [c'|]; [|destruct (getMember x "priority") as [| |[]]; discriminate].
    destruct (TaskStorage.filterM (TaskStorage.priorityIs "general") l)
      as [d'|]; [|destruct (getMember x "priority") as [| |[]]; discriminate].
    specialize (IH a' b' c' d' eq_refl eq_refl eq_refl eq_refl).
    destruct (getMember x "priority") as [| |[ | | |s| | ]]; try discriminate;
      try (intros [= <-] [= <-] [= <-] [= <-]; lia).
    destruct (String.eqb s "important") eqn:E1;
      destruct (String.eqb s "daily") eqn:E2;
      destruct (String.eqb s "secondary") eqn:E3;
      destruct (String.eqb s "general") eqn:E4;
      try apply String.eqb_eq in E1; try apply String.eqb_eq in E2;
      try apply String.eqb_eq in E3; try apply String.eqb_eq in E4;
      try congruence;
      intros [= <-] [= <-] [= <-] [= <-]; simpl; lia.
Qed.

(** X7.  When getStorageStats returns, it has written nothing, the total is
    the length of the stored list and the sum of the completed and pending
    counts, and the four priority counts add up to at most the total. *)
Theorem getStorageStats_consistent `{host : Host} `{extra : HostExtra}
    (ls ls' : gmap string string) (stats : TaskStorage.StorageStats) :
  TaskStorage.getStorageStats ls = (Some stats, ls') ->
  ls' = ls /\
  TaskStorage.totalTasks stats = length (storedTasks ls) /\
  (TaskStorage.totalTasks stats =
     TaskStorage.completedTasks stats + TaskStorage.pendingTasks stats)%nat /\
  (TaskStorage.importantCount stats + TaskStorage.dailyCount stats
   + TaskStorage.secondaryCount stats + TaskStorage.generalCount stats
   <= TaskStorage.totalTasks stats)%nat.
Proof.
  unfold TaskStorage.getStorageStats.
  unfold TaskStorage.bind at 1. rewrite loadTasks_unfolded.
  unfold TaskStorage.bind at 1. rewrite getSettings_reads.
  unfold TaskStorage.bind, TaskStorage.lift, TaskStorage.ret, TaskStorage.throw.
  destruct (TaskStorage.filterM TaskStorage.isCompleted _) as [done|] eqn:H1;
    cbv beta iota; [|discriminate].
  destruct (TaskStorage.filterM (TaskStorage.negate _) _) as [pending|] eqn:H2;
    cbv beta iota; [|discriminate].
  destruct (TaskStorage.filterM (TaskStorage.priorityIs "important") _)
    as [a|] eqn:Ha; cbv beta iota; [|discriminate].
  destruct (TaskStorage.filterM (TaskStorage.priorityIs "daily") _)
    as [b|] eqn:Hb; cbv beta iota; [|discriminate].
  destruct (TaskStorage.filterM (TaskStorage.priorityIs "secondary") _)
    as [c|] eqn:Hc; cbv beta iota; [|discriminate].
  destruct (TaskStorage.filterM (TaskStorage.priorityIs "general") _)
    as [d|] eqn:Hd; cbv beta iota; [|discriminate].
  destruct (getStorageSize_reads ls) as [size ->].
  destruct (getLastModified_reads ls) as [modified ->].
  intros [= <- <-]. simpl.
  split; [reflexivity|]. split; [reflexivity|]. split.
  - symmetry. eapply filterM_complement; eauto.
  - eapply priority_counts; eauto.
Qed.

Lemma getStorageStats_consistent_witness :
  let stats :=
    {| TaskStorage.totalTasks := 2; TaskStorage.completedTasks := 1;
       TaskStorage.pendingTasks := 1; TaskStorage.importantCount := 0;
       TaskStorage.dailyCount := 0; TaskStorage.secondaryCount := 0;
       TaskStorage.generalCount := 0;
       TaskStorage.storageSize :=
         Z.of_nat (String.length
                     (default "" (demoStore !! TaskStorage.storageKey)));
       TaskStorage.lastModified :=
         JString (toISOString (Host := codecHost 2) 0) |} in
  TaskStorage.getStorageStats (host := codecHost 2) (extra := codecExtra)
    demoStore = (Some stats, demoStore) /\
  (TaskStorage.totalTasks stats =
     TaskStorage.completedTasks stats + TaskStorage.pendingTasks stats)%nat.
Proof.
  intros stats.
  assert (Hrun : TaskStorage.getStorageStats (host := codecHost 2)
                   (extra := codecExtra) demoStore = (Some stats, demoStore))
    by (vm_compute; reflexivity).
  split; [exact Hrun|].
  exact (proj1 (proj2 (proj2
           (getStorageStats_consistent (host := codecHost 2)
              (extra := codecExtra) _ _ _ Hrun)))).
Defined.

Lemma saveSettings_unfolded `{host : Host} settings ls :
  TaskStorage.saveSettings settings ls =
    let ls' := <[TaskStorage.settingsKey := JSON_stringify settings]> ls in
    if storageFits ls' then (Some true, ls') else (Some false, ls).
Proof.
  unfold TaskStorage.saveSettings, TaskStorage.try_catch, TaskStorage.bind,
    TaskStorage.setItem. cbv zeta.
  destruct (storageFits _); reflexivity.
Qed.

Lemma storedSettings_insert `{host : Host} settings ls :
  jsonRoundTrips ->
  storedSettings (<[TaskStorage.settingsKey := JSON_stringify settings]> ls)
  = settings.
Proof.
  intros Hrt. unfold storedSettings. rewrite lookup_insert_eq.
  destruct (Hrt settings) as [Hne ->].
  apply String.eqb_neq in Hne. now rewrite Hne.
Qed.

Lemma exportTasks_unfolded `{host : Host} `{extra : HostExtra} now ls :
  TaskStorage.exportTasks now ls =
    (Some (JSON_stringify_indented
             (TaskStorage.exportData (storedTasks ls) (storedSettings ls) now)),
     ls).
Proof.
  unfold TaskStorage.exportTasks, TaskStorage.bind.
  now rewrite loadTasks_unfolded, getSettings_reads.
Qed.

(** The run of importTasks on a payload that is an object with a list
    under tasks. *)
Lemma importTasks_unfolded `{host : Host} text fields items now ls :
  JSON_parse text = Some (JObject fields) ->
  assoc "tasks" fields = Some (JArray items) ->
  TaskStorage.importTasks text now ls =
    let saved := TaskStorage.saveTasks (JArray items) now ls in
    match assoc "settings" fields with
    | Some settings =>
        if truthy settings && default false (fst saved)
        then (Some true, snd (TaskStorage.saveSettings settings (snd saved)))
        else (Some true, snd saved)
    | None => (Some true, snd saved)
    end.
Proof.
  intros Hparse Htasks.
  unfold TaskStorage.importTasks, TaskStorage.try_catch.
  rewrite Hparse. unfold TaskStorage.bind at 1. simpl. rewrite Htasks. simpl.
  unfold TaskStorage.bind at 1. rewrite saveTasks_array. cbv zeta.
  destruct (storageFits _); simpl;
    destruct (assoc "settings" fields) as [settings|]; simpl; try reflexivity;
    unfold TaskStorage.bind, TaskStorage.ret;
    change (truthyAccess (Value settings)) with (truthy settings);
    change (valueOf (Value settings)) with settings;
    destruct (truthy settings); simpl; try reflexivity.
  rewrite saveSettings_unfolded. cbv zeta.
  destruct (storageFits _); reflexivity.
Qed.

(** X8.  Export followed by import, JSON round-tripping: the text exportTasks
    produces from one storage is accepted by importTasks on any storage;
    when the write of the tasks succeeds there, loadTasks returns the list
    of the first storage, and when the exported settings are truthy and
    their write succeeds too, getSettings returns the settings of the first
    storage. *)
Theorem export_then_import `{host : Host} `{extra : HostExtra}
    (t_export t_import : Z) (source target : gmap string string) :
  jsonRoundTrips -> indentedRoundTrips ->
  let text := default "" (fst (TaskStorage.exportTasks t_export source)) in
  let saved := TaskStorage.saveTasks (JArray (storedTasks source)) t_import target in
  let result := TaskStorage.importTasks text t_import target in
  fst result = Some true /\
  (fst saved = Some true ->
   storedTasks (snd result) = storedTasks source /\
   (truthy (storedSettings source) = true ->
    storageFits (<[TaskStorage.settingsKey :=
                     JSON_stringify (storedSettings source)]> (snd saved)) = true ->
    storedSettings (snd result) = storedSettings source)).
Proof.
  intros Hrt Hind text saved result. subst text saved result.
  rewrite exportTasks_unfolded. cbn [fst snd default].
  destruct (Hind (TaskStorage.exportData (storedTasks source)
                    (storedSettings source) t_export)) as [_ Hparse].
  rewrite (importTasks_unfolded _ _ (storedTasks source) _ _ Hparse eq_refl).
  cbv zeta. cbn [assoc TaskStorage.exportData String.eqb Ascii.eqb Bool.eqb].
  rewrite saveTasks_array. cbv zeta.
  set (ls1 := <[TaskStorage.storageKey :=
                  JSON_stringify
                    (TaskStorage.taskData (JArray (storedTasks source))
                       t_import)]> target).
  destruct (storageFits ls1) eqn:Hfit; cbn [fst snd default].
  - rewrite andb_true_r.
    destruct (truthy (storedSettings source)) eqn:Htruthy.
    + rewrite saveSettings_unfolded. cbv zeta.
      destruct (storageFits (<[TaskStorage.settingsKey :=
                                 JSON_stringify (storedSettings source)]> ls1))
        eqn:Hfit2; cbn [fst snd].
      * split; [reflexivity|]. intros _. split.
        -- rewrite storedTasks_other_key by discriminate.
           now apply storedTasks_insert.
        -- intros _ _. now apply storedSettings_insert.
      * split; [reflexivity|]. intros _. split.
        -- now apply storedTasks_insert.
        -- intros _ Hno. discriminate.
    + cbn [fst snd]. split; [reflexivity|]. intros _. split.
      * now apply storedTasks_insert.
      * discriminate.
  - rewrite andb_false_r. cbn [fst snd]. split; [reflexivity | discriminate].
Qed.

Lemma export_then_import_witness :
  let text :=
    default "" (fst (TaskStorage.exportTasks (host := codecHost 2)
                       (extra := codecExtra) 5 demoStore)) in
  storedTasks (host := codecHost 2)
    (snd (TaskStorage.importTasks (host := codecHost 2) text 7 ∅))
  = [taskObject "a" false; taskObject "b" true].
Proof.
  intros text.
  destruct (export_then_import (host := codecHost 2) (extra := codecExtra)
              5 7 demoStore ∅ (codecHost_roundTrips 2)
              (codecExtra_roundTrips 2)) as (_ & Hsaved).
  destruct Hsaved as [Htasks _]; [vm_compute; reflexivity|].
  fold text in Htasks. rewrite Htasks. vm_compute. reflexivity.
Defined.

(** The run of restoreFromBackup on text that parses to a value other than
    null. *)
Lemma restoreFromBackup_unfolded `{host : Host} text data now ls :
  JSON_parse text = Some data -> data <> JNull ->
  TaskStorage.restoreFromBackup text now ls =
    let ls1 :=
      if truthyAccess (getMember data "tasks")
      then snd (TaskStorage.saveTasks (valueOf (getMember data "tasks")) now ls)
      else ls in
    (Some true,
     if truthyAccess (getMember data "settings")
     then snd (TaskStorage.saveSettings (valueOf (getMember data "settings")) ls1)
     else ls1).
Proof.
  intros Hparse Hdata.
  assert (Hmember : forall k, getMember data k <> Throws).
  { intros k. destruct data; simpl; try discriminate; try contradiction.
    - destruct (String.eqb k "length"); discriminate.
    - destruct (String.eqb k "length"); discriminate.
    - destruct (assoc k fields); discriminate. }
  unfold TaskStorage.restoreFromBackup, TaskStorage.try_catch.
  rewrite Hparse. cbv zeta.
  pose proof (Hmember "tasks") as Ht. pose proof (Hmember "settings") as Hs.
  unfold TaskStorage.bind, TaskStorage.eval, TaskStorage.ret.
  destruct (getMember data "tasks") as [| |tasks]; [contradiction| |];
    destruct (getMember data "settings") as [| |settings];
    try contradiction; cbn [truthyAccess valueOf]; try reflexivity.
  - destruct (truthy settings); [|reflexivity].
    destruct (saveSettings_returns settings ls) as (b & ls' & ->). reflexivity.
  - destruct (truthy tasks); [|reflexivity].
    destruct (saveTasks_returns tasks now ls) as (b & ls' & ->). reflexivity.
  - destruct (truthy tasks).
    + destruct (saveTasks_returns tasks now ls) as (b & ls' & ->).
      cbn [snd]. destruct (truthy settings); [|reflexivity].
      destruct (saveSettings_returns settings ls') as (b' & ls'' & ->).
      reflexivity.
    + destruct (truthy settings); [|reflexivity].
      destruct (saveSettings_returns settings ls) as (b' & ls'' & ->).
      reflexivity.
Qed.

(** X9.  restoreFromBackup does not check that tasks is a list: for a backup
    whose tasks field is a truthy value that is not a list, it returns true
    and, when the write succeeds, replaces the stored collection, so that
    loadTasks returns the empty list afterwards. *)
Theorem restore_accepts_non_list `{host : Host}
    (text : string) (data tasks : json) (now : Z) (ls : gmap string string) :
  jsonRoundTrips ->
  JSON_parse text = Some data ->
  getMember data "tasks" = Value tasks ->
  truthy tasks = true ->
  isArray (Value tasks) = false ->
  fst (TaskStorage.saveTasks tasks now ls) = Some true ->
  let result := TaskStorage.restoreFromBackup text now ls in
  fst result = Some true /\
  TaskStorage.loadTasks (snd result) = (Some [], snd result).
Proof.
  intros Hrt Hparse Htasks Htruthy Hlist Hsaved result. subst result.
  assert (Hdata : data <> JNull) by (intros ->; discriminate).
  assert (Hnotnull : tasks <> JNull) by (intros ->; discriminate).
  rewrite (restoreFromBackup_unfolded _ _ _ _ Hparse Hdata). cbv zeta.
  rewrite Htasks. cbn [truthyAccess valueOf fst snd]. rewrite Htruthy.
  split; [reflexivity|].
  rewrite loadTasks_unfolded.
  match goal with
  | |- (Some (storedTasks ?store), _) = _ =>
      assert (Hempty : storedTasks store = []); [|now rewrite Hempty]
  end.
  rewrite saveTasks_value in Hsaved |- * by assumption. cbv zeta in *.
  destruct (storageFits _); [|discriminate]. cbn [snd].
  assert (Hblob : storedTasks
            (<[TaskStorage.storageKey :=
                 JSON_stringify (TaskStorage.taskData tasks now)]> ls) = []).
  { unfold storedTasks. rewrite lookup_insert_eq.
    destruct (Hrt (TaskStorage.taskData tasks now)) as [Hne ->].
    apply String.eqb_neq in Hne. rewrite Hne. simpl.
    destruct tasks; try reflexivity; discriminate. }
  destruct (truthyAccess (getMember data "settings")); [|exact Hblob].
  rewrite saveSettings_unfolded. cbv zeta.
  destruct (storageFits _); cbn [snd]; [|exact Hblob].
  rewrite storedTasks_other_key by discriminate. exact Hblob.
Qed.

Lemma restore_accepts_non_list_witness :
  let text := JSON_stringify (Host := codecHost 2)
                (JObject [("tasks", JString "none")]) in
  let result := TaskStorage.restoreFromBackup (host := codecHost 2) text 9
                  demoStore in
  storedTasks (host := codecHost 2) demoStore
    = [taskObject "a" false; taskObject "b" true] /\
  fst result = Some true /\
  TaskStorage.loadTasks (host := codecHost 2) (snd result)
    = (Some [], snd result).
Proof.
  intros text result. split; [vm_compute; reflexivity|].
  apply (restore_accepts_non_list (host := codecHost 2) text
           (JObject [("tasks", JString "none")]) (JString "none") 9 demoStore
           (codecHost_roundTrips 2)).
  - apply codecHost_roundTrips.
  - reflexivity.
  - reflexivity.
  - reflexivity.
  - vm_compute. reflexivity.
Defined.

(** X10.  restoreFromBackup returns false, writing nothing, only when the
    text does not parse or parses to null; otherwise it returns true, even
    when the storage refuses every write and nothing is restored. *)
Theorem restore_reports_success `{host : Host}
    (text : string) (now : Z) (ls : gmap string string) :
  let result := TaskStorage.restoreFromBackup text now ls in
  (JSON_parse text = None \/ JSON_parse text = Some JNull ->
   result = (Some false, ls)) /\
  (forall data, JSON_parse text = Some data -> data <> JNull ->
     fst result = Some true /\
     ((forall content, storageFits content = false) -> snd result = ls)).
Proof.
  cbv zeta. split.
  - unfold TaskStorage.restoreFromBackup, TaskStorage.try_catch.
    intros [-> | ->]; reflexivity.
  - intros data Hparse Hdata.
    rewrite (restoreFromBackup_unfolded _ _ _ _ Hparse Hdata). cbv zeta.
    split; [reflexivity|]. intros Hfull. cbn [snd].
    assert (Hsave : forall v l, snd (TaskStorage.saveTasks v now l) = l).
    { intros v l.
      unfold TaskStorage.saveTasks, TaskStorage.try_catch, TaskStorage.bind,
        TaskStorage.setItem. now rewrite Hfull. }
    assert (Hset : forall v l, snd (TaskStorage.saveSettings v l) = l).
    { intros v l. rewrite saveSettings_unfolded. cbv zeta. now rewrite Hfull. }
    destruct (truthyAccess (getMember data "tasks"));
      destruct (truthyAccess (getMember data "settings"));
      rewrite ?Hset, ?Hsave; reflexivity.
Qed.

Lemma restore_reports_success_witness :
  TaskStorage.restoreFromBackup (host := fullHost) "{tasks:[],settings:{}}" 0 ∅
  = (Some true, ∅).
Proof.
  destruct (restore_reports_success (host := fullHost)
              "{tasks:[],settings:{}}" 0 ∅) as [_ Hparsed].
  destruct (Hparsed (JObject [("tasks", JArray []); ("settings", JObject [])])
              eq_refl ltac:(discriminate)) as [Hresult Hkept].
  specialize (Hkept (fun _ => eq_refl)).
  destruct (TaskStorage.restoreFromBackup _ _ _) as [r ls'].
  simpl in *. now subst.
Defined.

Lemma assoc_setField_eq k v fields :
  assoc k (TaskStorage.setField k v fields) = Some v.
Proof.
  induction fields as [|[k' v'] fields IH]; simpl.
  - now rewrite String.eqb_refl.
  - destruct (String.eqb k k') eqn:E; simpl.
    + now rewrite String.eqb_refl.
    + now rewrite E.
Qed.

Lemma assoc_setField_ne k k0 v fields :
  k0 <> k -> assoc k0 (TaskStorage.setField k v fields) = assoc k0 fields.
Proof.
  intros Hne. induction fields as [|[k' v'] fields IH]; simpl.
  - apply String.eqb_neq in Hne. now rewrite Hne.
  - destruct (String.eqb k k') eqn:E; simpl.
    + apply String.eqb_eq in E. subst k'.
      apply String.eqb_neq in Hne. now rewrite Hne.
    + now rewrite IH.
Qed.

Lemma createBackup_unfolded `{host : Host} `{extra : HostExtra} now ls fields :
  storedSettings ls = JObject fields ->
  TaskStorage.createBackup now ls =
    (Some (JSON_stringify_indented
             (TaskStorage.backupData (storedTasks ls) (JObject fields) now)),
     snd (TaskStorage.saveSettings
            (JObject (TaskStorage.setField "lastBackup"
                        (JString (toISOString now)) fields)) ls)).
Proof.
  intros Hsettings. unfold TaskStorage.createBackup.
  unfold TaskStorage.bind at 1. rewrite loadTasks_unfolded.
  unfold TaskStorage.bind at 1. rewrite getSettings_reads.
  unfold TaskStorage.bind at 1. rewrite getSettings_reads.
  rewrite Hsettings. cbn [truthy TaskStorage.assignLastBackup TaskStorage.lift].
  unfold TaskStorage.bind, TaskStorage.ret.
  rewrite saveSettings_unfolded. cbv zeta.
  destruct (storageFits _); reflexivity.
Qed.

(** X11.  createBackup with settings stored as an object: the text returned
    is the snapshot of the stored list and of the settings as they were
    before the call; the stored list is untouched; and when the write of the
    settings succeeds (JSON round-tripping) the stored settings have
    lastBackup set to the date of the backup and every other field as
    before. *)
Theorem createBackup_stamps_settings `{host : Host} `{extra : HostExtra}
    (now : Z) (ls : gmap string string) (fields : list (string * json)) :
  jsonRoundTrips ->
  storedSettings ls = JObject fields ->
  let result := TaskStorage.createBackup now ls in
  let stamped :=
    JObject (TaskStorage.setField "lastBackup" (JString (toISOString now))
               fields) in
  fst result =
    Some (JSON_stringify_indented
            (TaskStorage.backupData (storedTasks ls) (JObject fields) now)) /\
  storedTasks (snd result) = storedTasks ls /\
  (storageFits (<[TaskStorage.settingsKey := JSON_stringify stamped]> ls) = true ->
   storedSettings (snd result) = stamped /\
   getMember stamped "lastBackup" = Value (JString (toISOString now)) /\
   forall k, k <> "lastBackup" ->
     getMember stamped k = getMember (JObject fields) k).
Proof.
  intros Hrt Hsettings result stamped. subst result stamped.
  rewrite (createBackup_unfolded _ _ _ Hsettings).
  rewrite saveSettings_unfolded. cbv zeta.
  destruct (storageFits _); cbn [fst snd].
  - split; [reflexivity|]. split.
    + now apply storedTasks_other_key.
    + intros _. split; [now apply storedSettings_insert|]. split.
      * simpl. now rewrite assoc_setField_eq.
      * intros k Hk. simpl. now rewrite assoc_setField_ne.
  - split; [reflexivity|]. split; [reflexivity | discriminate].
Qed.

Lemma createBackup_stamps_settings_witness :
  let ls : gmap string string :=
    <[TaskStorage.settingsKey :=
        JSON_stringify (Host := codecHost 2)
          (JObject [("theme", JString "dark")])]> ∅ in
  storedSettings (host := codecHost 2)
    (snd (TaskStorage.createBackup (host := codecHost 2) (extra := codecExtra)
            42 ls))
  = JObject [("theme", JString "dark");
             ("lastBackup", JString (toISOString (Host := codecHost 2) 42))].
Proof.
  intros ls.
  destruct (createBackup_stamps_settings (host := codecHost 2)
              (extra := codecExtra) 42 ls [("theme", JString "dark")]
              (codecHost_roundTrips 2)) as (_ & _ & Hstamped).
  { subst ls. now rewrite storedSettings_insert by apply codecHost_roundTrips. }
  destruct Hstamped as [Hstored _]; [vm_compute; reflexivity|].
  exact Hstored.
Defined.

Lemma init_unfolded `{host : Host} ls :
  TaskStorage.init ls =
    if storageFits (<["__storage_test__" := "__storage_test__"]> ls) then
      if truthy (storedSettings ls)
      then (Some tt, delete "__storage_test__" ls)
      else (Some tt,
            snd (TaskStorage.saveSettings TaskStorage.defaultSettings
                   (delete "__storage_test__" ls)))
    else (Some tt, ls).
Proof.
  unfold TaskStorage.init, TaskStorage.isStorageAvailable,
    TaskStorage.try_catch, TaskStorage.bind at 1 2 3, TaskStorage.setItem,
    TaskStorage.removeItem, TaskStorage.ret.
  destruct (storageFits (<["__storage_test__" := "__storage_test__"]> ls));
    cbn [negb]; [|reflexivity].
  rewrite delete_insert_eq.
  assert (Hsame : storedSettings (delete "__storage_test__" ls)
                  = storedSettings ls).
  { unfold storedSettings. now rewrite lookup_delete_ne. }
  unfold TaskStorage.initDefaultSettings, TaskStorage.bind.
  rewrite getSettings_reads, Hsame.
  destruct (truthy (storedSettings ls)); cbn [negb]; [reflexivity|].
  destruct (saveSettings_returns TaskStorage.defaultSettings
              (delete "__storage_test__" ls)) as (b & ls' & ->).
  reflexivity.
Qed.

(** X12.  The constructor of the storage never throws and never touches the
    entry of the tasks; settings that are stored and truthy are left as they
    are; on a storage that accepts the writes and holds no truthy settings,
    it stores the five default settings. *)
Theorem init_keeps_existing `{host : Host} (ls : gmap string string) :
  let result := TaskStorage.init ls in
  fst result = Some tt /\
  snd result !! TaskStorage.storageKey = ls !! TaskStorage.storageKey /\
  (truthy (storedSettings ls) = true ->
   snd result !! TaskStorage.settingsKey = ls !! TaskStorage.settingsKey) /\
  (jsonRoundTrips ->
   truthy (storedSettings ls) = false ->
   storageFits (<["__storage_test__" := "__storage_test__"]> ls) = true ->
   storageFits (<[TaskStorage.settingsKey :=
                    JSON_stringify TaskStorage.defaultSettings]>
                  (delete "__storage_test__" ls)) = true ->
   storedSettings (snd result) = TaskStorage.defaultSettings).
Proof.
  cbv zeta. rewrite init_unfolded.
  destruct (storageFits (<["__storage_test__" := "__storage_test__"]> ls))
    eqn:Hfit.
  - destruct (truthy (storedSettings ls)) eqn:Htruthy; cbn [fst snd].
    + split; [reflexivity|]. split; [now rewrite lookup_delete_ne|].
      split; [intros _; now rewrite lookup_delete_ne | discriminate].
    + rewrite saveSettings_unfolded. cbv zeta.
      destruct (storageFits (<[TaskStorage.settingsKey := _]> _)) eqn:Hfit2;
        cbn [fst snd].
      * split; [reflexivity|]. split.
        { rewrite lookup_insert_ne by discriminate.
          now rewrite lookup_delete_ne. }
        split; [discriminate|].
        intros Hrt _ _ _. now apply storedSettings_insert.
      * split; [reflexivity|]. split; [now rewrite lookup_delete_ne|].
        split; [discriminate|]. intros _ _ _ Hno. discriminate.
  - cbn [fst snd]. split; [reflexivity|]. split; [reflexivity|].
    split; [reflexivity|]. intros _ _ Hno. discriminate.
Qed.

Lemma init_keeps_existing_witness :
  storedSettings (host := codecHost 2)
    (snd (TaskStorage.init (host := codecHost 2) ∅))
  = TaskStorage.defaultSettings.
Proof.
  destruct (init_keeps_existing (host := codecHost 2) ∅)
    as (_ & _ & _ & Hfresh).
  apply Hfresh; [apply codecHost_roundTrips | reflexivity | reflexivity
                | vm_compute; reflexivity].
Defined.

(** ** The application: deleting and editing *)

Lemma find_None taskId (l : list Task) :
  MyPlanApp.find taskId l = None <->
  Forall (fun task => task_id task <> taskId) l.
Proof.
  induction l as [|t l IH]; simpl.
  - split; [constructor | reflexivity].
  - destruct (String.eqb (task_id t) taskId) eqn:E.
    + apply String.eqb_eq in E. split; [discriminate|].
      intros H. inversion H. contradiction.
    + apply String.eqb_neq in E.
      destruct (MyPlanApp.find taskId l) as [[k t']|].
      * split; [discriminate|]. intros H. inversion H as [|? ? _ Hl]; subst.
        apply IH in Hl. discriminate.
      * split; [|reflexivity]. intros _. constructor; [assumption|].
        now apply IH.
Qed.

Lemma find_delete_same taskId (l : list Task) i task :
  NoDup (map task_id l) ->
  MyPlanApp.find taskId l = Some (i, task) ->
  MyPlanApp.find taskId (delete i l) = None.
Proof.
  revert i. induction l as [|t l IH]; intros i Hnd; simpl; [discriminate|].
  inversion Hnd as [|? ? Hnotin Hnd']; subst.
  destruct (String.eqb (task_id t) taskId) eqn:E.
  - intros [= <- <-]. simpl. apply String.eqb_eq in E. subst taskId.
    apply find_None. apply Forall_forall. intros t' Hin Heq.
    apply Hnotin. rewrite <- Heq. apply list_elem_of_fmap. eauto.
  - destruct (MyPlanApp.find taskId l) as [[k t']|] eqn:F; [|discriminate].
    intros [= <- <-]. simpl. rewrite E. now rewrite (IH k Hnd' eq_refl).
Qed.

Lemma find_delete_other taskId other (l : list Task) i task :
  other <> taskId ->
  MyPlanApp.find taskId l = Some (i, task) ->
  snd <$> MyPlanApp.find other (delete i l) = snd <$> MyPlanApp.find other l.
Proof.
  intros Hne. revert i. induction l as [|t l IH]; intros i; simpl;
    [discriminate|].
  destruct (String.eqb (task_id t) taskId) eqn:E.
  - intros [= <- <-]. simpl. apply String.eqb_eq in E.
    destruct (String.eqb (task_id t) other) eqn:E'.
    + apply String.eqb_eq in E'. congruence.
    + now destruct (MyPlanApp.find other l) as [[k t']|].
  - destruct (MyPlanApp.find taskId l) as [[k t']|] eqn:F; [|discriminate].
    intros [= <- <-]. simpl.
    destruct (String.eqb (task_id t) other); [reflexivity|].
    specialize (IH k eq_refl).
    destruct (MyPlanApp.find other (delete k l)) as [[? ?]|];
      destruct (MyPlanApp.find other l) as [[? ?]|]; simpl in *; congruence.
Qed.

(** X13.  deleteTask of the application: a declined dialog or an unknown id
    changes nothing; a confirmed deletion removes the first task with the
    id and only it, so the tasks found under other ids are the same, and
    when the ids are pairwise distinct no task is found under the id any
    more. *)
Theorem app_deleteTask_removes_first
    (taskId : string) (confirmed : bool) (app : MyPlanApp.App) :
  let app' := MyPlanApp.deleteTask taskId confirmed app in
  MyPlanApp.notificationManager app' = MyPlanApp.notificationManager app /\
  (confirmed = false \/ MyPlanApp.find taskId (MyPlanApp.tasks app) = None ->
   app' = app) /\
  (forall i task,
     confirmed = true ->
     MyPlanApp.find taskId (MyPlanApp.tasks app) = Some (i, task) ->
     MyPlanApp.tasks app' = delete i (MyPlanApp.tasks app) /\
     S (length (MyPlanApp.tasks app')) = length (MyPlanApp.tasks app) /\
     (forall other, other <> taskId ->
        snd <$> MyPlanApp.find other (MyPlanApp.tasks app')
        = snd <$> MyPlanApp.find other (MyPlanApp.tasks app)) /\
     (NoDup (map task_id (MyPlanApp.tasks app)) ->
      MyPlanApp.find taskId (MyPlanApp.tasks app') = None)).
Proof.
  cbv zeta. unfold MyPlanApp.deleteTask. split; [|split].
  - destruct (MyPlanApp.find _ _) as [[i t]|]; [|reflexivity].
    destruct confirmed; reflexivity.
  - intros [-> | ->]; [|reflexivity].
    now destruct (MyPlanApp.find _ _) as [[i t]|].
  - intros i task -> Hfind. rewrite Hfind. simpl.
    destruct (find_Some _ _ _ _ Hfind) as [Hi _].
    split; [reflexivity|]. split.
    + rewrite length_delete by eauto.
      apply lookup_lt_Some in Hi. lia.
    + split.
      * intros other Hne. now apply (find_delete_other taskId other _ i task).
      * intros Hnd. now apply (find_delete_same _ _ _ task).
Qed.

Lemma app_deleteTask_removes_first_witness :
  let app :=
    {| MyPlanApp.tasks :=
         [demoTask "daily" false 1; demoTask "general" true 2];
       MyPlanApp.notificationManager := NM.constructor 0 0 |} in
  MyPlanApp.tasks (MyPlanApp.deleteTask "a" true app)
  = [demoTask "general" true 2].
Proof.
  intros app.
  destruct (app_deleteTask_removes_first "a" true app) as (_ & _ & Hdel).
  exact (proj1 (Hdel 0%nat (demoTask "daily" false 1) eq_refl eq_refl)).
Defined.

(** X14.  Editing: after editTask on a task of the collection, saveTaskEdit
    with a non-empty text sets the text, the priority and updatedAt of that
    task, keeps its id, completed flag, createdAt and completedAt, keeps the
    other tasks, the filter and the manager, and ends the edit; with an
    empty text it changes nothing and the edit stays open. *)
Theorem edit_then_save
    (taskId newText newPriority : string) (t_updated : Z)
    (ui : MyPlanApp.Ui) (i : nat) (task : Task) :
  taskId <> "" ->
  MyPlanApp.find taskId (MyPlanApp.tasks (MyPlanApp.ui_app ui)) = Some (i, task) ->
  let editing := MyPlanApp.editTask taskId ui in
  let saved := MyPlanApp.saveTaskEdit newText newPriority t_updated editing in
  (newText = "" ->
   saved = editing /\ MyPlanApp.editingTaskId saved = Some taskId) /\
  (newText <> "" ->
   MyPlanApp.editingTaskId saved = None /\
   MyPlanApp.currentFilter saved = MyPlanApp.currentFilter ui /\
   MyPlanApp.notificationManager (MyPlanApp.ui_app saved)
     = MyPlanApp.notificationManager (MyPlanApp.ui_app ui) /\
   MyPlanApp.tasks (MyPlanApp.ui_app saved) =
     <[i := {| task_id := task_id task; text := newText;
               priority := newPriority; completed := completed task;
               createdAt := createdAt task; updatedAt := t_updated;
               completedAt := completedAt task |}]>
       (MyPlanApp.tasks (MyPlanApp.ui_app ui))).
Proof.
  intros Hid Hfind editing saved. subst editing saved.
  unfold MyPlanApp.editTask. rewrite Hfind.
  unfold MyPlanApp.saveTaskEdit. cbn [MyPlanApp.editingTaskId MyPlanApp.ui_app].
  apply String.eqb_neq in Hid. rewrite Hid.
  split.
  - intros ->. simpl. split; reflexivity.
  - intros Htext. apply String.eqb_neq in Htext. rewrite Htext, Hfind.
    repeat split.
Qed.

Lemma edit_then_save_witness :
  let ui :=
    {| MyPlanApp.ui_app :=
         {| MyPlanApp.tasks := [demoTask "daily" true 1];
            MyPlanApp.notificationManager := NM.constructor 0 0 |};
       MyPlanApp.currentFilter := "all";
       MyPlanApp.editingTaskId := None |} in
  MyPlanApp.tasks
    (MyPlanApp.ui_app
       (MyPlanApp.saveTaskEdit "call home" "important" 9
          (MyPlanApp.editTask "a" ui)))
  = [ {| task_id := "a"; text := "call home"; priority := "important";
         completed := true; createdAt := 1; updatedAt := 9;
         completedAt := Some 1 |} ].
Proof.
  intros ui.
  destruct (edit_then_save "a" "call home" "important" 9 ui 0
              (demoTask "daily" true 1) ltac:(discriminate) eq_refl)
    as [_ Hsave].
  destruct (Hsave ltac:(discriminate)) as (_ & _ & _ & Htasks).
  exact Htasks.
Defined.

(** ** The application: the daily reset *)

Lemma resetDaily_fields task :
  let task' := MyPlanApp.resetDaily task in
  task_id task' = task_id task /\ text task' = text task /\
  priority task' = priority task /\ createdAt task' = createdAt task /\
  updatedAt task' = updatedAt task /\
  (priority task = "daily" -> completed task' = false) /\
  (priority task = "daily" -> completed task = true -> completedAt task' = None) /\
  (priority task <> "daily" \/ completed task = false -> task' = task).
Proof.
  cbv zeta. unfold MyPlanApp.resetDaily.
  destruct (String.eqb (priority task) "daily") eqn:E;
    destruct (completed task) eqn:C; simpl; repeat split; auto;
    try (apply String.eqb_neq in E); try (apply String.eqb_eq in E);
    intros; try congruence; try (destruct H; congruence).
Qed.

Lemma saveTasks_keeps_other_keys `{host : Host} items now ls k :
  k <> TaskStorage.storageKey ->
  snd (TaskStorage.saveTasks (JArray items) now ls) !! k = ls !! k.
Proof.
  intros Hk. rewrite saveTasks_array. cbv zeta.
  destruct (storageFits _); cbn [snd]; [|reflexivity].
  now rewrite lookup_insert_ne.
Qed.

Lemma checkedToday_spec (lastCheck : option string) (today : string) :
  match lastCheck with
  | Some found => String.eqb found today
  | None => false
  end = true <-> lastCheck = Some today.
Proof.
  destruct lastCheck as [found|]; [|split; discriminate].
  rewrite String.eqb_eq. split; congruence.
Qed.

Lemma filter_nonempty_existsb {A} (f : A -> bool) (l : list A) :
  (0 <? length (List.filter f l))%nat = existsb f l.
Proof.
  induction l as [|x l IH]; simpl; [reflexivity|].
  destruct (f x); simpl; [reflexivity | exact IH].
Qed.

Lemma hasDaily_sweep tasks :
  hasDaily (map MyPlanApp.resetDaily tasks) = hasDaily tasks.
Proof.
  unfold hasDaily. induction tasks as [|task tasks IH]; simpl; [reflexivity|].
  rewrite IH. f_equal.
  destruct (resetDaily_fields task) as (_ & _ & Hp & _). cbv zeta in Hp.
  now rewrite Hp.
Qed.

Lemma checkDailyTasks_unfolded `{host : Host} `{codec : MyPlanApp.TaskCodec}
    t_today t_save st :
  MyPlanApp.checkDailyTasks t_today t_save st =
    let today := toDateString t_today in
    let ls := MyPlanApp.localStorage st in
    if bool_decide (ls !! MyPlanApp.dailyCheckKey = Some today) then
      (st, MyPlanApp.Returned)
    else if storageFits (<[MyPlanApp.dailyCheckKey := today]> ls) then
      ({| MyPlanApp.session_app := sweep (MyPlanApp.session_app st);
          MyPlanApp.localStorage :=
            snd (TaskStorage.saveTasks
                   (JArray (map MyPlanApp.taskJson
                              (MyPlanApp.tasks
                                 (sweep (MyPlanApp.session_app st)))))
                   t_save (<[MyPlanApp.dailyCheckKey := today]> ls)) |},
       if hasDaily (MyPlanApp.tasks (MyPlanApp.session_app st))
       then MyPlanApp.Threw else MyPlanApp.Returned)
    else
      ({| MyPlanApp.session_app := sweep (MyPlanApp.session_app st);
          MyPlanApp.localStorage := ls |},
       MyPlanApp.Threw).
Proof.
  cbv zeta. unfold MyPlanApp.checkDailyTasks.
  pose proof (checkedToday_spec
                (MyPlanApp.localStorage st !! MyPlanApp.dailyCheckKey)
                (toDateString t_today)) as Hspec.
  destruct (match MyPlanApp.localStorage st !! MyPlanApp.dailyCheckKey with
            | Some found => String.eqb found (toDateString t_today)
            | None => false
            end) eqn:Hchecked.
  - rewrite bool_decide_eq_true_2 by now apply Hspec. reflexivity.
  - rewrite bool_decide_eq_false_2
      by (intros Hsame; apply Hspec in Hsame; discriminate).
    unfold TaskStorage.setItem.
    destruct (storageFits _); [|reflexivity].
    cbv zeta. cbn [MyPlanApp.tasks]. rewrite filter_nonempty_existsb.
    pose proof (hasDaily_sweep (MyPlanApp.tasks (MyPlanApp.session_app st)))
      as Hd.
    unfold hasDaily at 1 in Hd. rewrite Hd.
    destruct (hasDaily _); reflexivity.
Qed.

(** X15.  The daily reset.  When the stored date of the last check is the
    date of today, checkDailyTasks changes nothing and returns.  Otherwise,
    whether it returns or throws, every task of priority daily that was
    completed is now incomplete with completedAt null, with its other
    fields, updatedAt included, as before; every other task, the order of
    the tasks and the manager are as before. *)
Theorem checkDailyTasks_resets `{host : Host} `{codec : MyPlanApp.TaskCodec}
    (t_today t_save : Z) (st : MyPlanApp.Session) :
  let run := MyPlanApp.checkDailyTasks t_today t_save st in
  let before := MyPlanApp.tasks (MyPlanApp.session_app st) in
  let after := MyPlanApp.tasks (MyPlanApp.session_app (fst run)) in
  (MyPlanApp.localStorage st !! MyPlanApp.dailyCheckKey
     = Some (toDateString t_today) ->
   run = (st, MyPlanApp.Returned)) /\
  (MyPlanApp.localStorage st !! MyPlanApp.dailyCheckKey
     <> Some (toDateString t_today) ->
   MyPlanApp.notificationManager (MyPlanApp.session_app (fst run))
     = MyPlanApp.notificationManager (MyPlanApp.session_app st) /\
   length after = length before /\
   forall i task, before !! i = Some task ->
     exists task',
       after !! i = Some task' /\
       task_id task' = task_id task /\ text task' = text task /\
       priority task' = priority task /\ createdAt task' = createdAt task /\
       updatedAt task' = updatedAt task /\
       (priority task = "daily" -> completed task' = false) /\
       (priority task = "daily" -> completed task = true ->
        completedAt task' = None) /\
       (priority task <> "daily" \/ completed task = false -> task' = task)).
Proof.
  cbv zeta. rewrite checkDailyTasks_unfolded. cbv zeta.
  case_bool_decide as Hchecked.
  - split; [reflexivity | contradiction].
  - split; [contradiction|]. intros _.
    assert (Hsweep : forall (o1 o2 : MyPlanApp.Outcome) ls1 ls2 (b : bool),
      MyPlanApp.session_app
        (fst (if b
              then ({| MyPlanApp.session_app := sweep (MyPlanApp.session_app st);
                       MyPlanApp.localStorage := ls1 |}, o1)
              else ({| MyPlanApp.session_app := sweep (MyPlanApp.session_app st);
                       MyPlanApp.localStorage := ls2 |}, o2)))
      = sweep (MyPlanApp.session_app st)) by (intros; destruct b; reflexivity).
    rewrite Hsweep. cbn [sweep MyPlanApp.tasks MyPlanApp.notificationManager].
    split; [reflexivity|]. split; [apply length_map|].
    intros i task Hi. exists (MyPlanApp.resetDaily task).
    split; [now rewrite list_lookup_fmap, Hi|].
    apply resetDaily_fields.
Qed.

Lemma checkDailyTasks_resets_witness :
  let st :=
    {| MyPlanApp.session_app :=
         {| MyPlanApp.tasks :=
              [demoTask "daily" true 1; demoTask "general" true 2];
            MyPlanApp.notificationManager := NM.constructor 0 0 |};
       MyPlanApp.localStorage := ∅ |} in
  MyPlanApp.tasks
    (MyPlanApp.session_app
       (fst (MyPlanApp.checkDailyTasks (host := codecHost 2)
               (codec := demoCodec) 86400000 86400000 st)))
  = [ {| task_id := "a"; text := "write report"; priority := "daily";
         completed := false; createdAt := 1; updatedAt := 1;
         completedAt := None |};
      demoTask "general" true 2 ] /\
  length
    (MyPlanApp.tasks
       (MyPlanApp.session_app
          (fst (MyPlanApp.checkDailyTasks (host := codecHost 2)
                  (codec := demoCodec) 86400000 86400000 st)))) = 2%nat.
Proof.
  intros st. split; [vm_compute; reflexivity|].
  destruct (checkDailyTasks_resets (host := codecHost 2) (codec := demoCodec)
              86400000 86400000 st) as [_ Hreset].
  destruct Hreset as (_ & Hlen & _); [discriminate|]. exact Hlen.
Defined.

(** X16.  The reset runs once per day: after a run that found the date of
    today stored or could store it, a second run on the same calendar day
    changes nothing and returns, also when the first run threw after
    storing the date. *)
Theorem checkDailyTasks_once_per_day `{host : Host}
    `{codec : MyPlanApp.TaskCodec}
    (t_first s_first t_second s_second : Z) (st : MyPlanApp.Session) :
  toDateString t_second = toDateString t_first ->
  MyPlanApp.localStorage st !! MyPlanApp.dailyCheckKey
    = Some (toDateString t_first)
  \/ storageFits (<[MyPlanApp.dailyCheckKey := toDateString t_first]>
                    (MyPlanApp.localStorage st)) = true ->
  let first := fst (MyPlanApp.checkDailyTasks t_first s_first st) in
  MyPlanApp.checkDailyTasks t_second s_second first
    = (first, MyPlanApp.Returned).
Proof.
  intros Hday Hstored first.
  assert (Hkey : MyPlanApp.localStorage first !! MyPlanApp.dailyCheckKey
                 = Some (toDateString t_first)).
  { subst first. rewrite checkDailyTasks_unfolded. cbv zeta.
    case_bool_decide as Hchecked; [exact Hchecked|].
    destruct Hstored as [Hfound | Hfit]; [contradiction|].
    rewrite Hfit. cbn [fst MyPlanApp.localStorage].
    rewrite saveTasks_keeps_other_keys by discriminate.
    apply lookup_insert_eq. }
  rewrite (checkDailyTasks_unfolded t_second s_second first). cbv zeta.
  rewrite Hday. now rewrite bool_decide_eq_true_2.
Qed.

Lemma checkDailyTasks_once_per_day_witness :
  let st :=
    {| MyPlanApp.session_app :=
         {| MyPlanApp.tasks := [demoTask "daily" true 1];
            MyPlanApp.notificationManager := NM.constructor 0 0 |};
       MyPlanApp.localStorage := ∅ |} in
  let first :=
    MyPlanApp.checkDailyTasks (host := codecHost 2) (codec := demoCodec)
      86400000 86400000 st in
  snd first = MyPlanApp.Threw /\
  MyPlanApp.checkDailyTasks (host := codecHost 2) (codec := demoCodec)
    90000000 90000000 (fst first) = (fst first, MyPlanApp.Returned).
Proof.
  intros st first. split; [vm_compute; reflexivity|].
  apply (checkDailyTasks_once_per_day (host := codecHost 2)
           (codec := demoCodec) 86400000 86400000 90000000 90000000 st).
  - vm_compute. reflexivity.
  - right. vm_compute. reflexivity.
Defined.

(** X17.  The class of this revision defines no method showNotification, so
    checkDailyTasks ends in a TypeError exactly when it ran the reset, the
    date was stored, and the collection has a task of priority daily; the
    only other throw is a refused write of the date.  On a day already
    checked it never throws. *)
Theorem checkDailyTasks_throws `{host : Host} `{codec : MyPlanApp.TaskCodec}
    (t_today t_save : Z) (st : MyPlanApp.Session) :
  snd (MyPlanApp.checkDailyTasks t_today t_save st) = MyPlanApp.Threw <->
  MyPlanApp.localStorage st !! MyPlanApp.dailyCheckKey
    <> Some (toDateString t_today) /\
  (storageFits (<[MyPlanApp.dailyCheckKey := toDateString t_today]>
                  (MyPlanApp.localStorage st)) = false
   \/ exists task,
        In task (MyPlanApp.tasks (MyPlanApp.session_app st))
        /\ priority task = "daily").
Proof.
  rewrite checkDailyTasks_unfolded. cbv zeta.
  assert (Hdaily : hasDaily (MyPlanApp.tasks (MyPlanApp.session_app st)) = true
                   <-> exists task,
                         In task (MyPlanApp.tasks (MyPlanApp.session_app st))
                         /\ priority task = "daily").
  { unfold hasDaily. rewrite existsb_exists.
    split; intros (task & Hin & Hp); exists task; split; auto;
      now apply String.eqb_eq. }
  case_bool_decide as Hchecked; cbn [snd].
  - split; [discriminate | intros [Hnot _]; contradiction].
  - destruct (storageFits _); cbn [snd].
    + destruct (hasDaily _) eqn:Hd.
      * split; [|reflexivity]. intros _. split; [assumption|].
        right. now apply Hdaily.
      * split; [discriminate|]. intros [_ [Hno | Hex]]; [discriminate|].
        apply Hdaily in Hex. discriminate.
    + split; [|reflexivity]. intros _. split; [assumption | now left].
Qed.

Lemma checkDailyTasks_throws_witness :
  let st :=
    {| MyPlanApp.session_app :=
         {| MyPlanApp.tasks := [demoTask "daily" false 1];
            MyPlanApp.notificationManager := NM.constructor 0 0 |};
       MyPlanApp.localStorage := ∅ |} in
  snd (MyPlanApp.checkDailyTasks (host := codecHost 2) (codec := demoCodec)
         86400000 86400000 st) = MyPlanApp.Threw.
Proof.
  intros st.
  apply (checkDailyTasks_throws (host := codecHost 2) (codec := demoCodec)).
  split; [discriminate|]. right.
  exists (demoTask "daily" false 1). split; [left; reflexivity | reflexivity].
Defined.

(** ** The application: the rendered lists *)

Lemma filter_none {A} (f : A -> bool) (l : list A) :
  Forall (fun x => f x = false) l -> List.filter f l = [].
Proof.
  induction 1 as [|x l Hx _ IH]; simpl; [reflexivity|]. now rewrite Hx.
Qed.

Lemma pending_completed_split (l : list Task) :
  (List.filter (fun task => negb (completed task)) l
   ++ List.filter (fun task => completed task) l)%list ≡ₚ l.
Proof.
  induction l as [|x l IH]; simpl; [reflexivity|].
  destruct (completed x); simpl.
  - rewrite <- Permutation_middle. now apply Permutation_skip.
  - now apply Permutation_skip.
Qed.

Lemma cardTasks_content p ui :
  default [] (MyPlanApp.cardTasks p ui) ≡ₚ
    List.filter (hasPriority p)
      (List.filter (fun task => negb (completed task))
                   (MyPlanApp.getFilteredTasks ui)).
Proof.
  unfold MyPlanApp.cardTasks. cbv zeta.
  fold (hasPriority p).
  set (tasksToShow := List.filter (hasPriority p) _).
  destruct (negb (String.eqb (MyPlanApp.currentFilter ui) "all")) eqn:Hall.
  - destruct (String.eqb (MyPlanApp.currentFilter ui) p) eqn:Hp; simpl.
    + destruct (0 <? length tasksToShow)%nat eqn:Hlen; simpl.
      * apply sort_Permutation.
      * apply Nat.ltb_ge in Hlen. destruct tasksToShow; [reflexivity|].
        simpl in Hlen. lia.
    + subst tasksToShow. rewrite filter_none; [reflexivity|].
      apply Forall_forall. intros task Hin.
      apply list_elem_of_In, filter_In in Hin as [Hin _].
      unfold MyPlanApp.getFilteredTasks in Hin.
      apply negb_true_iff in Hall. rewrite Hall in Hin.
      apply filter_In in Hin as [_ Hprio].
      apply String.eqb_eq in Hprio. unfold hasPriority. rewrite Hprio.
      exact Hp.
  - destruct (0 <? length tasksToShow)%nat eqn:Hlen; simpl.
    + apply sort_Permutation.
    + apply Nat.ltb_ge in Hlen. destruct tasksToShow; [reflexivity|].
      simpl in Hlen. lia.
Qed.

Lemma filter_preserves_Forall {A} (P : A -> Prop) (f : A -> bool) (l : list A) :
  Forall P l -> Forall P (List.filter f l).
Proof.
  induction 1 as [|x l Hx _ IH]; simpl; [constructor|].
  destruct (f x); [constructor|]; assumption.
Qed.

(** X18.  What updateTaskDisplay renders.  The four priority cards and the
    completed section hold only tasks of the current filter; when all of
    those have one of the four priorities, each of them is rendered exactly
    once.  A pending task whose priority is none of the four is rendered
    nowhere. *)
Theorem rendered_lists_cover (ui : MyPlanApp.Ui) :
  let shown := MyPlanApp.getFilteredTasks ui in
  let rendered := (renderedCards ui ++ MyPlanApp.completedSection ui)%list in
  (forall task, task ∈ rendered -> task ∈ shown) /\
  (Forall (fun task => priority task ∈ MyPlanApp.priorities) shown ->
   rendered ≡ₚ shown) /\
  (forall task, task ∈ shown -> completed task = false ->
     priority task ∉ MyPlanApp.priorities -> task ∉ rendered).
Proof.
  cbv zeta.
  assert (Hcards : renderedCards ui ≡ₚ
    (List.filter (hasPriority "important")
       (List.filter (fun task => negb (completed task))
                    (MyPlanApp.getFilteredTasks ui))
     ++ List.filter (hasPriority "daily")
          (List.filter (fun task => negb (completed task))
                       (MyPlanApp.getFilteredTasks ui))
     ++ List.filter (hasPriority "secondary")
          (List.filter (fun task => negb (completed task))
                       (MyPlanApp.getFilteredTasks ui))
     ++ List.filter (hasPriority "general")
          (List.filter (fun task => negb (completed task))
                       (MyPlanApp.getFilteredTasks ui)))%list).
  { unfold renderedCards, MyPlanApp.priorities. simpl.
    rewrite !cardTasks_content, app_nil_r. reflexivity. }
  assert (Hdone : MyPlanApp.completedSection ui ≡ₚ
            List.filter (fun task => completed task)
                        (MyPlanApp.getFilteredTasks ui))
    by apply sort_Permutation.
  assert (Hin : forall task,
    task ∈ (renderedCards ui ++ MyPlanApp.completedSection ui)%list ->
    task ∈ MyPlanApp.getFilteredTasks ui /\
    (completed task = true \/ priority task ∈ MyPlanApp.priorities)).
  { intros task. rewrite Hcards, Hdone, !elem_of_app, !list_elem_of_In,
      !filter_In. unfold hasPriority, MyPlanApp.priorities.
    intros [[[[Hin _] Hp] | [[[Hin _] Hp] | [[[Hin _] Hp] | [[Hin _] Hp]]]]
           | [Hin Hc]];
      (split; [assumption|]); try (now left);
      right; apply String.eqb_eq in Hp; rewrite Hp; simpl; tauto. }
  split; [|split].
  - intros task Hr. now apply Hin.
  - intros Hvalid. rewrite Hcards, Hdone.
    rewrite (filter_priorities_partition _
               (filter_preserves_Forall _ _ _ Hvalid)).
    apply pending_completed_split.
  - intros task _ Hpending Hunknown Hr.
    destruct (Hin task Hr) as [_ [Hc | Hp]]; [congruence | contradiction].
Qed.

Lemma rendered_lists_cover_witness :
  let ui :=
    {| MyPlanApp.ui_app :=
         {| MyPlanApp.tasks :=
              [demoTask "daily" false 1; demoTask "general" true 2;
               demoTask "daily" false 3];
            MyPlanApp.notificationManager := NM.constructor 0 0 |};
       MyPlanApp.currentFilter := "all";
       MyPlanApp.editingTaskId := None |} in
  MyPlanApp.cardTasks "daily" ui
    = Some [demoTask "daily" false 3; demoTask "daily" false 1] /\
  (renderedCards ui ++ MyPlanApp.completedSection ui)%list
    ≡ₚ MyPlanApp.getFilteredTasks ui.
Proof.
  intros ui. split; [vm_compute; reflexivity|].
  destruct (rendered_lists_cover ui) as (_ & Hcover & _).
  apply Hcover. apply (bool_decide_unpack _). vm_compute. exact I.
Defined.

(** ** The notification manager: pools, gates and counters *)

Lemma table_length entry size : length (NM.table entry size) = size.
Proof. unfold NM.table. now rewrite length_map, length_seq. Qed.

Lemma table_defined entry size :
  (forall i, entry i <> NM.UndefinedMessage) ->
  Forall (fun m => m <> NM.UndefinedMessage) (NM.table entry size).
Proof.
  intros Hentry. unfold NM.table. apply Forall_forall. intros m Hin.
  apply list_elem_of_fmap in Hin as (i & -> & _). apply Hentry.
Qed.

Lemma pool_length `{host : Host} timeOfDay uncompleted completed t_hour r_quote :
  (20 <= length (NM.getMotivationMessages timeOfDay uncompleted completed
                   t_hour r_quote) <= 39)%nat.
Proof.
  unfold NM.getMotivationMessages. cbv zeta.
  rewrite !length_app, table_length.
  repeat match goal with
         | |- context [if ?b then _ else _] => destruct b
         end; rewrite ?table_length; simpl; lia.
Qed.

Lemma pool_defined `{host : Host} timeOfDay uncompleted completed t_hour r_quote :
  Forall (fun m => m <> NM.UndefinedMessage)
    (NM.getMotivationMessages timeOfDay uncompleted completed t_hour r_quote).
Proof.
  unfold NM.getMotivationMessages. cbv zeta.
  repeat match goal with
         | |- context [if ?b then _ else _] => destruct b
         end;
  repeat (apply Forall_app; split);
  try (apply table_defined; intros i; discriminate);
  repeat constructor; discriminate.
Qed.

Lemma pick_in_range (messages : list NM.Message) (r : Q) :
  (0 <= r)%Q -> (r < 1)%Q -> messages <> [] ->
  NM.pick messages r ∈ messages.
Proof.
  intros Hlo Hhi Hne. unfold NM.pick. cbv zeta.
  set (n := Z.of_nat (length messages)).
  assert (Hn : 0 < n).
  { subst n. destruct messages; [contradiction | simpl; lia]. }
  assert (Hn' : (0 < inject_Z n)%Q).
  { change 0%Q with (inject_Z 0). rewrite <- Zlt_Qlt. exact Hn. }
  assert (Hfloor_lo : 0 <= Qfloor (r * inject_Z n)).
  { change 0 with (Qfloor 0). apply Qfloor_resp_le. nra. }
  assert (Hfloor_hi : Qfloor (r * inject_Z n) < n).
  { rewrite Zlt_Qlt. eapply Qle_lt_trans; [apply Qfloor_le|]. nra. }
  destruct (Qfloor (r * inject_Z n) <? 0)%Z eqn:Hneg;
    [apply Z.ltb_lt in Hneg; lia|].
  destruct (messages !! Z.to_nat (Qfloor (r * inject_Z n))) as [m|] eqn:Hm.
  - simpl. eapply list_elem_of_lookup_2; eauto.
  - apply lookup_ge_None in Hm. subst n. lia.
Qed.

(** X19.  The pool getMotivationMessages builds has between 20 and 39
    texts, and a selection sample in [0, 1) picks one of them: the message
    of a motivation is never undefined. *)
Theorem motivation_message_defined `{host : Host}
    (timeOfDay : NM.TimeOfDay) (uncompleted completed : nat)
    (t_hour : Z) (r_quote r_pick : Q) :
  (0 <= r_pick)%Q -> (r_pick < 1)%Q ->
  let pool :=
    NM.getMotivationMessages timeOfDay uncompleted completed t_hour r_quote in
  (20 <= length pool <= 39)%nat /\
  NM.pick pool r_pick ∈ pool /\
  NM.pick pool r_pick <> NM.UndefinedMessage.
Proof.
  intros Hlo Hhi pool. subst pool.
  pose proof (pool_length timeOfDay uncompleted completed t_hour r_quote) as Hlen.
  assert (Hin : NM.pick (NM.getMotivationMessages timeOfDay uncompleted
                           completed t_hour r_quote) r_pick
                ∈ NM.getMotivationMessages timeOfDay uncompleted completed
                    t_hour r_quote).
  { apply pick_in_range; [assumption | assumption |].
    intros Hnil. rewrite Hnil in Hlen. simpl in Hlen. lia. }
  split; [exact Hlen|]. split; [exact Hin|].
  pose proof (pool_defined timeOfDay uncompleted completed t_hour r_quote) as Hd.
  rewrite Forall_forall in Hd. now apply Hd.
Qed.

Lemma motivation_message_defined_witness :
  NM.pick (NM.getMotivationMessages (host := demoHost) NM.morning 2 1
             (9 * 3600000) 0.5) 0.99
  <> NM.UndefinedMessage.
Proof.
  apply (motivation_message_defined (host := demoHost) NM.morning 2 1
           (9 * 3600000) 0.5 0.99); [unfold Qle | unfold Qlt]; simpl; lia.
Defined.

Lemma pool_nonempty `{host : Host} timeOfDay uncompleted completed t_hour r_quote :
  (0 <? length (NM.getMotivationMessages timeOfDay uncompleted completed
                  t_hour r_quote))%nat = true.
Proof.
  apply Nat.ltb_lt.
  pose proof (pool_length timeOfDay uncompleted completed t_hour r_quote). lia.
Qed.

(** X20.  showSmartNotification emits a motivation exactly when its sample
    is at most the probability of the snapshot and the cooldown has elapsed
    since the last motivation; nothing else decides. *)
Theorem smart_emits_iff `{host : Host}
    (tasks : list Task) (r : NM.SmartReadings) (s : NM.State) :
  emitsMotivation (snd (NM.showSmartNotification tasks r s)) = true <->
  (NM.sr_gate r <=
     NM.smartNotificationProbability
       (length (pendingTasks tasks))
       (length (List.filter (NM.completedOn (NM.sr_today r)) tasks))
       (NM.getTimeOfDay (NM.sr_tod r)))%Q /\
  (NM.motivationCooldown s <= NM.sr_now r - NM.lastMotivationTime s)%Z.
Proof.
  unfold NM.showSmartNotification, pendingTasks. rewrite pool_nonempty.
  rewrite <- Qle_bool_iff, <- Z.leb_le, <- andb_true_iff.
  repeat match goal with
         | |- context [if ?b then _ else _] => destruct b eqn:?
         end; simpl in *; split; intros; congruence.
Qed.

Lemma smart_emits_iff_witness :
  emitsMotivation
    (snd (NM.showSmartNotification (host := demoHost)
            [demoTask "daily" false 1000]
            {| NM.sr_tod := 100000; NM.sr_today := 100000; NM.sr_now := 100000;
               NM.sr_gate := 0.6; NM.sr_hour := 100000; NM.sr_quote := 0.5;
               NM.sr_pick := 0.5 |}
            (NM.constructor 0 0))) = true.
Proof.
  apply (smart_emits_iff (host := demoHost)).
  split; [unfold Qle; simpl; lia | simpl; lia].
Defined.

(** X21.  checkAndShowPeriodicMotivation emits a motivation exactly when the
    page is visible, the last activity is at most minActiveTime old, the
    cooldown has elapsed, and the sample is at most the computed
    probability. *)
Theorem periodic_emits_iff `{host : Host}
    (tasks : list Task) (r : NM.PeriodicReadings) (s : NM.State) :
  emitsMotivation (snd (NM.checkAndShowPeriodicMotivation tasks r s)) = true <->
  NM.isPageVisible s = true /\
  (NM.pr_active r - NM.userActiveTime s <= NM.minActiveTime s)%Z /\
  (NM.motivationCooldown s <= NM.pr_cool r - NM.lastMotivationTime s)%Z /\
  (NM.pr_gate r <=
     NM.calculateSmartMotivationProbability
       (pendingTasks tasks)
       (List.filter (NM.completedOn (NM.pr_today r)) tasks)
       (NM.getTimeOfDay (NM.pr_tod r))
       (NM.pr_session r) (NM.pr_completion r) (NM.pr_hour r) s)%Q.
Proof.
  unfold NM.checkAndShowPeriodicMotivation, pendingTasks.
  rewrite pool_nonempty. rewrite <- Qle_bool_iff.
  destruct (NM.isPageVisible s); simpl;
    [|split; [discriminate | intros [? _]; discriminate]].
  destruct (NM.minActiveTime s <? NM.pr_active r - NM.userActiveTime s)%Z
    eqn:Hactive;
    [apply Z.ltb_lt in Hactive; simpl;
     split; [discriminate | intros (_ & ? & _); lia]|].
  apply Z.ltb_ge in Hactive.
  destruct (NM.pr_cool r - NM.lastMotivationTime s <? NM.motivationCooldown s)%Z
    eqn:Hcool;
    [apply Z.ltb_lt in Hcool; simpl;
     split; [discriminate | intros (_ & _ & ? & _); lia]|].
  apply Z.ltb_ge in Hcool.
  destruct (Qle_bool _ _); simpl.
  - split; [intros _; repeat split; auto | reflexivity].
  - split; [discriminate | intros (_ & _ & _ & ?); discriminate].
Qed.

Lemma periodic_emits_iff_witness :
  emitsMotivation
    (snd (NM.checkAndShowPeriodicMotivation (host := demoHost)
            [demoTask "daily" false 1000]
            {| NM.pr_active := 60000; NM.pr_cool := 60000; NM.pr_today := 60000;
               NM.pr_tod := 60000; NM.pr_session := 60000;
               NM.pr_completion := 60000; NM.pr_hour := 60000; NM.pr_gate := 0;
               NM.pr_msgHour := 60000; NM.pr_quote := 0.5; NM.pr_pick := 0.5;
               NM.pr_emit := 60000 |}
            (NM.constructor 0 0))) = true.
Proof.
  apply (periodic_emits_iff (host := demoHost)).
  split; [reflexivity|]. split; [simpl; lia|]. split; [simpl; lia|].
  vm_compute. discriminate.
Defined.

(** X22.  Only the periodic path counts the motivations: a periodic check
    adds one to motivationsShown when it emits and nothing otherwise, and
    changes nothing else of the behaviour data; showSmartNotification
    leaves the behaviour data as they are, whether it emits or not. *)
Theorem motivations_shown_counter `{host : Host}
    (tasks : list Task) (sr : NM.SmartReadings) (pr : NM.PeriodicReadings)
    (s : NM.State) :
  NM.userBehaviorData (fst (NM.showSmartNotification tasks sr s))
    = NM.userBehaviorData s /\
  let run := NM.checkAndShowPeriodicMotivation tasks pr s in
  let b := NM.userBehaviorData s in
  NM.userBehaviorData (fst run) =
    {| NM.sessionStartTime := NM.sessionStartTime b;
       NM.tasksCompletedInSession := NM.tasksCompletedInSession b;
       NM.motivationsShown :=
         NM.motivationsShown b + (if emitsMotivation (snd run) then 1 else 0);
       NM.lastTaskCompletionTime := NM.lastTaskCompletionTime b;
       NM.averageTaskCompletionTime := NM.averageTaskCompletionTime b;
       NM.userEngagementScore := NM.userEngagementScore b |}.
Proof.
  split.
  - unfold NM.showSmartNotification.
    repeat match goal with
           | |- context [if ?b then _ else _] => destruct b
           end; reflexivity.
  - cbv zeta. unfold NM.checkAndShowPeriodicMotivation.
    rewrite pool_nonempty.
    destruct (NM.userBehaviorData s) eqn:Hb.
    destruct (negb (NM.isPageVisible s));
      [simpl; rewrite Hb, Z.add_0_r; reflexivity|].
    destruct (NM.minActiveTime s <? NM.pr_active pr - NM.userActiveTime s)%Z;
      [simpl; rewrite Hb, Z.add_0_r; reflexivity|].
    destruct (NM.pr_cool pr - NM.lastMotivationTime s <? NM.motivationCooldown s)%Z;
      [simpl; rewrite Hb, Z.add_0_r; reflexivity|].
    destruct (Qle_bool _ _); simpl; rewrite Hb; simpl;
      rewrite ?Z.add_0_r; reflexivity.
Qed.

Lemma motivations_shown_counter_witness :
  NM.motivationsShown
    (NM.userBehaviorData
       (fst (NM.checkAndShowPeriodicMotivation (host := demoHost)
               [demoTask "daily" false 1000]
               {| NM.pr_active := 60000; NM.pr_cool := 60000;
                  NM.pr_today := 60000; NM.pr_tod := 60000;
                  NM.pr_session := 60000; NM.pr_completion := 60000;
                  NM.pr_hour := 60000; NM.pr_gate := 0;
                  NM.pr_msgHour := 60000; NM.pr_quote := 0.5;
                  NM.pr_pick := 0.5; NM.pr_emit := 60000 |}
               (NM.constructor 0 0)))) = 1.
Proof.
  rewrite (proj2 (motivations_shown_counter (host := demoHost)
                    [demoTask "daily" false 1000]
                    {| NM.sr_tod := 0; NM.sr_today := 0; NM.sr_now := 0;
                       NM.sr_gate := 0; NM.sr_hour := 0; NM.sr_quote := 0;
                       NM.sr_pick := 0 |}
                    _ (NM.constructor 0 0))).
  vm_compute. reflexivity.
Defined.

(** X23.  With everything else equal, a higher engagement score never gives
    a lower periodic probability. *)
Theorem probability_monotone_in_engagement `{host : Host}
    (uncompletedTasks completedToday : list Task) (timeOfDay : NM.TimeOfDay)
    (t_session t_completion t_hour : Z) (s : NM.State) (q1 q2 : Q) :
  (q1 <= q2)%Q ->
  (NM.calculateSmartMotivationProbability uncompletedTasks completedToday
     timeOfDay t_session t_completion t_hour (withScore q1 s)
   <= NM.calculateSmartMotivationProbability uncompletedTasks completedToday
        timeOfDay t_session t_completion t_hour (withScore q2 s))%Q.
Proof.
  intros Hq. unfold NM.calculateSmartMotivationProbability, withScore.
  cbn [NM.userBehaviorData NM.set_userBehaviorData NM.userEngagementScore
       NM.sessionStartTime NM.lastTaskCompletionTime NM.motivationsShown].
  cbv zeta.
  apply Q.min_le_compat_r, Q.max_le_compat_r.
  repeat match goal with
         | |- context [if ?b then _ else _] => destruct b
         end; lra.
Qed.

Lemma probability_monotone_in_engagement_witness :
  (NM.calculateSmartMotivationProbability (host := demoHost) [] [] NM.afternoon
     0 0 (12 * 3600000) (withScore 0.2 (NM.constructor 0 0))
   <= NM.calculateSmartMotivationProbability (host := demoHost) [] []
        NM.afternoon 0 0 (12 * 3600000) (withScore 0.9 (NM.constructor 0 0)))%Q.
Proof.
  apply (probability_monotone_in_engagement (host := demoHost)).
  unfold Qle; simpl; lia.
Defined.




(** X25.  When showSmartNotification emits a motivation, the element shows
    the motivation, not the banner the same call may have shown before it;
    and whatever the tasks and the hour when the motivation later converts,
    the banner it converts into is not of high urgency.  So the night
    banner of a call that also emits a motivation is replaced for good. *)
Theorem motivation_replaces_banner `{host : Host}
    (tasks : list Task) (r : NM.SmartReadings) (s : NM.State) :
  emitsMotivation (snd (NM.showSmartNotification tasks r s)) = true ->
  let s' := fst (NM.showSmartNotification tasks r s) in
  NM.display s' =
    NM.ShowingMotivation
      (NM.pick
         (NM.getMotivationMessages (NM.getTimeOfDay (NM.sr_tod r))
            (length (pendingTasks tasks))
            (length (List.filter (NM.completedOn (NM.sr_today r)) tasks))
            (NM.sr_hour r) (NM.sr_quote r))
         (NM.sr_pick r)) /\
  (forall later t_tod text,
     NM.display (NM.convertMotivationToTopNotification later t_tod s')
     <> NM.ShowingBanner text NM.high).
Proof.
  intros Hemit s'.
  assert (Hdisplay : NM.display s' =
    NM.ShowingMotivation
      (NM.pick
         (NM.getMotivationMessages (NM.getTimeOfDay (NM.sr_tod r))
            (length (pendingTasks tasks))
            (length (List.filter (NM.completedOn (NM.sr_today r)) tasks))
            (NM.sr_hour r) (NM.sr_quote r))
         (NM.sr_pick r))).
  { subst s'. revert Hemit.
    unfold NM.showSmartNotification, pendingTasks. rewrite pool_nonempty.
    repeat match goal with
           | |- context [if ?b then _ else _] => destruct b eqn:?
           end; simpl; intros He; try discriminate; reflexivity. }
  split; [exact Hdisplay|].
  intros later t_tod text.
  unfold NM.convertMotivationToTopNotification. rewrite Hdisplay.
  repeat match goal with
         | |- context [if ?b then _ else _] => destruct b
         end; discriminate.
Qed.

Lemma motivation_replaces_banner_witness :
  let run :=
    NM.showSmartNotification (host := demoHost)
      [demoTask "daily" false 1000]
      {| NM.sr_tod := 23 * 3600000; NM.sr_today := 23 * 3600000;
         NM.sr_now := 23 * 3600000; NM.sr_gate := 0;
         NM.sr_hour := 23 * 3600000; NM.sr_quote := 0.5;
         NM.sr_pick := 0 |}
      (NM.constructor 0 0) in
  (NM.urgency <$> bannersOf (snd run)) = [NM.high] /\
  NM.display (fst run) = NM.ShowingMotivation (NM.TimeMessage NM.night 0).
Proof.
  intros run. split; [vm_compute; reflexivity|].
  assert (Hemit : emitsMotivation (snd run) = true) by (vm_compute; reflexivity).
  exact (proj1 (motivation_replaces_banner (host := demoHost) _ _ _ Hemit)).
Defined.

(** ** The application: the order of the rendered lists *)

#[local] Instance compareCreated_total :
  Total (MyPlanApp.inOrder MyPlanApp.compareCreated).
Proof. intros a b. unfold MyPlanApp.inOrder, MyPlanApp.compareCreated. lia. Qed.

#[local] Instance compareCreated_transitive :
  Transitive (MyPlanApp.inOrder MyPlanApp.compareCreated).
Proof.
  intros a b c. unfold MyPlanApp.inOrder, MyPlanApp.compareCreated. lia.
Qed.

#[local] Instance compareCompleted_total :
  Total (MyPlanApp.inOrder MyPlanApp.compareCompleted).
Proof.
  intros a b. unfold MyPlanApp.inOrder, MyPlanApp.compareCompleted. lia.
Qed.

#[local] Instance compareCompleted_transitive :
  Transitive (MyPlanApp.inOrder MyPlanApp.compareCompleted).
Proof.
  intros a b c. unfold MyPlanApp.inOrder, MyPlanApp.compareCompleted. lia.
Qed.

(** X26.  The order on the page: in a priority card that is shown, which is
    never empty, a task placed before another was not created before it;
    in the completed section a task placed before another was not completed
    before it, the creation time standing for a missing completion time. *)
Theorem rendered_order (ui : MyPlanApp.Ui) :
  (forall p card (i j : nat) a b,
     MyPlanApp.cardTasks p ui = Some card ->
     card <> [] /\
     ((i < j)%nat -> card !! i = Some a -> card !! j = Some b ->
      createdAt b <= createdAt a)) /\
  (forall (i j : nat) a b,
     (i < j)%nat ->
     MyPlanApp.completedSection ui !! i = Some a ->
     MyPlanApp.completedSection ui !! j = Some b ->
     default (createdAt b) (completedAt b)
     <= default (createdAt a) (completedAt a)).
Proof.
  split.
  - intros p card i j a b. unfold MyPlanApp.cardTasks. cbv zeta.
    set (tasksToShow := List.filter _ (List.filter _ _)).
    assert (Hshown : forall shouldShow : bool,
      (shouldShow = true -> (0 < length tasksToShow)%nat) ->
      (if shouldShow
       then Some (MyPlanApp.sort MyPlanApp.compareCreated tasksToShow)
       else None) = Some card ->
      card <> [] /\
      ((i < j)%nat -> card !! i = Some a -> card !! j = Some b ->
       createdAt b <= createdAt a)).
    { intros [|] Hlen; [|discriminate]. intros [= <-]. split.
      - intros Hnil. specialize (Hlen eq_refl).
        assert (Hp := sort_Permutation MyPlanApp.compareCreated tasksToShow).
        rewrite Hnil in Hp. apply Permutation_nil in Hp. rewrite Hp in Hlen.
        simpl in Hlen. lia.
      - intros Hij Hi Hj.
        pose proof (StronglySorted_lookup_lt _ _
                      (StronglySorted_merge_sort
                         (MyPlanApp.inOrder MyPlanApp.compareCreated)
                         tasksToShow) i j a b Hij Hi Hj) as Hord.
        unfold MyPlanApp.inOrder, MyPlanApp.compareCreated in Hord. lia. }
    apply Hshown.
    destruct (negb _); intros Hs;
      [apply andb_prop in Hs as [_ Hs]|]; now apply Nat.ltb_lt.
  - intros i j a b Hij Hi Hj.
    pose proof (StronglySorted_lookup_lt _ _
                  (StronglySorted_merge_sort
                     (MyPlanApp.inOrder MyPlanApp.compareCompleted) _)
                  i j a b Hij Hi Hj) as Hord.
    unfold MyPlanApp.inOrder, MyPlanApp.compareCompleted in Hord. lia.
Qed.

Lemma rendered_order_witness :
  let ui :=
    {| MyPlanApp.ui_app :=
         {| MyPlanApp.tasks :=
              [demoTask "daily" false 1; demoTask "daily" false 3];
            MyPlanApp.notificationManager := NM.constructor 0 0 |};
       MyPlanApp.currentFilter := "daily";
       MyPlanApp.editingTaskId := None |} in
  MyPlanApp.cardTasks "daily" ui
    = Some [demoTask "daily" false 3; demoTask "daily" false 1] /\
  createdAt (demoTask "daily" false 1) <= createdAt (demoTask "daily" false 3).
Proof.
  intros ui.
  assert (Hcard : MyPlanApp.cardTasks "daily" ui
                  = Some [demoTask "daily" false 3; demoTask "daily" false 1])
    by (vm_compute; reflexivity).
  split; [exact Hcard|].
  destruct (rendered_order ui) as [Hcards _].
  apply (proj2 (Hcards "daily" _ 0%nat 1%nat
                  (demoTask "daily" false 3) (demoTask "daily" false 1) Hcard));
    [lia | reflexivity | reflexivity].
Defined.

(** ** The stored collection: null entries and the time of the last save *)

Lemma filterM_throws {A} (pred : A -> option bool) (l : list A) x :
  x ∈ l -> pred x = None -> TaskStorage.filterM pred l = None.
Proof.
  intros Hin Hx. induction l as [|y l IH]; [now apply elem_of_nil in Hin|].
  simpl. apply elem_of_cons in Hin as [<- | Hin].
  - now rewrite Hx.
  - rewrite (IH Hin). now destruct (pred y).
Qed.

(** X27.  loadTasks returns a stored list as it is, null entries included;
    but with a null entry in the stored list the three queries, deleteTask
    and getStorageStats throw (reading a field of null), each without
    writing. *)
Theorem null_entry_makes_queries_throw `{host : Host} `{extra : HostExtra}
    (ls : gmap string string) (p taskId : string) (now : Z) :
  JNull ∈ storedTasks ls ->
  TaskStorage.loadTasks ls = (Some (storedTasks ls), ls) /\
  TaskStorage.getTasksByPriority p ls = (None, ls) /\
  TaskStorage.getCompletedTasks ls = (None, ls) /\
  TaskStorage.getPendingTasks ls = (None, ls) /\
  TaskStorage.deleteTask taskId now ls = (None, ls) /\
  TaskStorage.getStorageStats ls = (None, ls).
Proof.
  intros Hnull.
  assert (H1 : TaskStorage.filterM (TaskStorage.priorityIs p) (storedTasks ls)
               = None) by (eapply filterM_throws; eauto).
  assert (H2 : TaskStorage.filterM TaskStorage.isCompleted (storedTasks ls)
               = None) by (eapply filterM_throws; eauto).
  assert (H3 : TaskStorage.filterM (TaskStorage.negate TaskStorage.isCompleted)
                 (storedTasks ls) = None) by (eapply filterM_throws; eauto).
  assert (H4 : TaskStorage.filterM
                 (TaskStorage.negate (TaskStorage.idIs taskId)) (storedTasks ls)
               = None) by (eapply filterM_throws; eauto).
  split; [apply loadTasks_unfolded|].
  rewrite deleteTask_unfolded, H4.
  repeat split.
  - unfold TaskStorage.getTasksByPriority, TaskStorage.bind.
    rewrite loadTasks_unfolded. unfold TaskStorage.lift. now rewrite H1.
  - unfold TaskStorage.getCompletedTasks, TaskStorage.bind.
    rewrite loadTasks_unfolded. unfold TaskStorage.lift. now rewrite H2.
  - unfold TaskStorage.getPendingTasks, TaskStorage.bind.
    rewrite loadTasks_unfolded. unfold TaskStorage.lift. now rewrite H3.
  - unfold TaskStorage.getStorageStats.
    unfold TaskStorage.bind at 1. rewrite loadTasks_unfolded.
    unfold TaskStorage.bind at 1. rewrite getSettings_reads.
    unfold TaskStorage.bind at 1. unfold TaskStorage.lift at 1.
    now rewrite H2.
Qed.

Lemma null_entry_makes_queries_throw_witness :
  let ls : gmap string string :=
    <[TaskStorage.storageKey :=
        JSON_stringify (Host := codecHost 1)
          (TaskStorage.taskData (host := codecHost 1)
             (JArray [taskObject "a" false; JNull]) 0)]> ∅ in
  TaskStorage.getCompletedTasks (host := codecHost 1) ls = (None, ls).
Proof.
  intros ls.
  destruct (null_entry_makes_queries_throw (host := codecHost 1)
              (extra := codecExtra) ls "daily" "a" 0) as (_ & _ & Hthrow & _).
  - subst ls. rewrite storedTasks_insert by apply codecHost_roundTrips.
    apply list_elem_of_further, list_elem_of_here.
  - exact Hthrow.
Defined.

(** X28.  getLastModified tracks the last successful save: when JSON
    round-trips and saveTasks reports success, getLastModified returns the
    ISO text of the time of that save (ISO texts being non-empty), without
    writing. *)
Theorem lastModified_after_save `{host : Host}
    (items : list json) (now : Z) (ls : gmap string string) :
  jsonRoundTrips ->
  toISOString now <> "" ->
  let saved := TaskStorage.saveTasks (JArray items) now ls in
  fst saved = Some true ->
  TaskStorage.getLastModified (snd saved)
    = (Some (JString (toISOString now)), snd saved).
Proof.
  intros Hrt Hiso saved. subst saved. rewrite saveTasks_array. cbv zeta.
  destruct (storageFits _); [|discriminate]. intros _. cbn [snd].
  unfold TaskStorage.getLastModified, TaskStorage.try_catch, TaskStorage.bind,
    TaskStorage.getItem.
  rewrite lookup_insert_eq.
  destruct (Hrt (TaskStorage.taskData (JArray items) now)) as [Hne ->].
  apply String.eqb_neq in Hne. rewrite Hne. simpl.
  apply String.eqb_neq in Hiso. now rewrite Hiso.
Qed.

Lemma lastModified_after_save_witness :
  TaskStorage.getLastModified (host := codecHost 2) demoStore
  = (Some (JString (toISOString (Host := codecHost 2) 0)), demoStore).
Proof.
  apply (lastModified_after_save (host := codecHost 2)
           [taskObject "a" false; taskObject "b" true] 0 ∅
           (codecHost_roundTrips 2)).
  - discriminate.
  - vm_compute. reflexivity.
Defined.
